(** * Scan-correlation pipeline of proteomicScripts/intensityWeighting

    A shallow embedding of [process_mgf_mzid.py] and [process_mgf.py]:
    the target-table loader, the tolerance matcher, the block-structured
    MGF parser, the mzIdentML scan-key extraction, the merge and the export.

    Conventions of the embedding.
    - A Python [str] is a [string]; only ASCII white space is white space
      (code points 9-13, 28-32), so text is limited to the ASCII range of
      Python's [str.isspace].  [float] skips less: 9-13 and 32 only.
    - A Python [float] is a primitive binary64 [float]; [+], [-], [*], [/],
      [abs] and [<=] are the IEEE operations Python uses.
    - A raised exception is [Raise e]; [sys.exit(1)] is [Raise SystemExit].
    - A file is given by what is read from it: the spectrum file is the
      list of its lines, as [for line in f] yields them, the target table
      its bytes, the identification document its parsed elements; the
      table written is what [export_to_csv] returns.  A path that cannot
      be opened, a document that is no XML and an output that cannot be
      written, on which the scripts end, are outside the embedding: every
      function is read as called on files that could be opened. *)

From Stdlib Require Import ZArith List String Ascii Bool Lia.
From Stdlib Require Import PrimFloat SpecFloat FloatOps.
From Stdlib Require Import DecimalString.
Import ListNotations.

Local Open Scope string_scope.
Local Open Scope list_scope.

(** ** Exceptions *)

Inductive pyexn : Type :=
| IndexError
| ValueError
| KeyError
| TypeError
| AttributeError
| SystemExit.

Inductive result (A : Type) : Type :=
| Ok (a : A)
| Raise (e : pyexn).

Arguments Ok {A} a.
Arguments Raise {A} e.

Definition bind {A B : Type} (m : result A) (k : A -> result B) : result B :=
  match m with
  | Ok a => k a
  | Raise e => Raise e
  end.

Notation "x <- m ;; k" := (bind m (fun x => k))
  (at level 61, m at next level, right associativity).

Definition pyexn_eqb (a b : pyexn) : bool :=
  match a, b with
  | IndexError, IndexError | ValueError, ValueError | KeyError, KeyError
  | TypeError, TypeError | AttributeError, AttributeError
  | SystemExit, SystemExit => true
  | _, _ => false
  end.

(** [try: m except e: h] *)
Definition try_except {A : Type} (m : result A) (e : pyexn) (h : result A)
  : result A :=
  match m with
  | Ok a => Ok a
  | Raise e' => if pyexn_eqb e e' then h else Raise e'
  end.

(** [l[i]] for [i >= 0] *)
Definition index {A : Type} (l : list A) (i : nat) : result A :=
  match nth_error l i with
  | Some a => Ok a
  | None => Raise IndexError
  end.

(** [l[-1]] *)
Definition index_last {A : Type} (l : list A) : result A :=
  match rev l with
  | a :: _ => Ok a
  | [] => Raise IndexError
  end.

(** ** Python string methods *)

Module PyStr.

(** [c.isspace()] on the ASCII range *)
Definition is_space (c : ascii) : bool :=
  let n := nat_of_ascii c in
  ((9 <=? n) && (n <=? 13) || (28 <=? n) && (n <=? 32))%nat.

Fixpoint lstrip (s : string) : string :=
  match s with
  | String c s' => if is_space c then lstrip s' else s
  | EmptyString => EmptyString
  end.

Fixpoint rstrip (s : string) : string :=
  match s with
  | String c s' =>
      match rstrip s' with
      | EmptyString => if is_space c then EmptyString else String c EmptyString
      | r => String c r
      end
  | EmptyString => EmptyString
  end.

(** [s.strip()] *)
Definition strip (s : string) : string := rstrip (lstrip s).

(** [s.strip(ch)] for a one-character argument *)
Fixpoint lstrip_char (ch : ascii) (s : string) : string :=
  match s with
  | String c s' => if Ascii.eqb c ch then lstrip_char ch s' else s
  | EmptyString => EmptyString
  end.

Fixpoint rstrip_char (ch : ascii) (s : string) : string :=
  match s with
  | String c s' =>
      match rstrip_char ch s' with
      | EmptyString =>
          if Ascii.eqb c ch then EmptyString else String c EmptyString
      | r => String c r
      end
  | EmptyString => EmptyString
  end.

Definition strip_char (ch : ascii) (s : string) : string :=
  rstrip_char ch (lstrip_char ch s).

(** [s.startswith(p)] *)
Fixpoint startswith (p s : string) : bool :=
  match p with
  | EmptyString => true
  | String a p' =>
      match s with
      | String b s' => if Ascii.eqb a b then startswith p' s' else false
      | EmptyString => false
      end
  end.

(** [p in s] *)
Fixpoint contains (p s : string) : bool :=
  if startswith p s then true
  else match s with
       | String _ s' => contains p s'
       | EmptyString => false
       end.

(** [s.split(sep)] for a non-empty [sep]: the pieces between the
    non-overlapping occurrences of [sep], found left to right.  [skip]
    counts the characters of an occurrence still to be passed over; the
    head of the result is the piece being read. *)
Fixpoint split_from (sep : string) (skip : nat) (s : string) : list string :=
  match s with
  | EmptyString => [EmptyString]
  | String c s' =>
      match skip with
      | S k => split_from sep k s'
      | O =>
          if startswith sep s
          then EmptyString :: split_from sep (String.length sep - 1) s'
          else match split_from sep 0 s' with
               | p :: ps => String c p :: ps
               | [] => [String c EmptyString]
               end
      end
  end.

Definition split (sep s : string) : list string := split_from sep 0 s.

(** [s.split()]: the maximal runs of non-space characters *)
Fixpoint split_ws (s : string) : list string :=
  match s with
  | EmptyString => []
  | String c s' =>
      if is_space c then split_ws s'
      else match s' with
           | EmptyString => [String c EmptyString]
           | String c' _ =>
               if is_space c' then String c EmptyString :: split_ws s'
               else match split_ws s' with
                    | t :: ts => String c t :: ts
                    | [] => [String c EmptyString]
                    end
           end
  end.

(** [sep.join(l)] *)
Fixpoint join (sep : string) (l : list string) : string :=
  match l with
  | [] => EmptyString
  | [a] => a
  | a :: l' => a ++ sep ++ join sep l'
  end.

(** [s.replace(old, new)] for a non-empty [old] *)
Definition replace (old new s : string) : string := join new (split old s).

Definition lower_char (c : ascii) : ascii :=
  let n := nat_of_ascii c in
  if ((65 <=? n) && (n <=? 90))%nat then ascii_of_nat (n + 32) else c.

(** [s.lower()] on the ASCII range *)
Fixpoint lower (s : string) : string :=
  match s with
  | String c s' => String (lower_char c) (lower s')
  | EmptyString => EmptyString
  end.

(** truth value of a string: [bool(s)] *)
Definition truthy (s : string) : bool :=
  match s with
  | EmptyString => false
  | String _ _ => true
  end.

End PyStr.

Import PyStr.

(** ** Python floats: [float(s)] and [str(x)] *)

Module PyFloat.

Local Open Scope Z_scope.

Definition is_digit (c : ascii) : bool :=
  let n := nat_of_ascii c in ((48 <=? n) && (n <=? 57))%nat.

Definition digit_val (c : ascii) : Z := Z.of_nat (nat_of_ascii c - 48).

(** The tail of a [digitpart]: digits, each optionally preceded by one
    underscore.  Returns the value read, the number of digits and the
    text left over. *)
Fixpoint digits_tail (acc : Z) (cnt : Z) (s : string) : Z * Z * string :=
  match s with
  | String c s' =>
      if is_digit c then digits_tail (10 * acc + digit_val c) (cnt + 1) s'
      else if Ascii.eqb c "_" then
        match s' with
        | String d s'' =>
            if is_digit d
            then digits_tail (10 * acc + digit_val d) (cnt + 1) s''
            else (acc, cnt, s)
        | EmptyString => (acc, cnt, s)
        end
      else (acc, cnt, s)
  | EmptyString => (acc, cnt, s)
  end.

(** An optional [digitpart] continuing the value [acc]. *)
Definition digitpart (acc : Z) (s : string) : Z * Z * string :=
  match s with
  | String c s' =>
      if is_digit c then digits_tail (10 * acc + digit_val c) 1 s'
      else (acc, 0, s)
  | EmptyString => (acc, 0, s)
  end.

(** The exponent part [e[+-]digits], when well formed and ending the text. *)
Definition exponent (s : string) : option Z :=
  match s with
  | EmptyString => Some 0
  | String c s' =>
      if Ascii.eqb (lower_char c) "e" then
        let '(neg, s1) :=
          match s' with
          | String "+" t => (false, t)
          | String "-" t => (true, t)
          | _ => (false, s')
          end in
        match digitpart 0 s1 with
        | (v, cnt, EmptyString) =>
            if 0 <? cnt then Some (if neg then - v else v) else None
        | _ => None
        end
      else None
  end.

(** The binary64 nearest to [m * 10 ^ e10] (ties to even), for [m > 0].
    A negative [e10] divides with a quotient of more than 64 bits whose
    last bit records a non-zero remainder, so that rounding it rounds the
    exact quotient. *)
Definition round_decimal (m e10 : Z) : float :=
  if 0 <=? e10
  then SF2Prim (binary_normalize prec emax (m * 10 ^ e10) 0 false)
  else
    let d := 10 ^ (- e10) in
    let s := Z.max 0 (Z.log2 d - Z.log2 m + 66) in
    let n := m * 2 ^ s in
    let sticky := if n mod d =? 0 then 0 else 1 in
    SF2Prim (binary_normalize prec emax (2 * (n / d) + sticky) (- (s + 1)) false).

Definition decimal_value (neg : bool) (m e10 : Z) : float :=
  let f := if m =? 0 then zero else round_decimal m e10 in
  if neg then (- f)%float else f.

(** The white space [float] skips around its text: tab, line feed,
    vertical tab, form feed, carriage return and space.  The separators
    28-31, which [str.strip] removes, are not among them. *)
Definition is_blank (c : ascii) : bool :=
  let n := nat_of_ascii c in
  ((9 <=? n) && (n <=? 13) || (n =? 32))%nat.

Fixpoint skip_blank_left (s : string) : string :=
  match s with
  | String c s' => if is_blank c then skip_blank_left s' else s
  | EmptyString => EmptyString
  end.

Fixpoint skip_blank_right (s : string) : string :=
  match s with
  | String c s' =>
      match skip_blank_right s' with
      | EmptyString => if is_blank c then EmptyString else String c EmptyString
      | r => String c r
      end
  | EmptyString => EmptyString
  end.

Definition skip_blank (s : string) : string :=
  skip_blank_right (skip_blank_left s).

(** [float(s)]; [None] is [ValueError] *)
Definition py_float (s : string) : option float :=
  let s0 := skip_blank s in
  let '(neg, s1) :=
    match s0 with
    | String "+" t => (false, t)
    | String "-" t => (true, t)
    | _ => (false, s0)
    end in
  let low := lower s1 in
  if (String.eqb low "inf" || String.eqb low "infinity")%bool
  then Some (if neg then neg_infinity else infinity)
  else if String.eqb low "nan" then Some nan
  else
    let '(ip, icnt, s2) := digitpart 0 s1 in
    let '(m, fcnt, s3) :=
      match s2 with
      | String "." t => digitpart ip t
      | _ => (ip, 0, s2)
      end in
    if 0 <? icnt + fcnt then
      match exponent s3 with
      | Some e => Some (decimal_value neg m (e - fcnt))
      | None => None
      end
    else None.

(** *** [str(x)]: the shortest decimal text that reads back as [x], and
    of the texts of that length the one nearest to [x] *)

(** [num / den >= 10 ^ k], for positive [num] and [den] *)
Definition ge_pow10 (num den k : Z) : bool :=
  if 0 <=? k then den * 10 ^ k <=? num else den <=? num * 10 ^ (- k).

(** The [k] with [10 ^ k <= num / den < 10 ^ (k + 1)]: the estimate from
    the binary logarithms is off by one at most. *)
Definition log10_floor (num den : Z) : Z :=
  let k0 := ((Z.log2 num - Z.log2 den) * 30103) / 100000 in
  if ge_pow10 num den (k0 + 2) then k0 + 2
  else if ge_pow10 num den (k0 + 1) then k0 + 1
  else if ge_pow10 num den k0 then k0
  else if ge_pow10 num den (k0 - 1) then k0 - 1
  else k0 - 2.

(** [num / den] cut to [p] significant digits: the quotient [q], the
    remainder [r] over the divisor [d], and the exponent [x], so that
    [q * 10 ^ x <= num / den < (q + 1) * 10 ^ x]. *)
Definition cut_digits (num den k p : Z) : Z * Z * Z * Z :=
  let t := p - 1 - k in
  let n := if 0 <=? t then num * 10 ^ t else num in
  let d := if 0 <=? t then den else den * 10 ^ (- t) in
  (n / d, n mod d, d, k - p + 1).

(** The nearer of [q] and [q + 1], the even one at a tie. *)
Definition nearer (q r d : Z) : Z :=
  match Z.compare (2 * r) d with
  | Lt => q
  | Gt => q + 1
  | Eq => if Z.even q then q else q + 1
  end.

(** The first precision, from [p] on, at which one of the two neighbours
    of [num / den] reads back as [f], and of the two the nearer one when
    both do; seventeen digits always do. *)
Fixpoint shortest (fuel : nat) (p : Z) (f : float) (num den k : Z) : Z * Z :=
  let '(q, r, d, x) := cut_digits num den k p in
  match fuel with
  | O => (nearer q r d, x)
  | S n =>
      if r =? 0 then (q, x)
      else
        let below := ((0 <? q) && PrimFloat.eqb (round_decimal q x) f)%bool in
        let above := PrimFloat.eqb (round_decimal (q + 1) x) f in
        if (below && above)%bool then (nearer q r d, x)
        else if below then (q, x)
        else if above then (q + 1, x)
        else shortest n (p + 1) f num den k
  end.

Fixpoint drop_zeros (fuel : nat) (d x : Z) : Z * Z :=
  match fuel with
  | O => (d, x)
  | S n => if d mod 10 =? 0 then drop_zeros n (d / 10) (x + 1) else (d, x)
  end.

Definition digits_of (z : Z) : string := NilZero.string_of_uint (N.to_uint (Z.to_N z)).

Fixpoint zeros (n : nat) : string :=
  match n with
  | O => EmptyString
  | S k => String "0" (zeros k)
  end.

(** The layout of [repr]: plain notation while the decimal point falls
    within [-4 < decpt <= 16], exponent notation otherwise. *)
Definition layout (d x : Z) : string :=
  let ds := digits_of d in
  let n := Z.of_nat (String.length ds) in
  let decpt := n + x in
  if ((-4 <? decpt) && (decpt <=? 16))%bool then
    if decpt <=? 0 then "0." ++ zeros (Z.to_nat (- decpt)) ++ ds
    else if n <=? decpt then ds ++ zeros (Z.to_nat (decpt - n)) ++ ".0"
    else substring 0 (Z.to_nat decpt) ds ++ "."
         ++ substring (Z.to_nat decpt) (Z.to_nat (n - decpt)) ds
  else
    let e := decpt - 1 in
    let es := digits_of (Z.abs e) in
    substring 0 1 ds
    ++ (if 1 <? n then "." ++ substring 1 (Z.to_nat (n - 1)) ds else EmptyString)
    ++ "e" ++ (if e <? 0 then "-" else "+")
    ++ (if Z.abs e <? 10 then "0" ++ es else es).

(** [str(x)] *)
Definition py_str (f : float) : string :=
  match Prim2SF f with
  | S754_nan => "nan"
  | S754_infinity s => if s then "-inf" else "inf"
  | S754_zero s => if s then "-0.0" else "0.0"
  | S754_finite s m e =>
      let '(num, den) :=
        if 0 <=? e then (Zpos m * 2 ^ e, 1) else (Zpos m, 2 ^ (- e)) in
      let k := log10_floor num den in
      let '(d0, x0) := shortest 16 1 (PrimFloat.abs f) num den k in
      let '(d, x) := drop_zeros 17 d0 x0 in
      (if s then "-" else EmptyString) ++ layout d x
  end.

End PyFloat.

Import PyFloat.

(** ** Python values, numbers and dicts *)

Inductive pyval : Type :=
| VNone
| VInt (z : Z)
| VFloat (f : float)
| VStr (s : string).

(** [float(z)] for an [int] *)
Definition float_of_int (z : Z) : float :=
  SF2Prim (binary_normalize prec emax z 0 false).

(** [v + x] / [v += x] for a number [v] and a float [x] *)
Definition add_float (v : pyval) (x : float) : pyval :=
  match v with
  | VInt z => VFloat (float_of_int z + x)%float
  | VFloat f => VFloat (f + x)%float
  | _ => v
  end.

Definition opt_float (o : option float) : pyval :=
  match o with
  | Some f => VFloat f
  | None => VNone
  end.

Definition opt_val (o : option pyval) : pyval :=
  match o with
  | Some v => v
  | None => VNone
  end.

Definition opt_str (o : option string) : pyval :=
  match o with
  | Some s => VStr s
  | None => VNone
  end.

(** The double quote character, written by its code. *)
Definition dquote : string := String (ascii_of_nat 34) EmptyString.

(** A [dict] with [str] keys: the entries in insertion order, one per key. *)
Module PyDict.

Definition dict (V : Type) : Type := list (string * V).

(** [d.get(k)] *)
Fixpoint get {V : Type} (d : dict V) (k : string) : option V :=
  match d with
  | [] => None
  | (k', v) :: d' => if String.eqb k' k then Some v else get d' k
  end.

(** [d[k] = v] *)
Fixpoint set {V : Type} (d : dict V) (k : string) (v : V) : dict V :=
  match d with
  | [] => [(k, v)]
  | (k', v') :: d' =>
      if String.eqb k' k then (k', v) :: d' else (k', v') :: set d' k v
  end.

(** [{**a, **b}] *)
Definition update {V : Type} (a b : dict V) : dict V :=
  fold_left (fun d kv => set d (fst kv) (snd kv)) b a.

(** [list(d.keys())] *)
Definition keys {V : Type} (d : dict V) : list string := map fst d.

(** [d[k]] *)
Definition item {V : Type} (d : dict V) (k : string) : result V :=
  match get d k with
  | Some v => Ok v
  | None => Raise KeyError
  end.

End PyDict.

(** ** The target table as text *)

Module Csv.

(** The three bytes of the UTF-8 byte-order mark. *)
Definition bom : string :=
  String (ascii_of_nat 239) (String (ascii_of_nat 187)
    (String (ascii_of_nat 191) EmptyString)).

(** [open(path, encoding='utf-8-sig').read()]: a leading mark is dropped. *)
Definition decode_utf8_sig (bytes : string) : string :=
  if startswith bom bytes then substring 3 (String.length bytes - 3) bytes
  else bytes.

Definition line_feed : ascii := ascii_of_nat 10.
Definition carriage_return : ascii := ascii_of_nat 13.
Definition quotechar : ascii := ascii_of_nat 34.
Definition delimiter : ascii := ",".
Definition newline : string := String line_feed EmptyString.

(** Reading in text mode with the default [newline=None]: a carriage
    return, alone or followed by a line feed, is read as a line feed. *)
Fixpoint universal_newlines (s : string) : string :=
  match s with
  | String c s' =>
      if Ascii.eqb c carriage_return then
        match s' with
        | String c' s'' =>
            if Ascii.eqb c' line_feed
            then String line_feed (universal_newlines s'')
            else String line_feed (universal_newlines s')
        | EmptyString => String line_feed EmptyString
        end
      else String c (universal_newlines s')
  | EmptyString => EmptyString
  end.

(** The states of the [csv.reader] parser that the default dialect
    reaches on such a text. *)
Inductive reader_state : Type :=
| START_RECORD
| START_FIELD
| IN_FIELD
| IN_QUOTED_FIELD
| QUOTE_IN_QUOTED_FIELD.

Definition add_char (field : string) (c : ascii) : string :=
  field ++ String c EmptyString.

(** [csv.reader] with the default dialect (comma, double quote, doubled
    quotes, not strict): [field] is the field being read and [fields] the
    fields of the record before it.  A line feed ends the record unless it
    stands inside quotes; an empty line gives an empty record; the end of
    the text ends a record that has begun. *)
Fixpoint records (st : reader_state) (field : string) (fields : list string)
  (s : string) : list (list string) :=
  match s with
  | EmptyString =>
      match st with
      | START_RECORD => []
      | _ => [fields ++ [field]]
      end
  | String c s' =>
      if Ascii.eqb c line_feed then
        match st with
        | START_RECORD => [] :: records START_RECORD EmptyString [] s'
        | IN_QUOTED_FIELD => records IN_QUOTED_FIELD (add_char field c) fields s'
        | _ => (fields ++ [field]) :: records START_RECORD EmptyString [] s'
        end
      else
        match st with
        | START_RECORD | START_FIELD =>
            if Ascii.eqb c quotechar
            then records IN_QUOTED_FIELD EmptyString fields s'
            else if Ascii.eqb c delimiter
            then records START_FIELD EmptyString (fields ++ [EmptyString]) s'
            else records IN_FIELD (String c EmptyString) fields s'
        | IN_FIELD =>
            if Ascii.eqb c delimiter
            then records START_FIELD EmptyString (fields ++ [field]) s'
            else records IN_FIELD (add_char field c) fields s'
        | IN_QUOTED_FIELD =>
            if Ascii.eqb c quotechar
            then records QUOTE_IN_QUOTED_FIELD field fields s'
            else records IN_QUOTED_FIELD (add_char field c) fields s'
        | QUOTE_IN_QUOTED_FIELD =>
            if Ascii.eqb c quotechar
            then records IN_QUOTED_FIELD (add_char field c) fields s'
            else if Ascii.eqb c delimiter
            then records START_FIELD EmptyString (fields ++ [field]) s'
            else records IN_FIELD (add_char field c) fields s'
        end
  end.

(** [csv.reader(f)] on the text of the file. *)
Definition reader (text : string) : list (list string) :=
  records START_RECORD EmptyString [] (universal_newlines text).

(** One row of [csv.DictReader]: the fields under their names, a later
    name winning over an equal earlier one, missing fields given [None]. *)
Fixpoint dict_row (fieldnames row : list string)
  (d : PyDict.dict (option string)) : PyDict.dict (option string) :=
  match fieldnames with
  | [] => d
  | k :: ks =>
      match row with
      | v :: vs => dict_row ks vs (PyDict.set d k (Some v))
      | [] => dict_row ks [] (PyDict.set d k None)
      end
  end.

(** [csv.DictReader(f)]: the field names (absent for an empty file) and
    the rows that follow, empty rows left out. *)
Definition DictReader (text : string)
  : option (list string) * list (PyDict.dict (option string)) :=
  match reader text with
  | [] => (None, [])
  | fieldnames :: rows =>
      (Some fieldnames,
       map (fun r => dict_row fieldnames r [])
           (filter (fun r => match r with [] => false | _ => true end) rows))
  end.

End Csv.

(** A target of the target table: [{"mz": ..., "tolerance": ..., "tolerance_type": ...}] *)
Record target : Type := {
  mz : float;
  tolerance : float;
  tolerance_type : string
}.

(** [float(x)] for a cell of the table: [None] is not a number. *)
Definition float_cell (x : option string) : result float :=
  match x with
  | None => Raise TypeError
  | Some s =>
      match py_float s with
      | Some f => Ok f
      | None => Raise ValueError
      end
  end.

(** [x.strip()] for a cell of the table: [None] has no such method. *)
Definition strip_cell (x : option string) : result string :=
  match x with
  | None => Raise AttributeError
  | Some s => Ok (strip s)
  end.

(** [float(s)] raising [ValueError] *)
Definition float_str (s : string) : result float :=
  match py_float s with
  | Some f => Ok f
  | None => Raise ValueError
  end.

(** ** process_mgf_mzid.py *)

Module ProcessMgfMzid.

Import PyDict.

Definition required_headers : list string :=
  ["m/z"; "tolerance"; "tolerance_type"].

(** The body of the [for row in reader] loop. *)
Definition target_of_row (row : dict (option string)) : result target :=
  c_mz <- item row "m/z" ;;
  v_mz <- float_cell c_mz ;;
  c_tol <- item row "tolerance" ;;
  v_tol <- float_cell c_tol ;;
  c_type <- item row "tolerance_type" ;;
  s_type <- strip_cell c_type ;;
  Ok {| mz := v_mz; tolerance := v_tol; tolerance_type := lower s_type |}.

Fixpoint targets_of_rows (rows : list (dict (option string)))
  : result (list target) :=
  match rows with
  | [] => Ok []
  | row :: rows' =>
      t <- target_of_row row ;;
      ts <- targets_of_rows rows' ;;
      Ok (t :: ts)
  end.

(** [parse_mass_targets], on the bytes of the file.  [ValueError] and
    [KeyError] are caught and end the run; other exceptions escape. *)
Definition parse_mass_targets (bytes : string) : result (list target) :=
  let body :=
    match Csv.DictReader (Csv.decode_utf8_sig bytes) with
    | (None, _) => Raise TypeError
    | (Some fieldnames, rows) =>
        if negb (forallb (fun header => existsb (String.eqb header) fieldnames)
                         required_headers)
        then Raise SystemExit
        else targets_of_rows rows
    end in
  try_except (try_except body ValueError (Raise SystemExit))
             KeyError (Raise SystemExit).

(** [is_within_tolerance] *)
Definition is_within_tolerance (mz_value target tolerance : float)
  (tol_type : string) : bool :=
  let tolerance_da :=
    if String.eqb tol_type "ppm"
    then ((tolerance / 1000000) * target)%float
    else tolerance in
  (abs (mz_value - target) <=? tolerance_da)%float.

(** The local variables of [parse_mgf]. *)
Record state : Type := {
  inside_ion_block : bool;
  scan_number : option string;
  rt : option float;
  precursor_mz : option float;
  intensity : option float;
  mz_values : list (float * float);
  summed_ms2_intensity : pyval;
  precursor_data : list (dict pyval)
}.

Definition initial : state := {|
  inside_ion_block := false;
  scan_number := None;
  rt := None;
  precursor_mz := None;
  intensity := None;
  mz_values := [];
  summed_ms2_intensity := VInt 0;
  precursor_data := []
|}.

(** The scan number expression of the [TITLE=] branch. *)
Definition scan_expr (line : string) : result string :=
  a <- index (split "scan=" line) 1 ;;
  b <- index (split "&quot;" a) 0 ;;
  index (split " " (replace dquote EmptyString (strip b))) 0.

(** [{str(target["mz"]): "no" for target in targets}] *)
Definition no_hits (targets : list target) : dict pyval :=
  fold_left (fun d t => set d (py_str (mz t)) (VStr "no")) targets [].

(** The inner [for target in targets] loop, for one fragment m/z. *)
Definition mark_targets (targets : list target) (hits : dict pyval)
  (value : float) : dict pyval :=
  fold_left
    (fun d t =>
       if is_within_tolerance value (mz t) (tolerance t) (tolerance_type t)
       then set d (py_str (mz t)) (VStr "yes")
       else d)
    targets hits.

(** [target_hits] as it stands when the record is built. *)
Definition target_hits (targets : list target)
  (values : list (float * float)) : dict pyval :=
  match targets with
  | [] => no_hits targets
  | _ :: _ =>
      fold_left (fun d p => mark_targets targets d (fst p)) values
                (no_hits targets)
  end.

(** The record appended to [precursor_data]. *)
Definition record_of (targets : list target) (st : state) (scan : string)
  (pepmass : float) : dict pyval :=
  update
    [("scan_number", VStr scan);
     ("RT", opt_float (rt st));
     ("pepmass", VFloat pepmass);
     ("intensity", opt_float (intensity st));
     ("summed_ms2_intensity", summed_ms2_intensity st)]
    (target_hits targets (mz_values st)).

Definition set_scan_number (st : state) (v : option string) : state :=
  {| inside_ion_block := inside_ion_block st;
     scan_number := v;
     rt := rt st;
     precursor_mz := precursor_mz st;
     intensity := intensity st;
     mz_values := mz_values st;
     summed_ms2_intensity := summed_ms2_intensity st;
     precursor_data := precursor_data st |}.

Definition set_rt (st : state) (v : option float) : state :=
  {| inside_ion_block := inside_ion_block st;
     scan_number := scan_number st;
     rt := v;
     precursor_mz := precursor_mz st;
     intensity := intensity st;
     mz_values := mz_values st;
     summed_ms2_intensity := summed_ms2_intensity st;
     precursor_data := precursor_data st |}.

Definition set_pepmass (st : state) (v : option float) (i : option float)
  : state :=
  {| inside_ion_block := inside_ion_block st;
     scan_number := scan_number st;
     rt := rt st;
     precursor_mz := v;
     intensity := i;
     mz_values := mz_values st;
     summed_ms2_intensity := summed_ms2_intensity st;
     precursor_data := precursor_data st |}.

(** The [TITLE=] branch. *)
Definition on_title (st : state) (line : string) : result state :=
  if contains "scan=" line then
    s <- try_except (scan_expr line) IndexError (Ok "Unknown") ;;
    Ok (set_scan_number st (Some s))
  else Ok st.

(** The [RTINSECONDS=] branch. *)
Definition on_rt (st : state) (line : string) : result state :=
  v <- try_except
         (last_field <- index_last (split "=" line) ;;
          f <- float_str (strip last_field) ;;
          Ok (Some f))
         ValueError (Ok None) ;;
  Ok (set_rt st v).

(** [line.split("=")[-1].strip().split()] *)
Definition pepmass_fields (line : string) : result (list string) :=
  last_field <- index_last (split "=" line) ;;
  Ok (split_ws (strip last_field)).

(** The [PEPMASS=] branch.  Both variables are assigned in the [try];
    the handler overwrites both. *)
Definition on_pepmass (st : state) (line : string) : result state :=
  pepmass_values <- pepmass_fields line ;;
  vi <- try_except
          (v0 <- index pepmass_values 0 ;;
           m <- float_str v0 ;;
           i <- (if (1 <? List.length pepmass_values)%nat
                 then (v1 <- index pepmass_values 1 ;; float_str v1)
                 else Ok 0%float) ;;
           Ok (Some m, Some i))
          ValueError (Ok (None, Some 0%float)) ;;
  Ok (set_pepmass st (fst vi) (snd vi)).

(** The [END IONS] branch. *)
Definition on_end (targets : list target) (st : state) : result state :=
  let emitted :=
    match scan_number st, precursor_mz st with
    | Some scan, Some pepmass =>
        if truthy scan then [record_of targets st scan pepmass] else []
    | _, _ => []
    end in
  Ok {| inside_ion_block := false;
        scan_number := scan_number st;
        rt := rt st;
        precursor_mz := precursor_mz st;
        intensity := intensity st;
        mz_values := mz_values st;
        summed_ms2_intensity := summed_ms2_intensity st;
        precursor_data := precursor_data st ++ emitted |}.

(** The final [else] branch: a fragment line. *)
Definition on_ion (st : state) (line : string) : result state :=
  match split_ws line with
  | [p0; p1] =>
      try_except
        (m <- float_str p0 ;;
         i <- float_str p1 ;;
         Ok {| inside_ion_block := inside_ion_block st;
               scan_number := scan_number st;
               rt := rt st;
               precursor_mz := precursor_mz st;
               intensity := intensity st;
               mz_values := mz_values st ++ [(m, i)];
               summed_ms2_intensity := add_float (summed_ms2_intensity st) i;
               precursor_data := precursor_data st |})
        ValueError (Ok st)
  | _ => Ok st
  end.

(** One turn of [for line in f]. *)
Definition step (targets : list target) (st : state) (raw : string)
  : result state :=
  let line := strip raw in
  if String.eqb line "BEGIN IONS" then
    Ok {| inside_ion_block := true;
          scan_number := None;
          rt := None;
          precursor_mz := None;
          intensity := None;
          mz_values := [];
          summed_ms2_intensity := VInt 0;
          precursor_data := precursor_data st |}
  else if inside_ion_block st then
    if startswith "TITLE=" line then on_title st line
    else if startswith "RTINSECONDS=" line then on_rt st line
    else if startswith "PEPMASS=" line then on_pepmass st line
    else if String.eqb line "END IONS" then on_end targets st
    else on_ion st line
  else Ok st.

Fixpoint run (targets : list target) (st : state) (lines : list string)
  : result state :=
  match lines with
  | [] => Ok st
  | raw :: rest => st' <- step targets st raw ;; run targets st' rest
  end.

(** [parse_mgf]: any exception inside the loop ends the run. *)
Definition parse_mgf (lines : list string) (targets : list target)
  : result (list (dict pyval)) :=
  match run targets initial lines with
  | Ok st => Ok (precursor_data st)
  | Raise _ => Raise SystemExit
  end.

(** An element [cvParam] and an element [SpectrumIdentificationResult] of
    the identification document, with the attributes and children that
    [parse_mzid_with_scans] reads. *)
Record cv_param : Type := {
  cv_name : option string;
  cv_value : option string
}.

Record sir : Type := {
  cv_params : list cv_param;
  items_pass_threshold : list (option string)
}.

(** [sir.find('./ns:cvParam[@name="spectrum title"]')] *)
Definition find_spectrum_title (r : sir) : option cv_param :=
  find (fun p => match cv_name p with
                 | Some n => String.eqb n "spectrum title"
                 | None => false
                 end) (cv_params r).

(** The scan number expression applied to the title value. *)
Definition value_scan_expr (value : string) : result string :=
  a <- index (split "scan=" value) 1 ;;
  b <- index (split "&quot;" a) 0 ;;
  index (split " " (replace dquote EmptyString (strip b))) 0.

(** The scan number of one result element. *)
Definition sir_scan_number (r : sir) : result (option string) :=
  match find_spectrum_title r with
  | Some elem =>
      let value := match cv_value elem with
                   | Some v => v
                   | None => EmptyString
                   end in
      if contains "scan=" value then
        s <- try_except (value_scan_expr value) IndexError (Ok "Unknown") ;;
        Ok (Some s)
      else Ok None
  | None => Ok None
  end.

Definition sir_pass_threshold (r : sir) : bool :=
  existsb (fun a => match a with
                    | Some v => String.eqb v "true"
                    | None => false
                    end) (items_pass_threshold r).

(** The loop of [parse_mzid_with_scans] over the result elements. *)
Fixpoint mzid_loop (results : list sir) (mzid_data : dict bool)
  : result (dict bool) :=
  match results with
  | [] => Ok mzid_data
  | r :: rest =>
      n <- sir_scan_number r ;;
      mzid_loop rest
        (match n with
         | Some k => set mzid_data k (sir_pass_threshold r)
         | None => mzid_data
         end)
  end.

(** [parse_mzid_with_scans], on the result elements of a document that
    was found and parsed: the loop, an exception in which ends the run. *)
Definition parse_mzid_with_scans (results : list sir) : result (dict bool) :=
  match mzid_loop results [] with
  | Ok d => Ok d
  | Raise _ => Raise SystemExit
  end.

(** [mzid_data.get(scan_number, False)]: only a [str] can be a key here. *)
Definition lookup_pass (mzid_data : dict bool) (scan : pyval) : bool :=
  match scan with
  | VStr k => match get mzid_data k with
              | Some b => b
              | None => false
              end
  | _ => false
  end.

(** [merge_data] *)
Fixpoint merge_data (mgf_data : list (dict pyval)) (mzid_data : dict bool)
  : result (list (dict pyval)) :=
  match mgf_data with
  | [] => Ok []
  | entry :: rest =>
      scan <- item entry "scan_number" ;;
      rest' <- merge_data rest mzid_data ;;
      Ok (set entry "pass_threshold"
              (VStr (if lookup_pass mzid_data scan then "yes" else "no"))
          :: rest')
  end.

(** The text [csv.writer] writes for a value. *)
Definition cell_text (v : pyval) : string :=
  match v with
  | VNone => EmptyString
  | VInt z =>
      if (z <? 0)%Z then "-" ++ digits_of (Z.abs z) else digits_of z
  | VFloat f => py_str f
  | VStr s => s
  end.

Definition base_fieldnames : list string :=
  ["scan_number"; "RT"; "pepmass"; "intensity"; "summed_ms2_intensity"].

Definition final_fieldnames (targets : list target) : list string :=
  base_fieldnames ++ map (fun t => py_str (mz t)) targets ++ ["pass_threshold"].

(** [{key: row.get(key, '') for key in final_fieldnames}], as written *)
Definition cleaned_row (fieldnames : list string) (row : dict pyval)
  : list string :=
  map (fun key => match get row key with
                  | Some v => cell_text v
                  | None => EmptyString
                  end) fieldnames.

(** [export_to_csv], for an output file that can be written: the header
    and the rows written, [None] when no file is written. *)
Definition export_to_csv (data : list (dict pyval)) (targets : list target)
  : option (list (list string)) :=
  match data with
  | [] => None
  | _ :: _ =>
      Some (final_fieldnames targets
            :: map (cleaned_row (final_fieldnames targets)) data)
  end.

(** [main], for files that can be opened: the spectrum file, the
    optional target table, the identification document. *)
Definition main (mgf_lines : list string) (targets_bytes : option string)
  (mzid_results : list sir) : result (option (list (list string))) :=
  targets <- match targets_bytes with
             | Some b => parse_mass_targets b
             | None => Ok []
             end ;;
  mgf_data <- parse_mgf mgf_lines targets ;;
  mzid_data <- parse_mzid_with_scans mzid_results ;;
  merged_data <- merge_data mgf_data mzid_data ;;
  Ok (export_to_csv merged_data targets).

End ProcessMgfMzid.

(** ** process_mgf.py *)

Module ProcessMgf.

Import PyDict.

(** The body of the [for row in reader] loop. *)
Definition target_of_row (row : dict (option string)) : result target :=
  c_mz <- item row "m/z" ;;
  s_mz <- strip_cell c_mz ;;
  v_mz <- float_str s_mz ;;
  c_tol <- item row "tolerance" ;;
  s_tol <- strip_cell c_tol ;;
  v_tol <- float_str s_tol ;;
  c_type <- item row "tolerance_type" ;;
  s_type <- strip_cell c_type ;;
  Ok {| mz := v_mz; tolerance := v_tol; tolerance_type := lower s_type |}.

Fixpoint targets_of_rows (rows : list (dict (option string)))
  : result (list target) :=
  match rows with
  | [] => Ok []
  | row :: rows' =>
      t <- target_of_row row ;;
      ts <- targets_of_rows rows' ;;
      Ok (t :: ts)
  end.

(** [parse_mass_targets], on the bytes of the file; nothing is caught. *)
Definition parse_mass_targets (bytes : string) : result (list target) :=
  targets_of_rows (snd (Csv.DictReader (Csv.decode_utf8_sig bytes))).

(** [is_within_tolerance] *)
Definition is_within_tolerance (mz_value target tolerance : float)
  (tol_type : string) : bool :=
  let tolerance :=
    if String.eqb tol_type "ppm"
    then ((tolerance / 1000000) * target)%float
    else tolerance in
  (abs (mz_value - target) <=? tolerance)%float.

(** The local variables of [parse_mgf]. *)
Record state : Type := {
  inside_ion_block : bool;
  scan_number : option string;
  precursor_mz : option float;
  intensity : option pyval;
  rt : option float;
  ms2_sum : pyval;
  mz_values : list (float * float);
  precursor_data : list (dict pyval)
}.

Definition initial : state := {|
  inside_ion_block := false;
  scan_number := None;
  precursor_mz := None;
  intensity := None;
  rt := None;
  ms2_sum := VInt 0;
  mz_values := [];
  precursor_data := []
|}.

(** The scan number expression of the [TITLE=] branch. *)
Definition scan_expr (line : string) : result string :=
  a <- index_last (split "scan=" line) ;;
  b <- index (split_ws (strip a)) 0 ;;
  Ok (strip_char (ascii_of_nat 34) b).

Definition no_hits (targets : list target) : dict pyval :=
  fold_left (fun d t => set d (py_str (mz t)) (VStr "no")) targets [].

Definition mark_targets (targets : list target) (hits : dict pyval)
  (value : float) : dict pyval :=
  fold_left
    (fun d t =>
       if is_within_tolerance value (mz t) (tolerance t) (tolerance_type t)
       then set d (py_str (mz t)) (VStr "yes")
       else d)
    targets hits.

Definition target_hits (targets : list target)
  (values : list (float * float)) : dict pyval :=
  fold_left (fun d p => mark_targets targets d (fst p)) values
            (no_hits targets).

Definition record_of (targets : list target) (st : state) (scan : string)
  (pepmass : float) : dict pyval :=
  update
    [("scan_number", VStr scan);
     ("RT", opt_float (rt st));
     ("pepmass", VFloat pepmass);
     ("intensity", opt_val (intensity st));
     ("MS2_sum", ms2_sum st)]
    (target_hits targets (mz_values st)).

(** One turn of [for line in f]. *)
Definition step (targets : list target) (st : state) (raw : string)
  : result state :=
  let line := strip raw in
  if String.eqb line "BEGIN IONS" then
    Ok {| inside_ion_block := true;
          scan_number := None;
          precursor_mz := None;
          intensity := None;
          rt := None;
          ms2_sum := VInt 0;
          mz_values := [];
          precursor_data := precursor_data st |}
  else if inside_ion_block st then
    if startswith "TITLE=" line then
      if contains "scan=" line then
        s <- scan_expr line ;;
        Ok {| inside_ion_block := inside_ion_block st;
              scan_number := Some s;
              precursor_mz := precursor_mz st;
              intensity := intensity st;
              rt := rt st;
              ms2_sum := ms2_sum st;
              mz_values := mz_values st;
              precursor_data := precursor_data st |}
      else Ok st
    else if startswith "RTINSECONDS=" line then
      last_field <- index_last (split "=" line) ;;
      f <- float_str (strip last_field) ;;
      Ok {| inside_ion_block := inside_ion_block st;
            scan_number := scan_number st;
            precursor_mz := precursor_mz st;
            intensity := intensity st;
            rt := Some f;
            ms2_sum := ms2_sum st;
            mz_values := mz_values st;
            precursor_data := precursor_data st |}
    else if startswith "PEPMASS=" line then
      last_field <- index_last (split "=" line) ;;
      let pepmass_values := split_ws (strip last_field) in
      v0 <- index pepmass_values 0 ;;
      m <- float_str v0 ;;
      i <- (if (1 <? List.length pepmass_values)%nat
            then (v1 <- index pepmass_values 1 ;;
                  f <- float_str v1 ;; Ok (VFloat f))
            else Ok (VInt 0)) ;;
      Ok {| inside_ion_block := inside_ion_block st;
            scan_number := scan_number st;
            precursor_mz := Some m;
            intensity := Some i;
            rt := rt st;
            ms2_sum := ms2_sum st;
            mz_values := mz_values st;
            precursor_data := precursor_data st |}
    else if String.eqb line "END IONS" then
      let emitted :=
        match scan_number st, precursor_mz st with
        | Some scan, Some pepmass =>
            if truthy scan then [record_of targets st scan pepmass] else []
        | _, _ => []
        end in
      Ok {| inside_ion_block := false;
            scan_number := scan_number st;
            precursor_mz := precursor_mz st;
            intensity := intensity st;
            rt := rt st;
            ms2_sum := ms2_sum st;
            mz_values := mz_values st;
            precursor_data := precursor_data st ++ emitted |}
    else
      match split_ws line with
      | [p0; p1] =>
          try_except
            (m <- float_str p0 ;;
             i <- float_str p1 ;;
             Ok {| inside_ion_block := inside_ion_block st;
                   scan_number := scan_number st;
                   precursor_mz := precursor_mz st;
                   intensity := intensity st;
                   rt := rt st;
                   ms2_sum := add_float (ms2_sum st) i;
                   mz_values := mz_values st ++ [(m, i)];
                   precursor_data := precursor_data st |})
            ValueError (Ok st)
      | _ => Ok st
      end
  else Ok st.

Fixpoint run (targets : list target) (st : state) (lines : list string)
  : result state :=
  match lines with
  | [] => Ok st
  | raw :: rest => st' <- step targets st raw ;; run targets st' rest
  end.

(** [parse_mgf]: exceptions escape. *)
Definition parse_mgf (lines : list string) (targets : list target)
  : result (list (dict pyval)) :=
  st <- run targets initial lines ;;
  Ok (precursor_data st).

(** [DictWriter._dict_to_list]: a key of the row that is no field name
    raises [ValueError]; the cells follow the field names, an absent one
    being empty. *)
Definition dict_to_list (fieldnames : list string) (row : dict pyval)
  : result (list string) :=
  if forallb (fun k => existsb (String.eqb k) fieldnames) (keys row)
  then Ok (map (fun key => match get row key with
                           | Some v => ProcessMgfMzid.cell_text v
                           | None => EmptyString
                           end) fieldnames)
  else Raise ValueError.

(** [writer.writerows(data)] *)
Fixpoint writerows (fieldnames : list string) (data : list (dict pyval))
  : result (list (list string)) :=
  match data with
  | [] => Ok []
  | row :: rest =>
      cells <- dict_to_list fieldnames row ;;
      more <- writerows fieldnames rest ;;
      Ok (cells :: more)
  end.

(** [export_to_csv], for an output file that can be written: the header
    and the rows written, [None] when no file is written. *)
Definition export_to_csv (data : list (dict pyval))
  : result (option (list (list string))) :=
  match data with
  | [] => Ok None
  | first :: _ =>
      let fieldnames := keys first in
      rows <- writerows fieldnames data ;;
      Ok (Some (fieldnames :: rows))
  end.

(** [main], for files that can be opened: the spectrum file and the
    optional target table. *)
Definition main (mgf_lines : list string) (mass_targets_bytes : option string)
  : result (option (list (list string))) :=
  targets <- match mass_targets_bytes with
             | Some b => parse_mass_targets b
             | None => Ok []
             end ;;
  precursor_data <- parse_mgf mgf_lines targets ;;
  export_to_csv precursor_data.

End ProcessMgf.

(** ** Vocabulary of the properties *)

(** The float a decimal literal denotes. *)
Definition float_lit (s : string) : float :=
  match py_float s with
  | Some f => f
  | None => nan
  end.

(** A line that reads as two white-space separated floats. *)
Definition ion_pair (raw : string) : option (float * float) :=
  match split_ws (strip raw) with
  | [p0; p1] =>
      match py_float p0, py_float p1 with
      | Some m, Some i => Some (m, i)
      | _, _ => None
      end
  | _ => None
  end.

(** The fragment peaks of a run of lines, in order. *)
Fixpoint ion_pairs (lines : list string) : list (float * float) :=
  match lines with
  | [] => []
  | raw :: rest =>
      match ion_pair raw with
      | Some p => p :: ion_pairs rest
      | None => ion_pairs rest
      end
  end.

(** The running sum [0 + i1 + i2 + ...], from [v] on. *)
Definition sum_from (v : pyval) (xs : list float) : pyval :=
  fold_left add_float xs v.

Definition is_begin (raw : string) : bool := String.eqb (strip raw) "BEGIN IONS".
Definition is_end (raw : string) : bool := String.eqb (strip raw) "END IONS".
Definition is_pepmass (raw : string) : bool := startswith "PEPMASS=" (strip raw).

(** Lines none of which opens or closes a block. *)
Definition block_body (lines : list string) : Prop :=
  Forall (fun raw => is_begin raw = false /\ is_end raw = false) lines.

(** The scan key passes Python's truth test: it is set and not empty. *)
Definition key_present (k : option string) : bool :=
  match k with
  | Some s => truthy s
  | None => false
  end.

Definition mz_present (m : option float) : bool :=
  match m with
  | Some _ => true
  | None => false
  end.

(** *** What the lines of a block say *)

(** Python's [0 + i1 + i2 + ...] on binary64 floats: the integer [0] when
    there is nothing to add, and else the float sum taken from the left. *)
Definition float_sum (xs : list float) : pyval :=
  match xs with
  | [] => VInt 0
  | _ :: _ => VFloat (fold_left PrimFloat.add xs 0%float)
  end.













(** ** Sample inputs *)

(** One complete block: scan 5, two fragment peaks. *)
Definition sample_block : list string :=
  ["BEGIN IONS"; "TITLE=run.raw scan=5"; "RTINSECONDS=120.5";
   "PEPMASS=500.25 1000"; "100.0 50"; "200.0 75"].

Definition sample_end : string := "END IONS".

(** The parser state of process_mgf_mzid.py after the lines, when it has one. *)
Definition state_after (targets : list target) (lines : list string)
  : ProcessMgfMzid.state :=
  match ProcessMgfMzid.run targets ProcessMgfMzid.initial lines with
  | Ok st => st
  | Raise _ => ProcessMgfMzid.initial
  end.

(** The lines of [sample_block] after its begin marker. *)
Definition sample_body : list string := tl sample_block.

(** One target: 100.0 within 10 ppm. *)
Definition sample_target : target :=
  {| mz := float_lit "100.0"; tolerance := float_lit "10";
     tolerance_type := "ppm" |}.

(** The first record process_mgf_mzid.py returns for the lines. *)
Definition first_record (targets : list target) (lines : list string)
  : PyDict.dict pyval :=
  match ProcessMgfMzid.precursor_data (state_after targets lines) with
  | r :: _ => r
  | [] => []
  end.

(** A block whose title holds the marker and nothing after it. *)
Definition sample_no_key_block : list string :=
  ["BEGIN IONS"; "TITLE=scan="; "RTINSECONDS=120.5"; "PEPMASS=500.25 1000";
   "100.0 50"; "END IONS"].

(** A block cut short: its end marker never comes. *)
Definition sample_truncated : list string :=
  ["TITLE=run.raw scan=6"; "PEPMASS=400.5 10"; "100.0 50"].

(** A block whose precursor line has a second field that is no number. *)
Definition sample_bad_intensity : string := "PEPMASS=500.25 n/a".

(** A block with that line and a second precursor line after it. *)
Definition sample_two_pepmass_block : list string :=
  ["BEGIN IONS"; "TITLE=run.raw scan=5"; sample_bad_intensity;
   "PEPMASS=400.5 10"; "END IONS"].

(** The characters of the float notation [str] writes. *)
Definition float_char (c : ascii) : bool :=
  is_digit c
  || existsb (Ascii.eqb c) ["."; "-"; "+"; "e"; "i"; "n"; "f"; "a"]%char.

Fixpoint all_chars (P : ascii -> bool) (s : string) : bool :=
  match s with
  | EmptyString => true
  | String c s' => P c && all_chars P s'
  end.

(** Some fragment of [values] lies within the tolerance of a target whose
    text is [k]. *)
Definition matched (targets : list target) (values : list (float * float))
  (k : string) : bool :=
  existsb
    (fun p =>
       existsb
         (fun t =>
            String.eqb (py_str (mz t)) k
            && ProcessMgfMzid.is_within_tolerance
                 (fst p) (mz t) (tolerance t) (tolerance_type t))
         targets)
    values.

(** The text [k] is the text of a target. *)
Definition is_target_text (targets : list target) (k : string) : bool :=
  existsb (fun t => String.eqb (py_str (mz t)) k) targets.

(** [w] added at the end of the last piece. *)
Fixpoint app_last (w : string) (l : list string) : list string :=
  match l with
  | [] => []
  | [p] => [(p ++ w)%string]
  | p :: l' => p :: app_last w l'
  end.

Definition all_space (w : string) : bool := all_chars is_space w.

Definition no_space (p : string) : bool :=
  all_chars (fun c => negb (is_space c)) p.

(** The result element whose spectrum title is [title]. *)
Definition title_result (title : string) : ProcessMgfMzid.sir :=
  {| ProcessMgfMzid.cv_params :=
       [{| ProcessMgfMzid.cv_name := Some "spectrum title";
           ProcessMgfMzid.cv_value := Some title |}];
     ProcessMgfMzid.items_pass_threshold := [] |}.

(** White space that [float] skips as [strip] does. *)
Definition all_blank (w : string) : bool := all_chars is_blank w.

(** The cell [p] is the cell [c] with white space around it: spaces,
    tabs, line breaks, vertical tabs and form feeds. *)
Definition padded (p c : string) : Prop :=
  exists lead trail,
    all_blank lead = true /\ all_blank trail = true
    /\ p = (lead ++ c ++ trail)%string.

(** Two texts that [strip] makes equal and that [float] reads alike. *)
Definition same_text (p c : string) : Prop :=
  strip p = strip c /\ skip_blank p = skip_blank c.

(** Two cells with the same text up to white space. *)
Definition same_cell (a b : option string) : Prop :=
  match a, b with
  | Some p, Some c => same_text p c
  | None, None => True
  | _, _ => False
  end.

(** Two rows with the same names and cells equal up to white space. *)
Definition same_dict (d' d : PyDict.dict (option string)) : Prop :=
  forall k,
    match PyDict.get d' k, PyDict.get d k with
    | Some a, Some b => same_cell a b
    | None, None => True
    | _, _ => False
    end.

(** A target table, and the same table with white space around a header
    name. *)
Definition clean_table : string :=
  "m/z,tolerance,tolerance_type" ++ Csv.newline
  ++ "100.0,10,ppm" ++ Csv.newline.

Definition padded_header_table : string :=
  " m/z ,tolerance,tolerance_type" ++ Csv.newline
  ++ "100.0,10,ppm" ++ Csv.newline.

(** The table with white space around its cells: spaces, and a tab. *)
Definition padded_cells_table : string :=
  "m/z,tolerance,tolerance_type" ++ Csv.newline
  ++ " 100.0 ,10" ++ String (ascii_of_nat 9) EmptyString ++ ", ppm  "
  ++ Csv.newline.

(** Two targets with the same text: 100.0 within 0.5 Da, then 100.0
    within 10 ppm. *)
Definition wide_target : target :=
  {| mz := float_lit "100.0"; tolerance := float_lit "0.5";
     tolerance_type := "da" |}.

Definition twin_targets : list target := [wide_target; sample_target].

(** ** Vocabulary of the further properties *)

(** The number of end markers among the lines. *)
Definition count_ends (lines : list string) : nat :=
  List.length (filter is_end lines).

(** A retention time line. *)
Definition is_rt (raw : string) : bool := startswith "RTINSECONDS=" (strip raw).

(** A precursor line with an empty value, and a retention time line whose
    value is no number. *)
Definition sample_empty_pepmass : string := "PEPMASS=".
Definition sample_bad_rt : string := "RTINSECONDS=n/a".

(** Lines with fields and peaks, and no begin marker. *)
Definition sample_loose_lines : list string :=
  ["TITLE=run.raw scan=9"; "PEPMASS="; "RTINSECONDS=n/a"; "100.0 50";
   "END IONS"].

(** A number, and a float that may be unset. *)
Definition numeric (v : pyval) : Prop :=
  match v with
  | VInt _ | VFloat _ => True
  | _ => False
  end.

Definition float_or_none (v : pyval) : Prop :=
  match v with
  | VNone | VFloat _ => True
  | _ => False
  end.

(** The base fields of a record of process_mgf_mzid.py, with their types. *)
Definition record_shape (r : PyDict.dict pyval) : Prop :=
  (exists scan, PyDict.get r "scan_number" = Some (VStr scan)
                /\ truthy scan = true)
  /\ (exists v, PyDict.get r "RT" = Some v /\ float_or_none v)
  /\ (exists m, PyDict.get r "pepmass" = Some (VFloat m))
  /\ (exists i, PyDict.get r "intensity" = Some (VFloat i))
  /\ (exists v, PyDict.get r "summed_ms2_intensity" = Some v /\ numeric v).

(** A record built at an end marker from a state whose precursor
    intensity is set. *)
Definition emitted_record (targets : list target) (r : PyDict.dict pyval)
  : Prop :=
  exists st scan pepmass i,
    r = ProcessMgfMzid.record_of targets st scan pepmass
    /\ truthy scan = true
    /\ ProcessMgfMzid.intensity st = Some i
    /\ numeric (ProcessMgfMzid.summed_ms2_intensity st).

(** What the loop of [parse_mgf] keeps true of its variables. *)
Definition state_ok (targets : list target) (st : ProcessMgfMzid.state)
  : Prop :=
  (mz_present (ProcessMgfMzid.precursor_mz st) = true ->
   exists i, ProcessMgfMzid.intensity st = Some i)
  /\ numeric (ProcessMgfMzid.summed_ms2_intensity st)
  /\ Forall (emitted_record targets) (ProcessMgfMzid.precursor_data st).

(** The row [m] is the record [r] with its pass mark: "yes" when the
    index holds [True] under the scan number of [r], "no" otherwise; the
    other columns are those of [r]. *)
Definition merged_from (mzid_data : PyDict.dict bool)
  (r m : PyDict.dict pyval) : Prop :=
  exists scan,
    PyDict.get r "scan_number" = Some (VStr scan)
    /\ PyDict.get m "pass_threshold"
       = Some (VStr (match PyDict.get mzid_data scan with
                     | Some true => "yes"
                     | _ => "no"
                     end))
    /\ forall k, k <> "pass_threshold" -> PyDict.get m k = PyDict.get r k.

(** The scan key of a result element, when it has one. *)
Definition sir_key (r : ProcessMgfMzid.sir) : option string :=
  match ProcessMgfMzid.sir_scan_number r with
  | Ok v => v
  | Raise _ => None
  end.

Definition has_key (k : string) (r : ProcessMgfMzid.sir) : bool :=
  match sir_key r with
  | Some k' => String.eqb k' k
  | None => false
  end.

(** The character [c] does not occur in [s]. *)
Definition no_char (c : ascii) (s : string) : bool :=
  all_chars (fun x => negb (Ascii.eqb c x)) s.

(** The code of the double quote. *)
Definition dquote_char : ascii := ascii_of_nat 34.

(** A text that is empty or begins with a space. *)
Definition blank_start (s : string) : Prop :=
  match s with
  | EmptyString => True
  | String c _ => c = " "%char
  end.

(** The column names of process_mgf.py: the five base names and then the
    text of each target, once. *)
Definition mgf_fieldnames (targets : list target) : list string :=
  ["scan_number"; "RT"; "pepmass"; "intensity"; "MS2_sum"]
  ++ PyDict.keys (ProcessMgf.no_hits targets).

(** The state [st] with the records [d] put before its records. *)
Definition prepend (d : list (PyDict.dict pyval)) (st : ProcessMgfMzid.state)
  : ProcessMgfMzid.state :=
  {| ProcessMgfMzid.inside_ion_block := ProcessMgfMzid.inside_ion_block st;
     ProcessMgfMzid.scan_number := ProcessMgfMzid.scan_number st;
     ProcessMgfMzid.rt := ProcessMgfMzid.rt st;
     ProcessMgfMzid.precursor_mz := ProcessMgfMzid.precursor_mz st;
     ProcessMgfMzid.intensity := ProcessMgfMzid.intensity st;
     ProcessMgfMzid.mz_values := ProcessMgfMzid.mz_values st;
     ProcessMgfMzid.summed_ms2_intensity :=
       ProcessMgfMzid.summed_ms2_intensity st;
     ProcessMgfMzid.precursor_data := d ++ ProcessMgfMzid.precursor_data st |}.

(** The parser state of process_mgf.py after the lines, when it has one. *)
Definition mgf_state_after (targets : list target) (lines : list string)
  : ProcessMgf.state :=
  match ProcessMgf.run targets ProcessMgf.initial lines with
  | Ok st => st
  | Raise _ => ProcessMgf.initial
  end.

(** A short block, and the records process_mgf.py returns for lines. *)
Definition short_block : list string :=
  ["BEGIN IONS"; "TITLE=run.raw scan=5"; "PEPMASS=500.25"; "END IONS"].

Definition mgf_rows (targets : list target) (lines : list string)
  : list (PyDict.dict pyval) :=
  match ProcessMgf.parse_mgf lines targets with
  | Ok rows => rows
  | Raise _ => []
  end.

(** ** Lemmas on the string methods *)

Ltac inv_result :=
  repeat match goal with
    | H : Ok _ = Ok _ |- _ => inversion H; subst; clear H
    | H : Raise _ = Ok _ |- _ => discriminate H
    | H : Ok _ = Raise _ |- _ => discriminate H
    end.

Lemma startswith_cons_inv (a : ascii) (p s : string) :
  startswith (String a p) s = true ->
  exists s', s = String a s' /\ startswith p s' = true.
Proof.
  destruct s as [|b s']; simpl; [discriminate|].
  destruct (Ascii.eqb a b) eqn:E; [|discriminate].
  apply Ascii.eqb_eq in E. subst b. intros H. exists s'. split; [reflexivity|exact H].
Qed.

Lemma split_from_nonempty (sep : string) (s : string) :
  forall skip, split_from sep skip s <> [].
Proof.
  induction s as [|c s IH]; intros skip; simpl; [discriminate|].
  destruct skip as [|k]; [|apply IH].
  destruct (startswith sep (String c s)); [discriminate|].
  destruct (split_from sep 0 s); discriminate.
Qed.

Lemma split_nonempty (sep s : string) :
  exists a r, split sep s = a :: r.
Proof.
  unfold split. destruct (split_from sep 0 s) as [|a r] eqn:E.
  - exfalso. exact (split_from_nonempty sep s 0 E).
  - exists a, r. reflexivity.
Qed.

Lemma index_last_split (sep s : string) :
  exists a, index_last (split sep s) = Ok a.
Proof.
  unfold index_last.
  destruct (split_nonempty sep s) as (a & r & E). rewrite E.
  destruct (rev (a :: r)) as [|b l] eqn:R.
  - apply (f_equal (@List.length string)) in R.
    rewrite length_rev in R. discriminate R.
  - exists b. reflexivity.
Qed.

Lemma index_head_split (sep s : string) :
  exists a, index (split sep s) 0 = Ok a.
Proof.
  destruct (split_nonempty sep s) as (a & r & E). rewrite E.
  exists a. reflexivity.
Qed.

(** A text that contains a non-empty separator splits in two pieces at
    least. *)
Lemma split_contains (c0 : ascii) (p s : string) :
  contains (String c0 p) s = true ->
  exists a b r, split (String c0 p) s = a :: b :: r.
Proof.
  unfold split. induction s as [|c s IH]; intros H.
  - simpl in H. discriminate H.
  - cbn [contains] in H. cbn [split_from].
    destruct (startswith (String c0 p) (String c s)) eqn:E.
    + destruct (split_from (String c0 p) (String.length (String c0 p) - 1) s)
        as [|b r] eqn:F.
      * exfalso. exact (split_from_nonempty _ _ _ F).
      * exists EmptyString, b, r. reflexivity.
    + destruct (IH H) as (a & b & r & F). rewrite F.
      exists (String c a), b, r. reflexivity.
Qed.

(** ** Lemmas on the block parser of process_mgf_mzid.py *)

Section ParserLemmas.

Import ProcessMgfMzid.

Variable targets : list target.

(** The scan number expression never raises on a line that holds the
    marker: the [except IndexError] handler is out of reach. *)
Lemma scan_expr_total (line : string) :
  contains "scan=" line = true -> exists s, scan_expr line = Ok s.
Proof.
  intros H. unfold scan_expr.
  destruct (split_contains _ _ _ H) as (a & b & r & E). rewrite E.
  cbn [index nth_error bind].
  destruct (index_head_split "&quot;" b) as (x & Ex). rewrite Ex.
  cbn [bind]. apply index_head_split.
Qed.

Lemma on_title_total (st : state) (line : string) :
  exists st', on_title st line = Ok st'
              /\ precursor_data st' = precursor_data st
              /\ precursor_mz st' = precursor_mz st
              /\ inside_ion_block st' = inside_ion_block st
              /\ mz_values st' = mz_values st
              /\ summed_ms2_intensity st' = summed_ms2_intensity st.
Proof.
  unfold on_title. destruct (contains "scan=" line) eqn:C.
  - destruct (scan_expr_total line C) as (s & E). rewrite E. cbn.
    eexists. repeat split.
  - exists st. repeat split.
Qed.

Lemma on_rt_total (st : state) (line : string) :
  exists st', on_rt st line = Ok st'
              /\ precursor_data st' = precursor_data st
              /\ precursor_mz st' = precursor_mz st
              /\ inside_ion_block st' = inside_ion_block st
              /\ mz_values st' = mz_values st
              /\ summed_ms2_intensity st' = summed_ms2_intensity st.
Proof.
  unfold on_rt. destruct (index_last_split "=" line) as (a & E). rewrite E.
  cbn [bind]. unfold float_str. destruct (py_float (strip a)); cbn;
    eexists; repeat split.
Qed.

Lemma on_ion_cases (st : state) (line : string) :
  match split_ws line with
  | [p0; p1] =>
      match py_float p0, py_float p1 with
      | Some m, Some i =>
          on_ion st line =
          Ok {| inside_ion_block := inside_ion_block st;
                scan_number := scan_number st;
                rt := rt st;
                precursor_mz := precursor_mz st;
                intensity := intensity st;
                mz_values := mz_values st ++ [(m, i)];
                summed_ms2_intensity := add_float (summed_ms2_intensity st) i;
                precursor_data := precursor_data st |}
      | _, _ => on_ion st line = Ok st
      end
  | _ => on_ion st line = Ok st
  end.
Proof.
  unfold on_ion.
  destruct (split_ws line) as [|p0 [|p1 [|p2 l]]]; try reflexivity.
  unfold float_str.
  destruct (py_float p0); [destruct (py_float p1)|]; reflexivity.
Qed.

Lemma on_ion_total (st : state) (line : string) :
  exists st', on_ion st line = Ok st'
              /\ precursor_data st' = precursor_data st
              /\ precursor_mz st' = precursor_mz st
              /\ inside_ion_block st' = inside_ion_block st.
Proof.
  pose proof (on_ion_cases st line) as H.
  destruct (split_ws line) as [|p0 [|p1 [|p2 l]]];
    try (exists st; repeat split; exact H).
  destruct (py_float p0); [destruct (py_float p1)|];
    rewrite H; eexists; repeat split.
Qed.

(** A line other than the end marker leaves [precursor_data] as it is. *)
Lemma step_keeps_data (st st' : state) (raw : string) :
  is_end raw = false ->
  step targets st raw = Ok st' ->
  precursor_data st' = precursor_data st.
Proof.
  unfold is_end, step. intros E H.
  destruct (String.eqb (strip raw) "BEGIN IONS"); [inv_result; reflexivity|].
  destruct (inside_ion_block st); [|inv_result; reflexivity].
  destruct (startswith "TITLE=" (strip raw)).
  { destruct (on_title_total st (strip raw)) as (s1 & E1 & D & _).
    rewrite E1 in H. inv_result. exact D. }
  destruct (startswith "RTINSECONDS=" (strip raw)).
  { destruct (on_rt_total st (strip raw)) as (s1 & E1 & D & _).
    rewrite E1 in H. inv_result. exact D. }
  destruct (startswith "PEPMASS=" (strip raw)).
  { unfold on_pepmass in H.
    destruct (pepmass_fields (strip raw)) as [vs|e]; [|discriminate H].
    cbn [bind] in H.
    match type of H with
    | bind ?m _ = _ => destruct m as [vi|e]; [|discriminate H]
    end.
    cbn [bind] in H. inv_result. reflexivity. }
  rewrite E in H.
  destruct (on_ion_total st (strip raw)) as (s1 & E1 & D & _).
  rewrite E1 in H. inv_result. exact D.
Qed.

Lemma run_app (st : state) (l1 l2 : list string) :
  run targets st (l1 ++ l2) =
  (st' <- run targets st l1 ;; run targets st' l2).
Proof.
  revert st. induction l1 as [|raw l1 IH]; intros st; cbn [app run bind].
  - reflexivity.
  - destruct (step targets st raw) as [s1|e]; cbn [bind]; [apply IH|reflexivity].
Qed.

Lemma run_keeps_data (lines : list string) :
  Forall (fun raw => is_end raw = false) lines ->
  forall st st', run targets st lines = Ok st' ->
                 precursor_data st' = precursor_data st.
Proof.
  induction 1 as [|raw lines Hraw _ IH]; intros st st' H; cbn [run] in H.
  - inv_result. reflexivity.
  - destruct (step targets st raw) as [s1|e] eqn:E; [|discriminate H].
    cbn [bind] in H. rewrite (IH _ _ H). exact (step_keeps_data _ _ _ Hraw E).
Qed.

End ParserLemmas.

Section BlockLemmas.

Import ProcessMgfMzid.

Variable targets : list target.

Lemma is_begin_not_end (raw : string) : is_begin raw = true -> is_end raw = false.
Proof.
  unfold is_begin, is_end. intros H. apply String.eqb_eq in H. rewrite H.
  reflexivity.
Qed.

Lemma is_end_not_begin (raw : string) : is_end raw = true -> is_begin raw = false.
Proof.
  unfold is_begin, is_end. intros H. apply String.eqb_eq in H. rewrite H.
  reflexivity.
Qed.

Lemma is_end_not_pepmass (raw : string) :
  is_end raw = true -> is_pepmass raw = false.
Proof.
  unfold is_pepmass, is_end. intros H. apply String.eqb_eq in H. rewrite H.
  reflexivity.
Qed.

(** The end marker, inside a block: the record is appended when the scan
    key and the precursor m/z are both there, and nothing is otherwise. *)
Lemma step_end (st : state) (raw : string) :
  is_end raw = true ->
  inside_ion_block st = true ->
  step targets st raw = on_end targets st.
Proof.
  intros E I. unfold step, is_end in *. apply String.eqb_eq in E.
  rewrite E, I. reflexivity.
Qed.

(** A [PEPMASS=] line, inside a block. *)
Lemma step_pepmass (st : state) (raw : string) :
  is_pepmass raw = true ->
  inside_ion_block st = true ->
  step targets st raw = on_pepmass st (strip raw).
Proof.
  unfold is_pepmass. intros P I. unfold step. rewrite I.
  destruct (startswith_cons_inv _ _ _ P) as (l & E & _).
  rewrite E in P |- *.
  replace (String.eqb (String "P" l) "BEGIN IONS") with false by reflexivity.
  replace (startswith "TITLE=" (String "P" l)) with false by reflexivity.
  replace (startswith "RTINSECONDS=" (String "P" l)) with false by reflexivity.
  rewrite P. reflexivity.
Qed.

(** Only a [PEPMASS=] line can set the precursor m/z, and only such a
    line can raise. *)
Lemma step_no_pepmass (st : state) (raw : string) :
  is_pepmass raw = false ->
  precursor_mz st = None ->
  exists st', step targets st raw = Ok st'
              /\ precursor_mz st' = None
              /\ precursor_data st' = precursor_data st.
Proof.
  unfold is_pepmass, step. intros P M.
  destruct (String.eqb (strip raw) "BEGIN IONS").
  { eexists. repeat split. }
  destruct (inside_ion_block st); [|exists st; repeat split; exact M].
  destruct (startswith "TITLE=" (strip raw)).
  { destruct (on_title_total st (strip raw)) as (s1 & E1 & D & Z & _).
    exists s1. rewrite Z. repeat split; assumption. }
  destruct (startswith "RTINSECONDS=" (strip raw)).
  { destruct (on_rt_total st (strip raw)) as (s1 & E1 & D & Z & _).
    exists s1. rewrite Z. repeat split; assumption. }
  rewrite P.
  destruct (String.eqb (strip raw) "END IONS").
  { unfold on_end. rewrite M.
    destruct (scan_number st); eexists; (split; [reflexivity|]); cbn;
      rewrite app_nil_r; split; reflexivity || exact M. }
  destruct (on_ion_total st (strip raw)) as (s1 & E1 & D & Z & _).
  exists s1. rewrite Z. repeat split; assumption.
Qed.

(** Every line but a [PEPMASS=] line is read without an exception. *)
Lemma step_total (st : state) (raw : string) :
  is_pepmass raw = false ->
  exists st', step targets st raw = Ok st'.
Proof.
  unfold is_pepmass, step. intros P.
  destruct (String.eqb (strip raw) "BEGIN IONS"); [eexists; reflexivity|].
  destruct (inside_ion_block st); [|eexists; reflexivity].
  destruct (startswith "TITLE=" (strip raw)).
  { destruct (on_title_total st (strip raw)) as (s1 & E1 & _).
    exists s1. exact E1. }
  destruct (startswith "RTINSECONDS=" (strip raw)).
  { destruct (on_rt_total st (strip raw)) as (s1 & E1 & _).
    exists s1. exact E1. }
  rewrite P.
  destruct (String.eqb (strip raw) "END IONS"); [eexists; reflexivity|].
  destruct (on_ion_total st (strip raw)) as (s1 & E1 & _).
  exists s1. exact E1.
Qed.

Lemma run_no_pepmass (lines : list string) :
  Forall (fun raw => is_pepmass raw = false) lines ->
  forall st, precursor_mz st = None ->
  exists st', run targets st lines = Ok st'
              /\ precursor_mz st' = None
              /\ precursor_data st' = precursor_data st.
Proof.
  induction 1 as [|raw lines Hraw _ IH]; intros st M; cbn [run].
  - exists st. repeat split. exact M.
  - destruct (step_no_pepmass st raw Hraw M) as (s1 & E1 & M1 & D1).
    rewrite E1. cbn [bind].
    destruct (IH s1 M1) as (s2 & E2 & M2 & D2).
    exists s2. rewrite D2, D1. repeat split; assumption.
Qed.

End BlockLemmas.

(** ** Lemmas on dicts *)

Section DictLemmas.

Import PyDict.

Context {V : Type}.

Lemma get_set_same (d : dict V) (k : string) (v : V) :
  get (set d k v) k = Some v.
Proof.
  induction d as [|[k' v'] d IH]; cbn [set get].
  - rewrite String.eqb_refl. reflexivity.
  - destruct (String.eqb k' k) eqn:E; cbn [get]; rewrite E; [reflexivity|exact IH].
Qed.

Lemma get_set_other (d : dict V) (k k0 : string) (v : V) :
  k0 <> k -> get (set d k0 v) k = get d k.
Proof.
  intros N. induction d as [|[k' v'] d IH]; cbn [set get].
  - apply String.eqb_neq in N. rewrite N. reflexivity.
  - destruct (String.eqb k' k0) eqn:E; cbn [get].
    + apply String.eqb_eq in E. subst k'.
      apply String.eqb_neq in N. rewrite N. reflexivity.
    + destruct (String.eqb k' k); [reflexivity|exact IH].
Qed.

Lemma get_set (d : dict V) (k k0 : string) (v : V) :
  get (set d k0 v) k = if String.eqb k0 k then Some v else get d k.
Proof.
  destruct (String.eqb k0 k) eqn:E.
  - apply String.eqb_eq in E. subst k0. apply get_set_same.
  - apply String.eqb_neq in E. apply get_set_other. exact E.
Qed.

Lemma keys_set (d : dict V) (k : string) (v : V) :
  keys (set d k v) = if existsb (String.eqb k) (keys d) then keys d
                     else keys d ++ [k].
Proof.
  unfold keys. induction d as [|[k' v'] d IH]; cbn [set map existsb fst].
  - reflexivity.
  - rewrite (String.eqb_sym k k').
    destruct (String.eqb k' k) eqn:E; cbn [map fst orb].
    + reflexivity.
    + rewrite IH. destruct (existsb (String.eqb k) (map fst d)); reflexivity.
Qed.

Lemma NoDup_keys_set (d : dict V) (k : string) (v : V) :
  NoDup (keys d) -> NoDup (keys (set d k v)).
Proof.
  intros N. rewrite keys_set.
  destruct (existsb (String.eqb k) (keys d)) eqn:E; [exact N|].
  apply NoDup_app; [exact N|repeat constructor; intros []|].
  intros x Hx [<-|[]].
  assert (existsb (String.eqb k) (keys d) = true) as Hex.
  { apply existsb_exists. exists k. split; [exact Hx|apply String.eqb_refl]. }
  congruence.
Qed.

Lemma get_None_keys (d : dict V) (k : string) :
  get d k = None <-> ~ In k (keys d).
Proof.
  unfold keys. induction d as [|[k' v'] d IH]; cbn [get map fst In].
  - split; [intros _ []|reflexivity].
  - destruct (String.eqb k' k) eqn:E.
    + apply String.eqb_eq in E. subst k'. split; [discriminate|].
      intros N. exfalso. apply N. left. reflexivity.
    + apply String.eqb_neq in E. rewrite IH. split.
      * intros N [H|H]; [exact (E H)|exact (N H)].
      * intros N H. apply N. right. exact H.
Qed.

(** [{**a, **b}] reads as [b] on the keys of [b] and as [a] elsewhere. *)
Lemma get_update (b : dict V) :
  NoDup (keys b) ->
  forall (a : dict V) (k : string),
    get (update a b) k = match get b k with
                         | Some v => Some v
                         | None => get a k
                         end.
Proof.
  unfold update.
  induction b as [|[k1 v1] b IH]; intros N a k; cbn [fold_left get fst snd].
  - reflexivity.
  - cbn [keys map fst] in N. inversion N as [|? ? Hnot N']; subst.
    rewrite (IH N'). destruct (String.eqb k1 k) eqn:E.
    + apply String.eqb_eq in E. subst k1.
      apply get_None_keys in Hnot. rewrite Hnot. apply get_set_same.
    + apply String.eqb_neq in E.
      rewrite (get_set_other a k k1 v1 E). reflexivity.
Qed.

End DictLemmas.

(** ** [str] of a float is made of the characters of float notation *)

Lemma all_chars_app (P : ascii -> bool) (a b : string) :
  all_chars P (a ++ b) = all_chars P a && all_chars P b.
Proof.
  induction a as [|c a IH]; cbn [append all_chars]; [reflexivity|].
  rewrite IH. apply andb_assoc.
Qed.

Lemma all_chars_substring (P : ascii -> bool) (s : string) :
  all_chars P s = true ->
  forall n m, all_chars P (substring n m s) = true.
Proof.
  induction s as [|c s IH]; intros H n m.
  - destruct n, m; reflexivity.
  - cbn [all_chars] in H. apply andb_true_iff in H. destruct H as [Hc Hs].
    destruct n as [|n]; cbn [substring].
    + destruct m as [|m]; cbn [all_chars]; [reflexivity|].
      rewrite Hc. apply (IH Hs 0%nat m).
    + apply (IH Hs n m).
Qed.

Lemma all_chars_zeros (n : nat) : all_chars float_char (zeros n) = true.
Proof. induction n as [|n IH]; [reflexivity|exact IH]. Qed.

Lemma all_chars_uint (d : Decimal.uint) :
  all_chars float_char (NilEmpty.string_of_uint d) = true.
Proof. induction d; cbn [NilEmpty.string_of_uint all_chars]; try exact IHd; reflexivity. Qed.

Lemma all_chars_digits_of (z : Z) : all_chars float_char (digits_of z) = true.
Proof.
  unfold digits_of, NilZero.string_of_uint.
  destruct (N.to_uint (Z.to_N z)) eqn:E; try reflexivity;
    rewrite <- E; apply all_chars_uint.
Qed.

Lemma all_chars_layout (d x : Z) : all_chars float_char (layout d x) = true.
Proof.
  unfold layout.
  pose proof (all_chars_digits_of d) as D.
  pose proof (all_chars_substring float_char _ D) as S.
  repeat match goal with
         | |- context [if ?b then _ else _] => destruct b
         end;
    repeat rewrite all_chars_app;
    rewrite ?S, ?D, ?all_chars_zeros, ?all_chars_digits_of; reflexivity.
Qed.

Lemma all_chars_py_str (f : float) : all_chars float_char (py_str f) = true.
Proof.
  unfold py_str. destruct (Prim2SF f) as [s|s| |s m e].
  - destruct s; reflexivity.
  - destruct s; reflexivity.
  - reflexivity.
  - destruct (if (0 <=? e)%Z then _ else _) as [num den].
    destruct (shortest _ _ _ _ _ _) as [d0 x0].
    destruct (drop_zeros _ _ _) as [d x].
    rewrite all_chars_app, all_chars_layout. destruct s; reflexivity.
Qed.

(** A text that holds a character outside float notation is the text of
    no float. *)
Lemma py_str_neq (f : float) (k : string) :
  all_chars float_char k = false -> py_str f <> k.
Proof. intros H E. rewrite <- E, all_chars_py_str in H. discriminate H. Qed.

(** ** The target hits of a block *)

Section HitLemmas.

Import PyDict ProcessMgfMzid.

Variable targets : list target.

Lemma get_no_hits_from (ts : list target) (d : dict pyval) (k : string) :
  get (fold_left (fun d t => set d (py_str (mz t)) (VStr "no")) ts d) k
  = if is_target_text ts k then Some (VStr "no") else get d k.
Proof.
  revert d. induction ts as [|t ts IH]; intros d; cbn [fold_left]; [reflexivity|].
  rewrite IH. unfold is_target_text. cbn [existsb]. fold (is_target_text ts k).
  rewrite get_set.
  destruct (is_target_text ts k), (String.eqb (py_str (mz t)) k); reflexivity.
Qed.

Lemma get_no_hits (k : string) :
  get (no_hits targets) k
  = if is_target_text targets k then Some (VStr "no") else None.
Proof. unfold no_hits. apply get_no_hits_from. Qed.

Lemma NoDup_no_hits_from (ts : list target) (d : dict pyval) :
  NoDup (keys d) ->
  NoDup (keys (fold_left (fun d t => set d (py_str (mz t)) (VStr "no")) ts d)).
Proof.
  revert d. induction ts as [|t ts IH]; intros d N; cbn [fold_left]; [exact N|].
  apply IH. apply NoDup_keys_set. exact N.
Qed.

(** One fragment against the targets [ts]: a target within tolerance
    writes "yes" under its text; nothing else is written. *)
Lemma get_mark_targets (ts : list target) (d : dict pyval) (value : float)
  (k : string) :
  get (mark_targets ts d value) k
  = if existsb (fun t => String.eqb (py_str (mz t)) k
                         && is_within_tolerance value (mz t) (tolerance t)
                              (tolerance_type t)) ts
    then Some (VStr "yes") else get d k.
Proof.
  unfold mark_targets. revert d.
  induction ts as [|t ts IH]; intros d; cbn [fold_left existsb]; [reflexivity|].
  rewrite IH.
  destruct (existsb _ ts); [rewrite orb_true_r; reflexivity|].
  rewrite orb_false_r.
  destruct (is_within_tolerance value (mz t) (tolerance t) (tolerance_type t));
    [|rewrite andb_false_r; reflexivity].
  rewrite andb_true_r, get_set. reflexivity.
Qed.

Lemma NoDup_mark_targets (ts : list target) (d : dict pyval) (value : float) :
  NoDup (keys d) -> NoDup (keys (mark_targets ts d value)).
Proof.
  unfold mark_targets. revert d.
  induction ts as [|t ts IH]; intros d N; cbn [fold_left]; [exact N|].
  apply IH.
  destruct (is_within_tolerance value (mz t) (tolerance t) (tolerance_type t));
    [apply NoDup_keys_set|]; exact N.
Qed.

Lemma get_mark_values (values : list (float * float)) (d : dict pyval)
  (k : string) :
  get (fold_left (fun d p => mark_targets targets d (fst p)) values d) k
  = if matched targets values k then Some (VStr "yes") else get d k.
Proof.
  revert d. induction values as [|p values IH]; intros d;
    cbn [fold_left]; [reflexivity|].
  rewrite IH, get_mark_targets. unfold matched. cbn [existsb].
  destruct (existsb _ values); [rewrite orb_true_r; reflexivity|].
  rewrite orb_false_r. reflexivity.
Qed.

Lemma NoDup_mark_values (values : list (float * float)) (d : dict pyval) :
  NoDup (keys d) ->
  NoDup (keys (fold_left (fun d p => mark_targets targets d (fst p)) values d)).
Proof.
  revert d. induction values as [|p values IH]; intros d N;
    cbn [fold_left]; [exact N|].
  apply IH. apply NoDup_mark_targets. exact N.
Qed.

Lemma matched_nil (values : list (float * float)) (k : string) :
  matched [] values k = false.
Proof.
  unfold matched. induction values as [|p values IH]; [reflexivity|exact IH].
Qed.

Lemma matched_is_target_text (values : list (float * float)) (k : string) :
  matched targets values k = true -> is_target_text targets k = true.
Proof.
  unfold matched, is_target_text. intros H.
  apply existsb_exists in H. destruct H as (p & _ & H).
  apply existsb_exists in H. destruct H as (t & Ht & H).
  apply andb_true_iff in H. destruct H as [H _].
  apply existsb_exists. exists t. split; assumption.
Qed.

(** The entry of [target_hits] under a text: "yes" when some fragment is
    within the tolerance of some target with that text, "no" when the text
    is a target's and no fragment is, and no entry otherwise. *)
Lemma get_target_hits (values : list (float * float)) (k : string) :
  get (target_hits targets values) k
  = if matched targets values k then Some (VStr "yes")
    else if is_target_text targets k then Some (VStr "no")
    else None.
Proof.
  unfold target_hits. destruct targets as [|t ts] eqn:E.
  - rewrite matched_nil. reflexivity.
  - rewrite <- E. rewrite get_mark_values, get_no_hits. reflexivity.
Qed.

Lemma NoDup_target_hits (values : list (float * float)) :
  NoDup (keys (target_hits targets values)).
Proof.
  unfold target_hits.
  assert (NoDup (keys (no_hits targets))) as N.
  { unfold no_hits. apply NoDup_no_hits_from. constructor. }
  destruct targets as [|t ts] eqn:E; [exact N|].
  rewrite <- E in *. apply NoDup_mark_values. exact N.
Qed.

Lemma is_target_text_float_char (k : string) :
  is_target_text targets k = true -> all_chars float_char k = true.
Proof.
  unfold is_target_text. intros H. apply existsb_exists in H.
  destruct H as (t & _ & H). apply String.eqb_eq in H. subst k.
  apply all_chars_py_str.
Qed.

(** A column that is no float text is read from the base fields of the
    record. *)
Lemma get_record_base (st : state) (scan : string) (pepmass : float)
  (k : string) :
  all_chars float_char k = false ->
  get (record_of targets st scan pepmass) k
  = get [("scan_number", VStr scan);
         ("RT", opt_float (rt st));
         ("pepmass", VFloat pepmass);
         ("intensity", opt_float (intensity st));
         ("summed_ms2_intensity", summed_ms2_intensity st)] k.
Proof.
  intros H. unfold record_of.
  rewrite (get_update _ (NoDup_target_hits (mz_values st))).
  rewrite get_target_hits.
  destruct (is_target_text targets k) eqn:T.
  - apply is_target_text_float_char in T. congruence.
  - destruct (matched targets (mz_values st) k) eqn:M; [|reflexivity].
    apply matched_is_target_text in M. congruence.
Qed.

(** A target column of the record is read from [target_hits]. *)
Lemma get_record_target (st : state) (scan : string) (pepmass : float)
  (k : string) :
  is_target_text targets k = true ->
  get (record_of targets st scan pepmass) k
  = Some (VStr (if matched targets (mz_values st) k then "yes" else "no")).
Proof.
  intros H. unfold record_of.
  rewrite (get_update _ (NoDup_target_hits (mz_values st))).
  rewrite get_target_hits, H.
  destruct (matched targets (mz_values st) k); reflexivity.
Qed.

End HitLemmas.

(** ** Lines that are no fragment lines *)

Lemma rstrip_cons_nonspace (c : ascii) (s : string) :
  is_space c = false -> rstrip (String c s) = String c (rstrip s).
Proof.
  intros H. cbn [rstrip]. rewrite H. destruct (rstrip s); reflexivity.
Qed.

Lemma skip_blank_right_cons (c : ascii) (s : string) :
  is_blank c = false ->
  skip_blank_right (String c s) = String c (skip_blank_right s).
Proof.
  intros H. cbn [skip_blank_right]. rewrite H.
  destruct (skip_blank_right s); reflexivity.
Qed.

Lemma split_ws_head (c : ascii) (s : string) :
  is_space c = false ->
  exists t ts, split_ws (String c s) = String c t :: ts.
Proof.
  intros H. cbn [split_ws]. rewrite H.
  destruct s as [|c' s']; [eexists; eexists; reflexivity|].
  destruct (is_space c'); [eexists; eexists; reflexivity|].
  destruct (split_ws (String c' s')); eexists; eexists; reflexivity.
Qed.

(** No float begins with one of the letters that begin a field line. *)
Lemma py_float_field_letter (c : ascii) (t : string) :
  (c = "T" \/ c = "R" \/ c = "P")%char -> py_float (String c t) = None.
Proof.
  intros H. unfold py_float, skip_blank.
  assert (is_blank c = false) as S by (destruct H as [->|[->| ->]]; reflexivity).
  cbn [skip_blank_left]. rewrite S. rewrite (skip_blank_right_cons c t S).
  destruct H as [->|[->| ->]]; reflexivity.
Qed.

Lemma ion_pair_field_line (raw : string) (c : ascii) (l : string) :
  (c = "T" \/ c = "R" \/ c = "P")%char ->
  strip raw = String c l -> ion_pair raw = None.
Proof.
  intros H E. unfold ion_pair. rewrite E.
  assert (is_space c = false) as S by (destruct H as [->|[->| ->]]; reflexivity).
  destruct (split_ws_head c l S) as (t & ts & F). rewrite F.
  rewrite (py_float_field_letter c t H).
  destruct ts as [|p1 [|p2 ts]]; reflexivity.
Qed.

Section BodyLemmas.

Import ProcessMgfMzid.

Variable targets : list target.

Lemma on_pepmass_keeps (st st' : state) (line : string) :
  on_pepmass st line = Ok st' ->
  inside_ion_block st' = inside_ion_block st
  /\ mz_values st' = mz_values st
  /\ summed_ms2_intensity st' = summed_ms2_intensity st
  /\ precursor_data st' = precursor_data st.
Proof.
  unfold on_pepmass. intros H.
  destruct (pepmass_fields line) as [vs|e]; [|discriminate H].
  cbn [bind] in H.
  match type of H with
  | bind ?m _ = _ => destruct m as [vi|e]; [|discriminate H]
  end.
  cbn [bind] in H. inv_result. repeat split.
Qed.

(** One line of a block body: a fragment line adds its peak and its
    intensity, every other line leaves the peaks and the sum alone. *)
Lemma step_body (st st' : state) (raw : string) :
  is_begin raw = false ->
  is_end raw = false ->
  inside_ion_block st = true ->
  step targets st raw = Ok st' ->
  inside_ion_block st' = true
  /\ mz_values st' = mz_values st ++ ion_pairs [raw]
  /\ summed_ms2_intensity st'
     = sum_from (summed_ms2_intensity st) (map snd (ion_pairs [raw]))
  /\ precursor_data st' = precursor_data st.
Proof.
  unfold is_begin, is_end, step. intros B E I H. rewrite B, I in H.
  cbn [ion_pairs].
  destruct (startswith "TITLE=" (strip raw)) eqn:T.
  { destruct (startswith_cons_inv _ _ _ T) as (l & L & _).
    rewrite (ion_pair_field_line raw "T" l (or_introl eq_refl) L).
    destruct (on_title_total st (strip raw)) as (s1 & E1 & D & _ & J & M & S).
    rewrite E1 in H. inv_result. rewrite J, M, S, D, app_nil_r.
    repeat split. exact I. }
  destruct (startswith "RTINSECONDS=" (strip raw)) eqn:R.
  { destruct (startswith_cons_inv _ _ _ R) as (l & L & _).
    rewrite (ion_pair_field_line raw "R" l (or_intror (or_introl eq_refl)) L).
    destruct (on_rt_total st (strip raw)) as (s1 & E1 & D & _ & J & M & S).
    rewrite E1 in H. inv_result. rewrite J, M, S, D, app_nil_r.
    repeat split. exact I. }
  destruct (startswith "PEPMASS=" (strip raw)) eqn:P.
  { destruct (startswith_cons_inv _ _ _ P) as (l & L & _).
    rewrite (ion_pair_field_line raw "P" l (or_intror (or_intror eq_refl)) L).
    destruct (on_pepmass_keeps st st' (strip raw) H) as (J & M & S & D).
    rewrite J, M, S, D, app_nil_r. repeat split. exact I. }
  rewrite E in H. unfold ion_pair.
  pose proof (on_ion_cases st (strip raw)) as C.
  destruct (split_ws (strip raw)) as [|p0 [|p1 [|p2 ps]]];
    try (rewrite C in H; inv_result; rewrite app_nil_r; repeat split; exact I).
  destruct (py_float p0); [destruct (py_float p1)|];
    rewrite C in H; inv_result; cbn; rewrite ?app_nil_r; repeat split; exact I.
Qed.

Lemma ion_pairs_app (l1 l2 : list string) :
  ion_pairs (l1 ++ l2) = ion_pairs l1 ++ ion_pairs l2.
Proof.
  induction l1 as [|raw l1 IH]; cbn [app ion_pairs]; [reflexivity|].
  rewrite IH. destruct (ion_pair raw); reflexivity.
Qed.

(** The lines of a block body, read from inside a block: the peaks are
    those of the fragment lines, in order, and the sum is theirs. *)
Lemma run_body (body : list string) :
  block_body body ->
  forall st st',
    inside_ion_block st = true ->
    run targets st body = Ok st' ->
    inside_ion_block st' = true
    /\ mz_values st' = mz_values st ++ ion_pairs body
    /\ summed_ms2_intensity st'
       = sum_from (summed_ms2_intensity st) (map snd (ion_pairs body))
    /\ precursor_data st' = precursor_data st.
Proof.
  induction 1 as [|raw body [B E] _ IH]; intros st st' I H; cbn [run] in H.
  - inv_result. rewrite app_nil_r. repeat split. exact I.
  - destruct (step targets st raw) as [s1|e] eqn:S1; [|discriminate H].
    cbn [bind] in H.
    destruct (step_body st s1 raw B E I S1) as (I1 & M1 & Z1 & D1).
    destruct (IH s1 st' I1 H) as (I2 & M2 & Z2 & D2).
    change (raw :: body) with ([raw] ++ body).
    rewrite ion_pairs_app, map_app. unfold sum_from in *.
    rewrite fold_left_app, <- Z1, app_assoc, <- M1, D2, D1.
    repeat split; assumption.
Qed.

(** A whole block after a prefix: the state at its end marker. *)
Lemma run_block (pre : list string) (b : string) (body : list string)
  (e : string) (st0 st' : state) :
  run targets initial pre = Ok st0 ->
  is_begin b = true ->
  block_body body ->
  is_end e = true ->
  run targets initial (pre ++ b :: body ++ [e]) = Ok st' ->
  exists st,
    on_end targets st = Ok st'
    /\ mz_values st = ion_pairs body
    /\ summed_ms2_intensity st = sum_from (VInt 0) (map snd (ion_pairs body))
    /\ precursor_data st = precursor_data st0.
Proof.
  intros R0 B Hbody E R.
  rewrite run_app, R0 in R. cbn [bind run] in R.
  assert (step targets st0 b
          = Ok {| inside_ion_block := true;
                  scan_number := None;
                  rt := None;
                  precursor_mz := None;
                  intensity := None;
                  mz_values := [];
                  summed_ms2_intensity := VInt 0;
                  precursor_data := precursor_data st0 |}) as Sb.
  { unfold step. unfold is_begin in B. rewrite B. reflexivity. }
  rewrite Sb in R. cbn [bind] in R. rewrite run_app in R.
  match type of R with
  | bind (run _ ?s _) _ = _ => destruct (run targets s body) as [st|x] eqn:Rb
  end; [|discriminate R].
  cbn [bind run] in R.
  pose proof (fun I => run_body body Hbody _ st I Rb) as X.
  destruct (X eq_refl) as (I & M & Z & D). clear X.
  rewrite (step_end targets st e E I) in R.
  destruct (on_end targets st) as [s2|x] eqn:O; [|discriminate R].
  cbn [bind] in R. inv_result.
  exists st. repeat split; assumption.
Qed.

End BodyLemmas.

Lemma In_ion_pairs (body : list string) (raw : string) (p : float * float) :
  In raw body -> ion_pair raw = Some p -> In p (ion_pairs body).
Proof.
  induction body as [|l body IH]; intros H E; [destruct H|].
  destruct H as [H|H]; cbn [ion_pairs].
  - subst l. rewrite E. left. reflexivity.
  - destruct (ion_pair l); [right|]; apply IH; assumption.
Qed.

(** The record a block adds, when it adds one, is the record of the state
    at its end marker. *)
Lemma on_end_record (targets : list target) (st st' : ProcessMgfMzid.state)
  (r : PyDict.dict pyval) :
  ProcessMgfMzid.on_end targets st = Ok st' ->
  ProcessMgfMzid.precursor_data st' = ProcessMgfMzid.precursor_data st ++ [r] ->
  exists scan pepmass,
    ProcessMgfMzid.scan_number st = Some scan
    /\ truthy scan = true
    /\ ProcessMgfMzid.precursor_mz st = Some pepmass
    /\ r = ProcessMgfMzid.record_of targets st scan pepmass.
Proof.
  unfold ProcessMgfMzid.on_end. intros H D. inv_result. cbn in D.
  apply app_inv_head in D.
  destruct (ProcessMgfMzid.scan_number st) as [scan|]; [|discriminate D].
  destruct (ProcessMgfMzid.precursor_mz st) as [pepmass|]; [|discriminate D].
  destruct (truthy scan) eqn:T; [|discriminate D].
  inversion D. exists scan, pepmass. repeat split. exact T.
Qed.

(** ** Trailing white space and the string methods *)

Local Open Scope string_scope.

Lemma append_nil_r (s : string) : s ++ EmptyString = s.
Proof. induction s as [|c s IH]; cbn [append]; [reflexivity|rewrite IH; reflexivity]. Qed.

Lemma append_assoc (a b c : string) : (a ++ b) ++ c = a ++ (b ++ c).
Proof. induction a as [|x a IH]; cbn [append]; [reflexivity|rewrite IH; reflexivity]. Qed.

Lemma rstrip_all_space (w : string) : all_space w = true -> rstrip w = EmptyString.
Proof.
  unfold all_space. induction w as [|c w IH]; cbn [all_chars rstrip]; [reflexivity|].
  intros H. apply andb_true_iff in H. destruct H as [Hc Hw].
  rewrite (IH Hw), Hc. reflexivity.
Qed.

(** A text is its [rstrip] followed by white space. *)
Lemma rstrip_decomp (s : string) :
  exists w, all_space w = true /\ s = rstrip s ++ w.
Proof.
  unfold all_space. induction s as [|c s (w & Hw & E)]; cbn [rstrip].
  - exists EmptyString. split; reflexivity.
  - destruct (rstrip s) as [|c' r] eqn:R.
    + destruct (is_space c) eqn:C.
      * exists (String c s). cbn [append all_chars]. rewrite C. cbn [andb].
        split; [|reflexivity]. rewrite E. exact Hw.
      * exists w. split; [exact Hw|]. cbn [append]. rewrite E at 1. reflexivity.
    + exists w. split; [exact Hw|]. cbn [append] in *. rewrite E at 1. reflexivity.
Qed.

Lemma rstrip_app_space (s w : string) :
  all_space w = true -> rstrip (s ++ w) = rstrip s.
Proof.
  intros H. induction s as [|c s IH]; cbn [append rstrip].
  - apply rstrip_all_space. exact H.
  - rewrite IH. reflexivity.
Qed.

Lemma lstrip_all_space (w : string) : all_space w = true -> lstrip w = EmptyString.
Proof.
  unfold all_space. induction w as [|c w IH]; cbn [all_chars lstrip]; [reflexivity|].
  intros H. apply andb_true_iff in H. destruct H as [Hc Hw].
  rewrite Hc. exact (IH Hw).
Qed.

Lemma lstrip_space_app (w s : string) :
  all_space w = true -> lstrip (w ++ s) = lstrip s.
Proof.
  unfold all_space. induction w as [|c w IH]; cbn [all_chars append lstrip];
    [reflexivity|].
  intros H. apply andb_true_iff in H. destruct H as [Hc Hw].
  rewrite Hc. exact (IH Hw).
Qed.

Lemma strip_app_space (s w : string) :
  all_space w = true -> strip (s ++ w) = strip s.
Proof.
  intros H. unfold strip. induction s as [|c s IH]; cbn [append lstrip].
  - rewrite (lstrip_all_space w H). reflexivity.
  - destruct (is_space c); [exact IH|].
    change (String c (s ++ w)) with (String c s ++ w).
    apply rstrip_app_space. exact H.
Qed.

(** White space around a text does not change its [strip]. *)
Lemma strip_surround (lead s trail : string) :
  all_space lead = true -> all_space trail = true ->
  strip (lead ++ s ++ trail) = strip s.
Proof.
  intros Hl Ht. unfold strip. rewrite (lstrip_space_app lead _ Hl).
  apply (strip_app_space s trail Ht).
Qed.

Section SeparatorLemmas.

(** A separator without white space, and a run of white space. *)
Variable c0 : ascii.
Variable p0 : string.
Variable w : string.
Hypothesis sep_no_space : no_space (String c0 p0) = true.
Hypothesis w_all_space : all_space w = true.

Lemma startswith_space_false (p : string) (c : ascii) (s : string) :
  no_space (String c p) = true -> all_space s = true ->
  startswith (String c p) s = false.
Proof.
  unfold no_space, all_space. cbn [all_chars]. intros Hp Hs.
  apply andb_true_iff in Hp. destruct Hp as [Hc _].
  destruct s as [|b s]; cbn [startswith]; [reflexivity|].
  cbn [all_chars] in Hs. apply andb_true_iff in Hs. destruct Hs as [Hb _].
  destruct (Ascii.eqb c b) eqn:E; [|reflexivity].
  apply Ascii.eqb_eq in E. subst b. rewrite Hb in Hc. discriminate Hc.
Qed.

Lemma startswith_app_space (p : string) :
  no_space p = true ->
  forall s, p <> EmptyString -> startswith p (s ++ w) = startswith p s.
Proof.
  induction p as [|c p IH]; intros Hp s N; [contradiction N; reflexivity|].
  destruct s as [|b s]; cbn [append].
  - cbn [startswith]. apply (startswith_space_false p c w Hp w_all_space).
  - cbn [startswith]. destruct (Ascii.eqb c b); [|reflexivity].
    destruct p as [|c' p]; [reflexivity|].
    apply IH; [|discriminate].
    unfold no_space in *. cbn [all_chars] in Hp.
    apply andb_true_iff in Hp. destruct Hp as [_ Hp]. exact Hp.
Qed.

Lemma contains_space_false (s : string) :
  all_space s = true -> contains (String c0 p0) s = false.
Proof.
  unfold all_space. induction s as [|b v IH]; intros Hs; [reflexivity|].
  cbn [contains].
  rewrite (startswith_space_false p0 c0 (String b v) sep_no_space Hs).
  cbn [all_chars] in Hs. apply andb_true_iff in Hs. destruct Hs as [_ Hs].
  apply IH. exact Hs.
Qed.

Lemma contains_app_space (s : string) :
  contains (String c0 p0) (s ++ w) = contains (String c0 p0) s.
Proof.
  induction s as [|c s IH].
  - cbn [append]. rewrite (contains_space_false w w_all_space). reflexivity.
  - change (String c s ++ w) with (String c (s ++ w)). cbn [contains].
    change (String c (s ++ w)) with (String c s ++ w).
    rewrite (startswith_app_space _ sep_no_space) by discriminate.
    rewrite IH. reflexivity.
Qed.

Lemma startswith_length (p s : string) :
  startswith p s = true -> (String.length p <= String.length s)%nat.
Proof.
  revert s. induction p as [|a p IH]; intros s H; cbn [String.length]; [lia|].
  destruct s as [|b s]; cbn [startswith] in H; [discriminate H|].
  destruct (Ascii.eqb a b); [|discriminate H].
  cbn [String.length]. apply le_n_S. apply IH. exact H.
Qed.

Lemma split_from_space (s : string) :
  all_space s = true -> split_from (String c0 p0) 0 s = [s].
Proof.
  unfold all_space. induction s as [|b v IH]; intros Hs; [reflexivity|].
  cbn [split_from].
  rewrite (startswith_space_false p0 c0 (String b v) sep_no_space Hs).
  cbn [all_chars] in Hs. apply andb_true_iff in Hs. destruct Hs as [_ Hs].
  rewrite (IH Hs). reflexivity.
Qed.

Lemma app_last_cons (p : string) (l : list string) :
  l <> [] -> app_last w (p :: l) = p :: app_last w l.
Proof. destruct l; [intros N; contradiction N; reflexivity|reflexivity]. Qed.

(** White space after a text goes to the last piece of its [split]. *)
Lemma split_from_app_space (s : string) :
  forall k, (k <= String.length s)%nat ->
  split_from (String c0 p0) k (s ++ w)
  = app_last w (split_from (String c0 p0) k s).
Proof.
  induction s as [|c s IH]; intros k Hk.
  - cbn [String.length] in Hk. assert (k = 0%nat) as -> by lia.
    cbn [append split_from app_last]. apply (split_from_space w w_all_space).
  - change (String c s ++ w) with (String c (s ++ w)).
    destruct k as [|k]; cbn [split_from].
    + change (String c (s ++ w)) with (String c s ++ w).
      rewrite (startswith_app_space _ sep_no_space) by discriminate.
      destruct (startswith (String c0 p0) (String c s)) eqn:E.
      * apply startswith_length in E. cbn [String.length] in E.
        rewrite IH by (cbn [String.length]; lia).
        symmetry. apply app_last_cons. apply split_from_nonempty.
      * rewrite IH by lia.
        destruct (split_from (String c0 p0) 0 s) as [|p ps] eqn:F.
        { exfalso. exact (split_from_nonempty _ _ _ F). }
        destruct ps; reflexivity.
    + apply IH. cbn [String.length] in Hk. lia.
Qed.

Lemma split_app_space (s : string) :
  split (String c0 p0) (s ++ w) = app_last w (split (String c0 p0) s).
Proof. unfold split. apply split_from_app_space. lia. Qed.

Lemma nth_error_app_last (l : list string) :
  forall i,
    match nth_error l i with
    | Some p => nth_error (app_last w l) i = Some p
                \/ nth_error (app_last w l) i = Some (p ++ w)
    | None => nth_error (app_last w l) i = None
    end.
Proof.
  induction l as [|p l IH]; intros i.
  - destruct i; reflexivity.
  - destruct l as [|q l].
    + destruct i as [|[|i]]; cbn; auto.
    + change (app_last w (p :: q :: l)) with (p :: app_last w (q :: l)).
      destruct i as [|i]; [left; reflexivity|]. exact (IH i).
Qed.

End SeparatorLemmas.

Local Open Scope list_scope.

(** ** The scan number expression *)

Section ScanKeyLemmas.

Import ProcessMgfMzid.

Local Open Scope string_scope.

Lemma scan_tail_app_space (a w : string) :
  all_space w = true ->
  (b <- index (split "&quot;" (a ++ w)) 0 ;;
   index (split " " (replace dquote EmptyString (strip b))) 0)
  = (b <- index (split "&quot;" a) 0 ;;
     index (split " " (replace dquote EmptyString (strip b))) 0).
Proof.
  intros H. rewrite (split_app_space "&" "quot;" w eq_refl H).
  destruct (split_nonempty "&quot;" a) as (x & xs & E). rewrite E.
  destruct xs as [|y ys]; [|reflexivity].
  cbn [app_last index nth_error bind]. rewrite (strip_app_space x w H).
  reflexivity.
Qed.

(** White space after the text does not change the scan number read. *)
Lemma scan_expr_app_space (r w : string) :
  all_space w = true -> scan_expr (r ++ w) = scan_expr r.
Proof.
  intros H. unfold scan_expr.
  rewrite (split_app_space "s" "can=" w eq_refl H).
  pose proof (nth_error_app_last w (split "scan=" r) 1) as N.
  unfold index at 1 4.
  destruct (nth_error (split "scan=" r) 1) as [a|].
  - destruct N as [N|N]; rewrite N; cbn [bind];
      [reflexivity|apply scan_tail_app_space; exact H].
  - rewrite N. reflexivity.
Qed.

Lemma scan_expr_rstrip (s : string) : scan_expr (rstrip s) = scan_expr s.
Proof.
  destruct (rstrip_decomp s) as (w & Hw & E).
  rewrite E at 2. symmetry. apply scan_expr_app_space. exact Hw.
Qed.

Lemma contains_rstrip (s : string) :
  contains "scan=" (rstrip s) = contains "scan=" s.
Proof.
  destruct (rstrip_decomp s) as (w & Hw & E).
  rewrite E at 2. symmetry.
  apply (contains_app_space "s" "can=" w eq_refl Hw).
Qed.

Lemma split_from_other_char (c : ascii) (s : string) :
  Ascii.eqb "s" c = false ->
  split_from "scan=" 0 (String c s)
  = match split_from "scan=" 0 s with
    | p :: ps => String c p :: ps
    | [] => [String c EmptyString]
    end.
Proof. intros H. cbn [split_from startswith]. rewrite H. reflexivity. Qed.

Lemma contains_other_char (c : ascii) (s : string) :
  Ascii.eqb "s" c = false ->
  contains "scan=" (String c s) = contains "scan=" s.
Proof. intros H. cbn [contains startswith]. rewrite H. reflexivity. Qed.

(** The field name before the title holds no marker and ends no piece. *)
Lemma scan_expr_title_prefix (r : string) :
  scan_expr ("TITLE=" ++ r) = scan_expr r.
Proof.
  unfold scan_expr, split. cbn [append].
  rewrite !split_from_other_char by reflexivity.
  destruct (split_from "scan=" 0 r) as [|p ps] eqn:F.
  - exfalso. exact (split_from_nonempty _ _ _ F).
  - reflexivity.
Qed.

Lemma contains_title_prefix (r : string) :
  contains "scan=" ("TITLE=" ++ r) = contains "scan=" r.
Proof.
  cbn [append]. rewrite !contains_other_char by reflexivity. reflexivity.
Qed.

Lemma strip_title (title : string) :
  strip ("TITLE=" ++ title) = "TITLE=" ++ rstrip title.
Proof.
  unfold strip. cbn [append]. change (lstrip (String "T" ?x)) with (String "T" x).
  rewrite !rstrip_cons_nonspace by reflexivity. reflexivity.
Qed.

End ScanKeyLemmas.

(** ** The target table *)

Section TableLemmas.

Import PyDict.

Local Open Scope string_scope.

Lemma substring_full (s : string) : substring 0 (String.length s) s = s.
Proof.
  induction s as [|c s IH]; cbn [String.length substring];
    [reflexivity|rewrite IH; reflexivity].
Qed.

Lemma decode_bom (bytes : string) :
  Csv.decode_utf8_sig (Csv.bom ++ bytes) = bytes.
Proof.
  unfold Csv.decode_utf8_sig, Csv.bom. cbn [append].
  replace (startswith _ _) with true
    by (cbn [startswith]; rewrite !Ascii.eqb_refl; reflexivity).
  cbn [String.length Nat.sub substring]. rewrite Nat.sub_0_r.
  apply substring_full.
Qed.

Lemma decode_clean (bytes : string) :
  startswith Csv.bom bytes = false -> Csv.decode_utf8_sig bytes = bytes.
Proof. unfold Csv.decode_utf8_sig. intros H. rewrite H. reflexivity. Qed.

Lemma is_blank_is_space (c : ascii) : is_blank c = true -> is_space c = true.
Proof.
  unfold is_blank, is_space. intros H.
  apply orb_true_iff in H. apply orb_true_iff.
  destruct H as [H|H]; [left; exact H|right].
  apply Nat.eqb_eq in H. rewrite H. reflexivity.
Qed.

Lemma all_blank_all_space (w : string) : all_blank w = true -> all_space w = true.
Proof.
  unfold all_blank, all_space. induction w as [|c w IH]; cbn [all_chars];
    [reflexivity|].
  intros H. apply andb_true_iff in H. destruct H as [Hc Hw].
  rewrite (is_blank_is_space c Hc), (IH Hw). reflexivity.
Qed.

Lemma skip_blank_right_all (w : string) :
  all_blank w = true -> skip_blank_right w = EmptyString.
Proof.
  unfold all_blank. induction w as [|c w IH]; cbn [all_chars skip_blank_right];
    [reflexivity|].
  intros H. apply andb_true_iff in H. destruct H as [Hc Hw].
  rewrite (IH Hw), Hc. reflexivity.
Qed.

Lemma skip_blank_right_app (s w : string) :
  all_blank w = true -> skip_blank_right (s ++ w) = skip_blank_right s.
Proof.
  intros H. induction s as [|c s IH]; cbn [append skip_blank_right].
  - apply skip_blank_right_all. exact H.
  - rewrite IH. reflexivity.
Qed.

Lemma skip_blank_left_all (w : string) :
  all_blank w = true -> skip_blank_left w = EmptyString.
Proof.
  unfold all_blank. induction w as [|c w IH]; cbn [all_chars skip_blank_left];
    [reflexivity|].
  intros H. apply andb_true_iff in H. destruct H as [Hc Hw].
  rewrite Hc. exact (IH Hw).
Qed.

Lemma skip_blank_left_app (w s : string) :
  all_blank w = true -> skip_blank_left (w ++ s) = skip_blank_left s.
Proof.
  unfold all_blank. induction w as [|c w IH];
    cbn [all_chars append skip_blank_left]; [reflexivity|].
  intros H. apply andb_true_iff in H. destruct H as [Hc Hw].
  rewrite Hc. exact (IH Hw).
Qed.

Lemma skip_blank_app (s w : string) :
  all_blank w = true -> skip_blank (s ++ w) = skip_blank s.
Proof.
  intros H. unfold skip_blank. induction s as [|c s IH];
    cbn [append skip_blank_left].
  - rewrite (skip_blank_left_all w H). reflexivity.
  - destruct (is_blank c); [exact IH|].
    change (String c (s ++ w)) with (String c s ++ w).
    apply skip_blank_right_app. exact H.
Qed.

(** White space around a text changes neither what [float] reads nor what
    [strip] leaves. *)
Lemma skip_blank_surround (lead s trail : string) :
  all_blank lead = true -> all_blank trail = true ->
  skip_blank (lead ++ s ++ trail) = skip_blank s.
Proof.
  intros Hl Ht. unfold skip_blank. rewrite (skip_blank_left_app lead _ Hl).
  apply (skip_blank_app s trail Ht).
Qed.

Lemma padded_same_text (p c : string) : padded p c -> same_text p c.
Proof.
  intros (lead & trail & Hl & Ht & ->). split.
  - apply strip_surround; apply all_blank_all_space; assumption.
  - apply skip_blank_surround; assumption.
Qed.

Lemma py_float_same_text (p c : string) :
  same_text p c -> py_float p = py_float c.
Proof. intros [_ H]. unfold py_float. rewrite H. reflexivity. Qed.

(** [float(s.strip())] reads what [float(s)] would after [strip]. *)
Lemma py_float_strip_same_text (p c : string) :
  same_text p c -> py_float (strip p) = py_float (strip c).
Proof. intros [H _]. rewrite H. reflexivity. Qed.

Lemma same_dict_set (d' d : dict (option string)) (k : string)
  (a b : option string) :
  same_dict d' d -> same_cell a b ->
  same_dict (set d' k a) (set d k b).
Proof.
  intros H C k0. rewrite !get_set.
  destruct (String.eqb k k0); [exact C|exact (H k0)].
Qed.

Lemma same_dict_row (fieldnames : list string) :
  forall (row' row : list string) (d' d : dict (option string)),
    Forall2 same_text row' row ->
    same_dict d' d ->
    same_dict (Csv.dict_row fieldnames row' d') (Csv.dict_row fieldnames row d).
Proof.
  induction fieldnames as [|k ks IH]; intros row' row d' d F H;
    cbn [Csv.dict_row]; [exact H|].
  destruct F as [|p c row' row Hpc F].
  - apply IH; [constructor|]. apply same_dict_set; [exact H|exact I].
  - apply IH; [exact F|]. apply same_dict_set; [exact H|exact Hpc].
Qed.

Lemma float_cell_same (a b : option string) :
  same_cell a b -> float_cell a = float_cell b.
Proof.
  destruct a as [p|], b as [c|]; cbn [same_cell]; try contradiction;
    [|reflexivity].
  intros H. unfold float_cell. rewrite (py_float_same_text p c H). reflexivity.
Qed.

Lemma strip_cell_same (a b : option string) :
  same_cell a b -> strip_cell a = strip_cell b.
Proof.
  destruct a as [p|], b as [c|]; cbn [same_cell]; try contradiction;
    [|reflexivity].
  intros [H _]. unfold strip_cell. rewrite H. reflexivity.
Qed.

Lemma item_same (d' d : dict (option string)) (k : string) :
  same_dict d' d ->
  match item d' k, item d k with
  | Ok a, Ok b => same_cell a b
  | Raise x, Raise y => x = y
  | _, _ => False
  end.
Proof.
  intros H. specialize (H k). unfold item.
  destruct (get d' k), (get d k); try contradiction; [exact H|reflexivity].
Qed.

(** Rows equal up to white space around their cells load alike, in both
    scripts. *)
Lemma target_of_row_same (d' d : dict (option string)) :
  same_dict d' d ->
  ProcessMgfMzid.target_of_row d' = ProcessMgfMzid.target_of_row d
  /\ ProcessMgf.target_of_row d' = ProcessMgf.target_of_row d.
Proof.
  intros H.
  pose proof (item_same d' d "m/z" H) as H1.
  pose proof (item_same d' d "tolerance" H) as H2.
  pose proof (item_same d' d "tolerance_type" H) as H3.
  unfold ProcessMgfMzid.target_of_row, ProcessMgf.target_of_row.
  destruct (item d' "m/z") as [a1|x1], (item d "m/z") as [b1|y1];
    try contradiction; [|subst; split; reflexivity].
  destruct (item d' "tolerance") as [a2|x2], (item d "tolerance") as [b2|y2];
    try contradiction.
  - destruct (item d' "tolerance_type") as [a3|x3],
             (item d "tolerance_type") as [b3|y3]; try contradiction.
    + cbn [bind]. rewrite (float_cell_same a1 b1 H1), (float_cell_same a2 b2 H2),
        (strip_cell_same a1 b1 H1), (strip_cell_same a2 b2 H2),
        (strip_cell_same a3 b3 H3). split; reflexivity.
    + subst. cbn [bind].
      rewrite (float_cell_same a1 b1 H1), (float_cell_same a2 b2 H2),
        (strip_cell_same a1 b1 H1), (strip_cell_same a2 b2 H2).
      split; reflexivity.
  - subst. cbn [bind].
    rewrite (float_cell_same a1 b1 H1), (strip_cell_same a1 b1 H1).
    split; reflexivity.
Qed.

End TableLemmas.

(** ** The columns of the exported table *)

Lemma nth_error_target_column (targets : list target) (i : nat) (t : target) :
  nth_error targets i = Some t ->
  nth_error (ProcessMgfMzid.final_fieldnames targets) (5 + i)
  = Some (py_str (mz t)).
Proof.
  intros H. unfold ProcessMgfMzid.final_fieldnames.
  rewrite nth_error_app2 by (cbn; lia).
  replace (5 + i - List.length ProcessMgfMzid.base_fieldnames)%nat with i
    by (cbn; lia).
  rewrite nth_error_app1.
  - rewrite nth_error_map, H. reflexivity.
  - rewrite length_map. apply nth_error_Some. rewrite H. discriminate.
Qed.

(** ** process_mgf.py at the end marker *)

Lemma process_mgf_step_end (targets : list target) (st : ProcessMgf.state)
  (raw : string) :
  is_end raw = true ->
  ProcessMgf.inside_ion_block st = true ->
  exists st',
    ProcessMgf.step targets st raw = Ok st'
    /\ ProcessMgf.inside_ion_block st' = false
    /\ (key_present (ProcessMgf.scan_number st)
        && mz_present (ProcessMgf.precursor_mz st) = true ->
        exists r, ProcessMgf.precursor_data st'
                  = ProcessMgf.precursor_data st ++ [r])
    /\ (key_present (ProcessMgf.scan_number st)
        && mz_present (ProcessMgf.precursor_mz st) = false ->
        ProcessMgf.precursor_data st' = ProcessMgf.precursor_data st).
Proof.
  intros E I. unfold ProcessMgf.step, is_end in *. apply String.eqb_eq in E.
  rewrite E, I.
  replace (String.eqb "END IONS" "BEGIN IONS") with false by reflexivity.
  replace (startswith "TITLE=" "END IONS") with false by reflexivity.
  replace (startswith "RTINSECONDS=" "END IONS") with false by reflexivity.
  replace (startswith "PEPMASS=" "END IONS") with false by reflexivity.
  replace (String.eqb "END IONS" "END IONS") with true by reflexivity.
  eexists. split; [reflexivity|]. cbn.
  split; [reflexivity|].
  destruct (ProcessMgf.scan_number st) as [k|]; cbn;
    [destruct (truthy k); cbn;
     [destruct (ProcessMgf.precursor_mz st); cbn|]|].
  - split; [intros _; eexists; reflexivity|discriminate].
  - split; [discriminate|intros _; apply app_nil_r].
  - split; [discriminate|intros _].
    destruct (ProcessMgf.precursor_mz st); apply app_nil_r.
  - split; [discriminate|intros _; apply app_nil_r].
Qed.

(** ** The scenarios of the specification *)

Example end_to_end_no_targets :
  ProcessMgfMzid.main (sample_block ++ [sample_end]) None []
  = Ok (Some [["scan_number"; "RT"; "pepmass"; "intensity";
               "summed_ms2_intensity"; "pass_threshold"];
              ["5"; "120.5"; "500.25"; "1000.0"; "125.0"; "no"]]).
Proof. vm_compute. reflexivity. Qed.

Example end_to_end_one_target :
  ProcessMgfMzid.main (sample_block ++ [sample_end]) (Some clean_table)
    [title_result "run.raw scan=5"]
  = Ok (Some [["scan_number"; "RT"; "pepmass"; "intensity";
               "summed_ms2_intensity"; "100.0"; "pass_threshold"];
              ["5"; "120.5"; "500.25"; "1000.0"; "125.0"; "yes"; "no"]]).
Proof. vm_compute. reflexivity. Qed.

(** ** The fields of a block, from its lines *)

Lemma fold_add_float (xs : list float) (f : float) :
  fold_left add_float xs (VFloat f) = VFloat (fold_left PrimFloat.add xs f).
Proof.
  revert f. induction xs as [|x xs IH]; intros f; cbn [fold_left add_float];
    [reflexivity|apply IH].
Qed.

(** The running sum of the parser is the float sum of Python. *)
Lemma sum_from_float_sum (xs : list float) :
  sum_from (VInt 0) xs = float_sum xs.
Proof.
  unfold sum_from, float_sum. destruct xs as [|x xs]; [reflexivity|].
  cbn [fold_left add_float]. rewrite fold_add_float. reflexivity.
Qed.

Section BlockFields.

Import ProcessMgfMzid.

Variable targets : list target.









End BlockFields.

(** ** Tables equal up to white space around their cells *)

Section PaddedTables.

Import PyDict.

Lemma Forall2_padded_same_text (row' row : list string) :
  Forall2 padded row' row -> Forall2 same_text row' row.
Proof.
  induction 1 as [|p c r' r H _ IH]; constructor;
    [apply padded_same_text; exact H|exact IH].
Qed.

Lemma same_dict_nil : same_dict [] [].
Proof. intros k. exact I. Qed.

(** The rows of two tables with the same header, the cells of the one
    being those of the other with white space around them, load alike in
    both scripts. *)
Lemma targets_of_rows_padded (names : list string)
  (rows' rows : list (list string)) :
  Forall2 (Forall2 padded) rows' rows ->
  let keep := filter (fun r : list string =>
                        match r with [] => false | _ => true end) in
  ProcessMgfMzid.targets_of_rows
    (map (fun r => Csv.dict_row names r []) (keep rows'))
  = ProcessMgfMzid.targets_of_rows
      (map (fun r => Csv.dict_row names r []) (keep rows))
  /\ ProcessMgf.targets_of_rows
       (map (fun r => Csv.dict_row names r []) (keep rows'))
     = ProcessMgf.targets_of_rows
         (map (fun r => Csv.dict_row names r []) (keep rows)).
Proof.
  intros F. cbn zeta.
  induction F as [|r' r rows' rows H _ [IH1 IH2]]; [split; reflexivity|].
  destruct H as [|p c r' r Hpc H]; cbn [filter]; [split; assumption|].
  cbn [map ProcessMgfMzid.targets_of_rows ProcessMgf.targets_of_rows].
  destruct (target_of_row_same
              (Csv.dict_row names (p :: r') [])
              (Csv.dict_row names (c :: r) [])) as [T1 T2].
  { apply same_dict_row; [|exact same_dict_nil].
    apply Forall2_padded_same_text. constructor; assumption. }
  rewrite T1, T2, IH1, IH2. split; reflexivity.
Qed.

(** The same, for the two loaders on the bytes of the two files. *)
Lemma parse_mass_targets_padded (bytes' bytes : string)
  (names : list string) (rows' rows : list (list string)) :
  Csv.reader (Csv.decode_utf8_sig bytes) = names :: rows ->
  Csv.reader (Csv.decode_utf8_sig bytes') = names :: rows' ->
  Forall2 (Forall2 padded) rows' rows ->
  ProcessMgfMzid.parse_mass_targets bytes'
  = ProcessMgfMzid.parse_mass_targets bytes
  /\ ProcessMgf.parse_mass_targets bytes'
     = ProcessMgf.parse_mass_targets bytes.
Proof.
  intros R R' F.
  destruct (targets_of_rows_padded names rows' rows F) as [T1 T2].
  unfold ProcessMgfMzid.parse_mass_targets, ProcessMgf.parse_mass_targets,
    Csv.DictReader.
  rewrite R, R'. cbn [snd]. rewrite T1, T2. split; reflexivity.
Qed.

End PaddedTables.

(** ** The claims *)




(** C3, as the code has it.  The tolerance matcher is a total function:
    it answers whether [|value - target|] is at most the window, the
    window being, for the mode ["ppm"], the tolerance divided by 1e6 and the
    quotient then multiplied by the target, each step rounded to binary64,
    and [tolerance] for every other mode; the three sample calls of the
    specification give true, false and true.  Both scripts have the same
    matcher, and the loader lowers the case of the mode, so that [PPM] in
    the table is the mode ["ppm"]. *)
Theorem tolerance_matcher (value target tolerance : float) (mode : string) :
  ProcessMgfMzid.is_within_tolerance value target tolerance mode
  = (abs (value - target)
     <=? (if String.eqb mode "ppm"
          then tolerance / 1000000 * target
          else tolerance))%float
  /\ ProcessMgfMzid.is_within_tolerance
       (float_lit "100.0") (float_lit "100.0") (float_lit "10") "ppm" = true
  /\ ProcessMgfMzid.is_within_tolerance
       (float_lit "100.0011") (float_lit "100.0") (float_lit "10") "ppm" = false
  /\ ProcessMgfMzid.is_within_tolerance
       (float_lit "100.005") (float_lit "100.0") (float_lit "0.01") "absolute"
     = true
  /\ ProcessMgf.is_within_tolerance value target tolerance mode
     = ProcessMgfMzid.is_within_tolerance value target tolerance mode
  /\ ProcessMgfMzid.target_of_row
       (Csv.dict_row ProcessMgfMzid.required_headers ["100.0"; "10"; "PPM"] [])
     = Ok sample_target.
Proof.
  split; [reflexivity|].
  repeat split; vm_compute; reflexivity.
Qed.

(** C3, as stated, fails on the window: with the product taken first,
    [tolerance * target / 1e6], the value 1899.8508006985 is outside the
    window of 5 ppm around 1899.8603, and both scripts answer that it is
    within. *)
Lemma ppm_window_order_matters :
  (abs (float_lit "1899.8508006985" - float_lit "1899.8603")
   <=? float_lit "5" * float_lit "1899.8603" / 1000000)%float = false
  /\ ProcessMgfMzid.is_within_tolerance
       (float_lit "1899.8508006985") (float_lit "1899.8603") (float_lit "5")
       "ppm" = true
  /\ ProcessMgf.is_within_tolerance
       (float_lit "1899.8508006985") (float_lit "1899.8603") (float_lit "5")
       "ppm" = true.
Proof. repeat split; vm_compute; reflexivity. Qed.

(** C5. A block whose begin marker is read but whose end marker never
    comes adds no record: the parser returns what it returned for the
    lines before the block, unless the run ends on an error, in which
    case nothing is returned at all. *)
Theorem truncated_block_not_emitted (targets : list target)
  (pre : list string) (b : string) (body : list string) :
  is_begin b = true ->
  Forall (fun raw => is_end raw = false) body ->
  ProcessMgfMzid.parse_mgf (pre ++ b :: body) targets
  = ProcessMgfMzid.parse_mgf pre targets
  \/ ProcessMgfMzid.parse_mgf (pre ++ b :: body) targets = Raise SystemExit.
Proof.
  intros B H. unfold ProcessMgfMzid.parse_mgf. rewrite run_app.
  destruct (ProcessMgfMzid.run targets ProcessMgfMzid.initial pre) as [st|e];
    cbn [bind]; [|right; reflexivity].
  destruct (ProcessMgfMzid.run targets st (b :: body)) as [st'|e] eqn:R;
    [left|right; reflexivity].
  f_equal. apply (run_keeps_data targets (b :: body)); [|exact R].
  constructor; [apply is_begin_not_end; exact B|exact H].
Qed.

Lemma truncated_block_not_emitted_witness :
  ProcessMgfMzid.parse_mgf
    ((sample_block ++ [sample_end]) ++ "BEGIN IONS" :: sample_truncated) []
  = ProcessMgfMzid.parse_mgf (sample_block ++ [sample_end]) []
  \/ ProcessMgfMzid.parse_mgf
       ((sample_block ++ [sample_end]) ++ "BEGIN IONS" :: sample_truncated) []
     = Raise SystemExit.
Proof.
  apply (truncated_block_not_emitted [] (sample_block ++ [sample_end])
           "BEGIN IONS" sample_truncated).
  - reflexivity.
  - repeat constructor.
Defined.

(** C10, as the code has it.  A precursor line whose first field is a
    number and whose second field is there but is no number leaves the
    precursor m/z absent and the precursor intensity 0.0; unless a later
    precursor line of the block sets the m/z again, the block adds no
    record at its end marker. *)
Theorem bad_second_pepmass_field_drops_block (targets : list target)
  (st : ProcessMgfMzid.state) (raw v0 v1 : string) (rest : list string)
  (x : float) (more : list string) (e : string) :
  ProcessMgfMzid.inside_ion_block st = true ->
  is_pepmass raw = true ->
  ProcessMgfMzid.pepmass_fields (strip raw) = Ok (v0 :: v1 :: rest) ->
  py_float v0 = Some x ->
  py_float v1 = None ->
  Forall (fun l => is_pepmass l = false) more ->
  is_end e = true ->
  exists st1 st2,
    ProcessMgfMzid.step targets st raw = Ok st1
    /\ ProcessMgfMzid.precursor_mz st1 = None
    /\ ProcessMgfMzid.intensity st1 = Some 0%float
    /\ ProcessMgfMzid.run targets st1 (more ++ [e]) = Ok st2
    /\ ProcessMgfMzid.precursor_data st2 = ProcessMgfMzid.precursor_data st.
Proof.
  intros I P F V0 V1 M E.
  rewrite (step_pepmass targets st raw P I).
  unfold ProcessMgfMzid.on_pepmass. rewrite F. cbn [bind index nth_error].
  unfold float_str. rewrite V0. cbn [bind List.length Nat.ltb Nat.leb].
  rewrite V1. cbn [bind try_except pyexn_eqb fst snd].
  destruct (run_no_pepmass targets (more ++ [e])) with
    (st := ProcessMgfMzid.set_pepmass st None (Some 0%float))
    as (st2 & R & _ & D).
  - apply Forall_app. split; [exact M|].
    constructor; [apply is_end_not_pepmass; exact E|constructor].
  - reflexivity.
  - eexists. exists st2. repeat split; [exact R|exact D].
Qed.

Lemma bad_second_pepmass_field_drops_block_witness :
  exists st1 st2,
    ProcessMgfMzid.step [] (state_after [] sample_block) sample_bad_intensity
    = Ok st1
    /\ ProcessMgfMzid.precursor_mz st1 = None
    /\ ProcessMgfMzid.intensity st1 = Some 0%float
    /\ ProcessMgfMzid.run [] st1 (["300.0 20"] ++ [sample_end]) = Ok st2
    /\ ProcessMgfMzid.precursor_data st2
       = ProcessMgfMzid.precursor_data (state_after [] sample_block).
Proof.
  apply (bad_second_pepmass_field_drops_block [] (state_after [] sample_block)
           sample_bad_intensity "500.25" "n/a" [] (float_lit "500.25")
           ["300.0 20"] sample_end).
  - vm_compute. reflexivity.
  - reflexivity.
  - reflexivity.
  - vm_compute. reflexivity.
  - reflexivity.
  - repeat constructor.
  - reflexivity.
Defined.

(** C10, as stated, fails when a second precursor line follows in the
    block: after the line with the bad second field the m/z is absent, the
    next precursor line sets it, and the block adds its record. *)
Lemma later_pepmass_line_revives_block :
  ProcessMgfMzid.precursor_mz
    (state_after [] ["BEGIN IONS"; "TITLE=run.raw scan=5";
                     sample_bad_intensity])
  = None
  /\ ProcessMgfMzid.parse_mgf sample_two_pepmass_block []
     = Ok [[("scan_number", VStr "5");
            ("RT", VNone);
            ("pepmass", VFloat (float_lit "400.5"));
            ("intensity", VFloat (float_lit "10"));
            ("summed_ms2_intensity", VInt 0)]].
Proof. split; vm_compute; reflexivity. Qed.

(** C2. The record a block adds carries, as its summed fragment
    intensity, the sum of the intensities of exactly the lines of the
    block that read as two white-space separated floats, added in binary64
    from the left as Python adds them, [0 + i1 + i2 + ...] (the integer 0
    when no line reads so); and no line other than a precursor line can
    end the run, so a line that does not read as two floats is passed
    over. *)
Theorem summed_intensity_of_block (targets : list target)
  (pre : list string) (b : string) (body : list string) (e : string)
  (st0 st' : ProcessMgfMzid.state) (r : PyDict.dict pyval) :
  ProcessMgfMzid.run targets ProcessMgfMzid.initial pre = Ok st0 ->
  is_begin b = true ->
  block_body body ->
  is_end e = true ->
  ProcessMgfMzid.run targets ProcessMgfMzid.initial (pre ++ b :: body ++ [e])
  = Ok st' ->
  ProcessMgfMzid.precursor_data st' = ProcessMgfMzid.precursor_data st0 ++ [r] ->
  PyDict.get r "summed_ms2_intensity"
  = Some (match map snd (ion_pairs body) with
          | [] => VInt 0
          | i :: rest => VFloat (fold_left PrimFloat.add rest (0 + i)%float)
          end)
  /\ forall (st : ProcessMgfMzid.state) (raw : string),
       is_pepmass raw = false ->
       exists st1, ProcessMgfMzid.step targets st raw = Ok st1.
Proof.
  intros R0 B Hbody E R D. split.
  - destruct (run_block targets pre b body e st0 st' R0 B Hbody E R)
      as (st & O & _ & S & D0).
    rewrite <- D0 in D.
    destruct (on_end_record targets st st' r O D) as (scan & pepmass & _ & _ & _ & ->).
    rewrite get_record_base by reflexivity.
    cbn [PyDict.get String.eqb Ascii.eqb Bool.eqb].
    rewrite S, sum_from_float_sum. unfold float_sum.
    destruct (map snd (ion_pairs body)); reflexivity.
  - intros st raw P. exact (step_total targets st raw P).
Qed.

Lemma summed_intensity_of_block_witness :
  PyDict.get (first_record [] (sample_block ++ ["noise"; "1 2 3"; sample_end]))
             "summed_ms2_intensity"
  = Some (VFloat (float_lit "125.0"))
  /\ map snd (ion_pairs (sample_body ++ ["noise"; "1 2 3"]))
     = [float_lit "50"; float_lit "75"]
  /\ forall (st : ProcessMgfMzid.state) (raw : string),
       is_pepmass raw = false ->
       exists st1, ProcessMgfMzid.step [] st raw = Ok st1.
Proof.
  destruct (summed_intensity_of_block [] [] "BEGIN IONS"
              (sample_body ++ ["noise"; "1 2 3"]) sample_end
              ProcessMgfMzid.initial
              (state_after [] (sample_block ++ ["noise"; "1 2 3"; sample_end]))
              (first_record [] (sample_block ++ ["noise"; "1 2 3"; sample_end])))
    as [H1 H2];
    [reflexivity|reflexivity|repeat constructor|reflexivity
    |vm_compute; reflexivity|vm_compute; reflexivity|].
  split; [rewrite H1; vm_compute; reflexivity|].
  split; [vm_compute; reflexivity|exact H2].
Defined.

(** C4. A target hit is sticky within a block: when some fragment line
    of the block lies within the tolerance of a target, the record the
    block adds has "yes" in the column of that target, whatever the other
    lines of the block are. *)
Theorem target_hit_is_sticky (targets : list target)
  (pre : list string) (b : string) (body : list string) (e : string)
  (st0 st' : ProcessMgfMzid.state) (r : PyDict.dict pyval)
  (t : target) (raw : string) (m i : float) :
  ProcessMgfMzid.run targets ProcessMgfMzid.initial pre = Ok st0 ->
  is_begin b = true ->
  block_body body ->
  is_end e = true ->
  ProcessMgfMzid.run targets ProcessMgfMzid.initial (pre ++ b :: body ++ [e])
  = Ok st' ->
  ProcessMgfMzid.precursor_data st' = ProcessMgfMzid.precursor_data st0 ++ [r] ->
  In t targets ->
  In raw body ->
  ion_pair raw = Some (m, i) ->
  ProcessMgfMzid.is_within_tolerance m (mz t) (tolerance t) (tolerance_type t)
  = true ->
  PyDict.get r (py_str (mz t)) = Some (VStr "yes").
Proof.
  intros R0 B Hbody E R D Ht Hraw P W.
  destruct (run_block targets pre b body e st0 st' R0 B Hbody E R)
    as (st & O & M & _ & D0).
  rewrite <- D0 in D.
  destruct (on_end_record targets st st' r O D) as (scan & pepmass & _ & _ & _ & ->).
  assert (is_target_text targets (py_str (mz t)) = true) as T.
  { apply existsb_exists. exists t. split; [exact Ht|apply String.eqb_refl]. }
  rewrite (get_record_target targets st scan pepmass _ T).
  assert (matched targets (ProcessMgfMzid.mz_values st) (py_str (mz t)) = true)
    as Y.
  { apply existsb_exists. exists (m, i). split.
    - rewrite M. exact (In_ion_pairs body raw (m, i) Hraw P).
    - apply existsb_exists. exists t. split; [exact Ht|].
      cbn [fst]. rewrite String.eqb_refl, W. reflexivity. }
  rewrite Y. reflexivity.
Qed.

Lemma target_hit_is_sticky_witness :
  PyDict.get (first_record [sample_target] (sample_block ++ [sample_end]))
             (py_str (mz sample_target))
  = Some (VStr "yes").
Proof.
  apply (target_hit_is_sticky [sample_target] [] "BEGIN IONS" sample_body
           sample_end ProcessMgfMzid.initial
           (state_after [sample_target] (sample_block ++ [sample_end]))
           (first_record [sample_target] (sample_block ++ [sample_end]))
           sample_target "100.0 50" (float_lit "100.0") (float_lit "50")).
  - reflexivity.
  - reflexivity.
  - repeat constructor.
  - reflexivity.
  - vm_compute. reflexivity.
  - vm_compute. reflexivity.
  - left. reflexivity.
  - unfold sample_body, sample_block. cbn [tl In]. tauto.
  - vm_compute. reflexivity.
  - vm_compute. reflexivity.
Defined.

(** C6. For every title, the spectrum parser reading the line
    [TITLE=<title>] in a fresh block and the identification parser reading
    the spectrum title [<title>] get the same scan key: both have none
    when the title lacks the marker, and both have the same text when it
    holds it. *)
Theorem same_scan_key (targets : list target) (st : ProcessMgfMzid.state)
  (title : string) :
  ProcessMgfMzid.inside_ion_block st = true ->
  ProcessMgfMzid.scan_number st = None ->
  exists st',
    ProcessMgfMzid.step targets st ("TITLE=" ++ title)%string = Ok st'
    /\ ProcessMgfMzid.sir_scan_number (title_result title)
       = Ok (ProcessMgfMzid.scan_number st').
Proof.
  intros I N. unfold ProcessMgfMzid.step. rewrite strip_title, I.
  replace (String.eqb ("TITLE=" ++ rstrip title) "BEGIN IONS") with false
    by reflexivity.
  replace (startswith "TITLE=" ("TITLE=" ++ rstrip title)) with true
    by reflexivity.
  unfold ProcessMgfMzid.on_title, ProcessMgfMzid.sir_scan_number.
  rewrite contains_title_prefix, contains_rstrip.
  rewrite scan_expr_title_prefix, scan_expr_rstrip.
  cbn [title_result ProcessMgfMzid.find_spectrum_title
       ProcessMgfMzid.cv_params ProcessMgfMzid.cv_name
       ProcessMgfMzid.cv_value find].
  replace (String.eqb "spectrum title" "spectrum title") with true
    by reflexivity.
  cbn [ProcessMgfMzid.cv_value].
  change (ProcessMgfMzid.value_scan_expr title)
    with (ProcessMgfMzid.scan_expr title).
  destruct (contains "scan=" title) eqn:C.
  - destruct (scan_expr_total title C) as (s & E). rewrite E. cbn.
    eexists. split; reflexivity.
  - exists st. rewrite N. split; reflexivity.
Qed.

Lemma same_scan_key_witness :
  exists st',
    ProcessMgfMzid.step [] (state_after [] ["BEGIN IONS"])
      ("TITLE=" ++ "run.raw scan=5 ")%string = Ok st'
    /\ ProcessMgfMzid.sir_scan_number (title_result "run.raw scan=5 ")
       = Ok (ProcessMgfMzid.scan_number st').
Proof.
  apply (same_scan_key [] (state_after [] ["BEGIN IONS"]) "run.raw scan=5 ").
  - reflexivity.
  - reflexivity.
Defined.

(** C7. On the title line [TITLE=scan=], where the marker is followed by
    no key, the scan number expression raises nothing, so the handler that
    would set the fallback key is never entered: the scan key is the empty
    text, and the block, precursor mass and all, adds no record. *)
Theorem marker_without_key_is_dropped :
  ProcessMgfMzid.scan_expr "TITLE=scan=" = Ok EmptyString
  /\ ProcessMgfMzid.scan_number (state_after [] ["BEGIN IONS"; "TITLE=scan="])
     = Some EmptyString
  /\ ProcessMgfMzid.parse_mgf sample_no_key_block [] = Ok [].
Proof. repeat split; vm_compute; reflexivity. Qed.

(** C8, as the code has it.  In both scripts the loader drops a
    byte-order mark at the start of the file, and white space (spaces,
    tabs, line breaks, vertical tabs, form feeds) around the text of the
    cells changes nothing: a table with the same header whose cells are
    those of another with such white space around them loads as the other
    does.  Header names are compared as they stand: a table whose header
    lacks one of the three names, to the letter, ends the run of
    process_mgf_mzid.py. *)
Theorem loader_strips_bom_and_cell_space (bytes padded_bytes bad_bytes : string)
  (names bad_names : list string) (rows rows' bad_rows : list (list string)) :
  startswith Csv.bom bytes = false ->
  Csv.reader (Csv.decode_utf8_sig bytes) = names :: rows ->
  Csv.reader (Csv.decode_utf8_sig padded_bytes) = names :: rows' ->
  Forall2 (Forall2 padded) rows' rows ->
  Csv.reader (Csv.decode_utf8_sig bad_bytes) = bad_names :: bad_rows ->
  forallb (fun header => existsb (String.eqb header) bad_names)
          ProcessMgfMzid.required_headers = false ->
  (ProcessMgfMzid.parse_mass_targets (Csv.bom ++ bytes)
   = ProcessMgfMzid.parse_mass_targets bytes
   /\ ProcessMgf.parse_mass_targets (Csv.bom ++ bytes)
      = ProcessMgf.parse_mass_targets bytes)
  /\ (ProcessMgfMzid.parse_mass_targets padded_bytes
      = ProcessMgfMzid.parse_mass_targets bytes
      /\ ProcessMgf.parse_mass_targets padded_bytes
         = ProcessMgf.parse_mass_targets bytes)
  /\ ProcessMgfMzid.parse_mass_targets bad_bytes = Raise SystemExit.
Proof.
  intros B R R' F Rb H. split; [|split].
  - unfold ProcessMgfMzid.parse_mass_targets, ProcessMgf.parse_mass_targets.
    rewrite decode_bom, (decode_clean bytes B). split; reflexivity.
  - exact (parse_mass_targets_padded padded_bytes bytes names rows' rows
             R R' F).
  - unfold ProcessMgfMzid.parse_mass_targets, Csv.DictReader.
    rewrite Rb, H. reflexivity.
Qed.

Lemma loader_strips_bom_and_cell_space_witness :
  (ProcessMgfMzid.parse_mass_targets (Csv.bom ++ clean_table)
   = Ok [sample_target]
   /\ ProcessMgf.parse_mass_targets (Csv.bom ++ clean_table)
      = Ok [sample_target])
  /\ (ProcessMgfMzid.parse_mass_targets padded_cells_table
      = Ok [sample_target]
      /\ ProcessMgf.parse_mass_targets padded_cells_table
         = Ok [sample_target])
  /\ ProcessMgfMzid.parse_mass_targets padded_header_table = Raise SystemExit.
Proof.
  destruct (loader_strips_bom_and_cell_space clean_table padded_cells_table
              padded_header_table
              ["m/z"; "tolerance"; "tolerance_type"]
              [" m/z "; "tolerance"; "tolerance_type"]
              [["100.0"; "10"; "ppm"]]
              [[" 100.0 ";
                String "1" (String "0" (String (ascii_of_nat 9) EmptyString));
                " ppm  "]]
              [["100.0"; "10"; "ppm"]])
    as ([H1 H2] & [H3 H4] & H5);
    [reflexivity|vm_compute; reflexivity|vm_compute; reflexivity|
    |vm_compute; reflexivity|reflexivity|].
  - constructor; [|constructor].
    constructor; [exists " ", " "; repeat split|].
    constructor;
      [exists EmptyString, (String (ascii_of_nat 9) EmptyString); repeat split|].
    constructor; [exists " ", "  "; repeat split|constructor].
  - split; [split; [rewrite H1|rewrite H2]; vm_compute; reflexivity|].
    split; [split; [rewrite H3|rewrite H4]; vm_compute; reflexivity|].
    exact H5.
Defined.

(** C8, as stated, fails on header names: the table loads, and the same
    table with white space around the name of its first column does not:
    one script ends the run, the other raises [KeyError]. *)
Lemma padded_header_is_not_loaded :
  ProcessMgfMzid.parse_mass_targets clean_table = Ok [sample_target]
  /\ ProcessMgfMzid.parse_mass_targets padded_header_table = Raise SystemExit
  /\ ProcessMgf.parse_mass_targets clean_table = Ok [sample_target]
  /\ ProcessMgf.parse_mass_targets padded_header_table = Raise KeyError
  /\ ProcessMgfMzid.parse_mass_targets padded_header_table
     <> ProcessMgfMzid.parse_mass_targets clean_table.
Proof.
  repeat split; try (vm_compute; reflexivity).
  vm_compute. discriminate.
Qed.

(** C9, as the code has it.  When two targets of the table, at the
    places [i] and [j], have the same text, the record holds one entry
    under that text, "yes" when some fragment lies within the tolerance of
    some target with that text and "no" otherwise; the exported table
    still has one column for each target: both columns are headed by the
    shared text and hold the same cell in every row. *)
Theorem twin_targets_share_one_entry (targets : list target)
  (values : list (float * float)) (i j : nat) (t1 t2 : target) :
  nth_error targets i = Some t1 ->
  nth_error targets j = Some t2 ->
  i <> j ->
  py_str (mz t1) = py_str (mz t2) ->
  NoDup (PyDict.keys (ProcessMgfMzid.target_hits targets values))
  /\ PyDict.get (ProcessMgfMzid.target_hits targets values) (py_str (mz t1))
     = Some (VStr (if matched targets values (py_str (mz t1))
                   then "yes" else "no"))
  /\ nth_error (ProcessMgfMzid.final_fieldnames targets) (5 + i)
     = Some (py_str (mz t1))
  /\ nth_error (ProcessMgfMzid.final_fieldnames targets) (5 + j)
     = Some (py_str (mz t1))
  /\ forall row,
       nth_error (ProcessMgfMzid.cleaned_row
                    (ProcessMgfMzid.final_fieldnames targets) row) (5 + i)
       = nth_error (ProcessMgfMzid.cleaned_row
                      (ProcessMgfMzid.final_fieldnames targets) row) (5 + j).
Proof.
  intros H1 H2 _ E.
  pose proof (nth_error_target_column targets i t1 H1) as C1.
  pose proof (nth_error_target_column targets j t2 H2) as C2.
  rewrite <- E in C2.
  split; [apply NoDup_target_hits|].
  split.
  - rewrite get_target_hits.
    assert (is_target_text targets (py_str (mz t1)) = true) as T.
    { apply existsb_exists. exists t1.
      split; [exact (nth_error_In _ _ H1)|apply String.eqb_refl]. }
    rewrite T. destruct (matched targets values (py_str (mz t1))); reflexivity.
  - split; [exact C1|]. split; [exact C2|].
    intros row. unfold ProcessMgfMzid.cleaned_row.
    rewrite !nth_error_map, C1, C2. reflexivity.
Qed.

Lemma twin_targets_share_one_entry_witness :
  NoDup (PyDict.keys (ProcessMgfMzid.target_hits twin_targets
                        [(float_lit "100.3", float_lit "50")]))
  /\ PyDict.get (ProcessMgfMzid.target_hits twin_targets
                   [(float_lit "100.3", float_lit "50")])
                (py_str (mz wide_target))
     = Some (VStr (if matched twin_targets
                        [(float_lit "100.3", float_lit "50")]
                        (py_str (mz wide_target))
                   then "yes" else "no"))
  /\ nth_error (ProcessMgfMzid.final_fieldnames twin_targets) (5 + 0)
     = Some (py_str (mz wide_target))
  /\ nth_error (ProcessMgfMzid.final_fieldnames twin_targets) (5 + 1)
     = Some (py_str (mz wide_target))
  /\ forall row,
       nth_error (ProcessMgfMzid.cleaned_row
                    (ProcessMgfMzid.final_fieldnames twin_targets) row) (5 + 0)
       = nth_error (ProcessMgfMzid.cleaned_row
                      (ProcessMgfMzid.final_fieldnames twin_targets) row)
                   (5 + 1).
Proof.
  apply (twin_targets_share_one_entry twin_targets
           [(float_lit "100.3", float_lit "50")] 0 1 wide_target sample_target).
  - reflexivity.
  - reflexivity.
  - discriminate.
  - vm_compute. reflexivity.
Defined.

(** C9, as stated, fails on the exported table: two targets with the
    text 100.0 give two columns headed 100.0, not one. *)
Lemma twin_targets_keep_two_columns :
  py_str (mz wide_target) = py_str (mz sample_target)
  /\ ProcessMgfMzid.final_fieldnames twin_targets
     = ["scan_number"; "RT"; "pepmass"; "intensity"; "summed_ms2_intensity";
        "100.0"; "100.0"; "pass_threshold"]
  /\ count_occ string_dec (ProcessMgfMzid.final_fieldnames twin_targets) "100.0"
     = 2%nat.
Proof. repeat split; vm_compute; reflexivity. Qed.

(** ** Further properties of the spectrum parsers *)

Section MgfLemmas.

Variable targets : list target.

Lemma mgf_run_app (st : ProcessMgf.state) (l1 l2 : list string) :
  ProcessMgf.run targets st (l1 ++ l2)
  = (st' <- ProcessMgf.run targets st l1 ;; ProcessMgf.run targets st' l2).
Proof.
  revert st. induction l1 as [|raw l1 IH]; intros st;
    cbn [app ProcessMgf.run bind]; [reflexivity|].
  destruct (ProcessMgf.step targets st raw) as [s1|e]; cbn [bind];
    [apply IH|reflexivity].
Qed.

Lemma step_outside (st : ProcessMgfMzid.state) (raw : string) :
  ProcessMgfMzid.inside_ion_block st = false ->
  is_begin raw = false ->
  ProcessMgfMzid.step targets st raw = Ok st.
Proof.
  unfold is_begin, ProcessMgfMzid.step. intros I B. rewrite B, I. reflexivity.
Qed.

Lemma mgf_step_outside (st : ProcessMgf.state) (raw : string) :
  ProcessMgf.inside_ion_block st = false ->
  is_begin raw = false ->
  ProcessMgf.step targets st raw = Ok st.
Proof.
  unfold is_begin, ProcessMgf.step. intros I B. rewrite B, I. reflexivity.
Qed.

Lemma run_outside (lines : list string) :
  Forall (fun raw => is_begin raw = false) lines ->
  forall st, ProcessMgfMzid.inside_ion_block st = false ->
             ProcessMgfMzid.run targets st lines = Ok st.
Proof.
  induction 1 as [|raw lines B _ IH]; intros st I; cbn [ProcessMgfMzid.run];
    [reflexivity|].
  rewrite (step_outside st raw I B). cbn [bind]. apply IH. exact I.
Qed.

Lemma mgf_run_outside (lines : list string) :
  Forall (fun raw => is_begin raw = false) lines ->
  forall st, ProcessMgf.inside_ion_block st = false ->
             ProcessMgf.run targets st lines = Ok st.
Proof.
  induction 1 as [|raw lines B _ IH]; intros st I; cbn [ProcessMgf.run];
    [reflexivity|].
  rewrite (mgf_step_outside st raw I B). cbn [bind]. apply IH. exact I.
Qed.

(** One line adds at most one record, and only an end marker adds one. *)
Lemma step_appends (st st' : ProcessMgfMzid.state) (raw : string) :
  ProcessMgfMzid.step targets st raw = Ok st' ->
  exists added,
    ProcessMgfMzid.precursor_data st' = ProcessMgfMzid.precursor_data st ++ added
    /\ (List.length added <= count_ends [raw])%nat.
Proof.
  intros H. destruct (is_end raw) eqn:E.
  - unfold count_ends. cbn [filter]. rewrite E. cbn [List.length].
    destruct (ProcessMgfMzid.inside_ion_block st) eqn:I.
    + rewrite (step_end targets st raw E I) in H.
      unfold ProcessMgfMzid.on_end in H. inv_result. cbn.
      eexists. split; [reflexivity|].
      destruct (ProcessMgfMzid.scan_number st) as [k|]; [|cbn; lia].
      destruct (ProcessMgfMzid.precursor_mz st); [|cbn; lia].
      destruct (truthy k); cbn; lia.
    + rewrite (step_outside st raw I (is_end_not_begin raw E)) in H.
      inv_result. exists []. rewrite app_nil_r. split; [reflexivity|cbn; lia].
  - exists []. rewrite app_nil_r. split; [|cbn; lia].
    exact (step_keeps_data targets st st' raw E H).
Qed.

Lemma count_ends_cons (raw : string) (lines : list string) :
  count_ends (raw :: lines) = (count_ends [raw] + count_ends lines)%nat.
Proof.
  unfold count_ends. cbn [filter]. destruct (is_end raw); reflexivity.
Qed.

Lemma run_appends (lines : list string) :
  forall st st',
    ProcessMgfMzid.run targets st lines = Ok st' ->
    exists added,
      ProcessMgfMzid.precursor_data st'
      = ProcessMgfMzid.precursor_data st ++ added
      /\ (List.length added <= count_ends lines)%nat.
Proof.
  induction lines as [|raw lines IH]; intros st st' H;
    cbn [ProcessMgfMzid.run] in H.
  - inv_result. exists []. rewrite app_nil_r. split; [reflexivity|cbn; lia].
  - destruct (ProcessMgfMzid.step targets st raw) as [s1|e] eqn:S1;
      [|discriminate H].
    cbn [bind] in H.
    destruct (step_appends st s1 raw S1) as (a1 & D1 & L1).
    destruct (IH s1 st' H) as (a2 & D2 & L2).
    exists (a1 ++ a2). rewrite D2, D1, app_assoc, length_app, count_ends_cons.
    split; [reflexivity|lia].
Qed.

End MgfLemmas.

(** X1. Lines that come before any begin marker are passed over, whatever
    they hold: a file without a begin marker gives no record and no error,
    in both scripts. *)
Theorem lines_outside_blocks_are_ignored (targets : list target)
  (lines : list string) :
  Forall (fun raw => is_begin raw = false) lines ->
  ProcessMgfMzid.parse_mgf lines targets = Ok []
  /\ ProcessMgf.parse_mgf lines targets = Ok [].
Proof.
  intros H. unfold ProcessMgfMzid.parse_mgf, ProcessMgf.parse_mgf.
  rewrite (run_outside targets lines H ProcessMgfMzid.initial eq_refl).
  rewrite (mgf_run_outside targets lines H ProcessMgf.initial eq_refl).
  split; reflexivity.
Qed.

Lemma lines_outside_blocks_are_ignored_witness :
  ProcessMgfMzid.parse_mgf sample_loose_lines [sample_target] = Ok []
  /\ ProcessMgf.parse_mgf sample_loose_lines [sample_target] = Ok [].
Proof.
  apply (lines_outside_blocks_are_ignored [sample_target] sample_loose_lines).
  repeat constructor.
Defined.

(** X2. The records are only ever appended: the records of the first
    lines of a file begin the records of the whole file, and the lines that
    follow add one record at most for each end marker among them. *)
Theorem records_are_append_only (targets : list target)
  (pre more : list string) (rows : list (PyDict.dict pyval)) :
  ProcessMgfMzid.parse_mgf (pre ++ more) targets = Ok rows ->
  exists rows0 added,
    ProcessMgfMzid.parse_mgf pre targets = Ok rows0
    /\ rows = rows0 ++ added
    /\ (List.length added <= count_ends more)%nat.
Proof.
  unfold ProcessMgfMzid.parse_mgf. rewrite run_app. intros H.
  destruct (ProcessMgfMzid.run targets ProcessMgfMzid.initial pre) as [st|e];
    [|discriminate H].
  cbn [bind] in H.
  destruct (ProcessMgfMzid.run targets st more) as [st'|e] eqn:R;
    [|discriminate H].
  inv_result. destruct (run_appends targets more st st' R) as (added & D & L).
  exists (ProcessMgfMzid.precursor_data st), added. repeat split; assumption.
Qed.

Lemma records_are_append_only_witness :
  exists rows0 added,
    ProcessMgfMzid.parse_mgf (sample_block ++ [sample_end]) [] = Ok rows0
    /\ ProcessMgfMzid.precursor_data
         (state_after [] ((sample_block ++ [sample_end])
                          ++ (sample_block ++ [sample_end])))
       = rows0 ++ added
    /\ (List.length added <= count_ends (sample_block ++ [sample_end]))%nat.
Proof.
  apply (records_are_append_only [] (sample_block ++ [sample_end])
           (sample_block ++ [sample_end])).
  vm_compute. reflexivity.
Defined.

(** X3. A begin marker read before the end marker of the block in
    progress throws that block away: the file gives the records it would
    give without the unfinished block. *)
Theorem second_begin_discards_block (targets : list target)
  (pre : list string) (b : string) (body : list string) (b' : string)
  (rest : list string) (st : ProcessMgfMzid.state) :
  is_begin b = true ->
  is_begin b' = true ->
  Forall (fun raw => is_end raw = false) body ->
  ProcessMgfMzid.run targets ProcessMgfMzid.initial (pre ++ b :: body) = Ok st ->
  ProcessMgfMzid.parse_mgf (pre ++ b :: body ++ b' :: rest) targets
  = ProcessMgfMzid.parse_mgf (pre ++ b' :: rest) targets.
Proof.
  intros B B' H R. unfold ProcessMgfMzid.parse_mgf.
  change (b :: body ++ b' :: rest) with ((b :: body) ++ b' :: rest).
  rewrite app_assoc, run_app, R. cbn [bind].
  rewrite run_app in R. rewrite run_app.
  destruct (ProcessMgfMzid.run targets ProcessMgfMzid.initial pre) as [st0|e];
    [|discriminate R].
  cbn [bind] in *.
  assert (ProcessMgfMzid.precursor_data st = ProcessMgfMzid.precursor_data st0)
    as D.
  { apply (run_keeps_data targets (b :: body)); [|exact R].
    constructor; [apply is_begin_not_end; exact B|exact H]. }
  cbn [ProcessMgfMzid.run]. unfold ProcessMgfMzid.step.
  unfold is_begin in B'. rewrite B', D. reflexivity.
Qed.

Lemma second_begin_discards_block_witness :
  ProcessMgfMzid.parse_mgf
    ([] ++ "BEGIN IONS" :: sample_truncated
        ++ "BEGIN IONS" :: (sample_body ++ [sample_end])) []
  = ProcessMgfMzid.parse_mgf
      ([] ++ "BEGIN IONS" :: (sample_body ++ [sample_end])) [].
Proof.
  apply (second_begin_discards_block [] [] "BEGIN IONS" sample_truncated
           "BEGIN IONS" (sample_body ++ [sample_end])
           (state_after [] ("BEGIN IONS" :: sample_truncated))).
  - reflexivity.
  - reflexivity.
  - repeat constructor.
  - vm_compute. reflexivity.
Defined.

(** X4. A precursor line without a value, read inside a block, ends the
    run of process_mgf_mzid.py: the parser returns none of the records,
    those of the blocks already closed included. *)
Theorem empty_pepmass_ends_run (targets : list target)
  (pre : list string) (raw : string) (rest : list string)
  (st : ProcessMgfMzid.state) :
  ProcessMgfMzid.run targets ProcessMgfMzid.initial pre = Ok st ->
  ProcessMgfMzid.inside_ion_block st = true ->
  is_pepmass raw = true ->
  ProcessMgfMzid.pepmass_fields (strip raw) = Ok [] ->
  ProcessMgfMzid.parse_mgf (pre ++ raw :: rest) targets = Raise SystemExit.
Proof.
  intros R I P F. unfold ProcessMgfMzid.parse_mgf.
  rewrite run_app, R. cbn [bind ProcessMgfMzid.run].
  rewrite (step_pepmass targets st raw P I).
  unfold ProcessMgfMzid.on_pepmass. rewrite F. reflexivity.
Qed.

Lemma empty_pepmass_ends_run_witness :
  ProcessMgfMzid.parse_mgf
    (((sample_block ++ [sample_end]) ++ ["BEGIN IONS"])
     ++ sample_empty_pepmass :: [sample_end]) []
  = Raise SystemExit.
Proof.
  apply (empty_pepmass_ends_run []
           ((sample_block ++ [sample_end]) ++ ["BEGIN IONS"])
           sample_empty_pepmass [sample_end]
           (state_after [] ((sample_block ++ [sample_end]) ++ ["BEGIN IONS"]))).
  - vm_compute. reflexivity.
  - vm_compute. reflexivity.
  - reflexivity.
  - reflexivity.
Defined.

(** X5. A retention time that is no number, read inside a block, is a
    local matter in process_mgf_mzid.py, which goes on with the retention
    time unset, and the end of the run in process_mgf.py, which lets the
    [ValueError] escape. *)
Theorem bad_rt_is_local_in_one_script (targets : list target)
  (st : ProcessMgfMzid.state) (st2 : ProcessMgf.state) (raw f : string) :
  ProcessMgfMzid.inside_ion_block st = true ->
  ProcessMgf.inside_ion_block st2 = true ->
  is_rt raw = true ->
  index_last (split "=" (strip raw)) = Ok f ->
  py_float (strip f) = None ->
  ProcessMgfMzid.step targets st raw = Ok (ProcessMgfMzid.set_rt st None)
  /\ ProcessMgf.step targets st2 raw = Raise ValueError.
Proof.
  unfold is_rt. intros I I2 T L F.
  unfold ProcessMgfMzid.step, ProcessMgf.step. rewrite I, I2.
  destruct (startswith_cons_inv _ _ _ T) as (l & E & _).
  rewrite E in T, L |- *.
  replace (String.eqb (String "R" l) "BEGIN IONS") with false by reflexivity.
  replace (startswith "TITLE=" (String "R" l)) with false by reflexivity.
  rewrite T. unfold ProcessMgfMzid.on_rt. rewrite L. cbn [bind].
  unfold float_str. rewrite F. split; reflexivity.
Qed.

Lemma bad_rt_is_local_in_one_script_witness :
  ProcessMgfMzid.step [] (state_after [] ["BEGIN IONS"]) sample_bad_rt
  = Ok (ProcessMgfMzid.set_rt (state_after [] ["BEGIN IONS"]) None)
  /\ ProcessMgf.step []
       {| ProcessMgf.inside_ion_block := true;
          ProcessMgf.scan_number := None;
          ProcessMgf.precursor_mz := None;
          ProcessMgf.intensity := None;
          ProcessMgf.rt := None;
          ProcessMgf.ms2_sum := VInt 0;
          ProcessMgf.mz_values := [];
          ProcessMgf.precursor_data := [] |} sample_bad_rt
     = Raise ValueError.
Proof.
  apply (bad_rt_is_local_in_one_script [] (state_after [] ["BEGIN IONS"])
           _ sample_bad_rt "n/a").
  - reflexivity.
  - reflexivity.
  - reflexivity.
  - reflexivity.
  - reflexivity.
Defined.

(** ** The records of process_mgf_mzid.py *)

Section RecordLemmas.

Import PyDict ProcessMgfMzid.

Variable targets : list target.

Lemma on_title_shape (st st' : state) (line : string) :
  on_title st line = Ok st' ->
  st' = st \/ exists v, st' = set_scan_number st v.
Proof.
  unfold on_title. destruct (contains "scan=" line).
  - destruct (try_except (scan_expr line) IndexError (Ok "Unknown")) as [s|e];
      cbn [bind]; intros H; inv_result. right. eexists. reflexivity.
  - intros H. inv_result. left. reflexivity.
Qed.

Lemma on_rt_shape (st st' : state) (line : string) :
  on_rt st line = Ok st' -> exists v, st' = set_rt st v.
Proof.
  unfold on_rt.
  match goal with
  | |- bind ?m _ = _ -> _ => destruct m as [v|e]
  end; cbn [bind]; intros H; inv_result. eexists. reflexivity.
Qed.

Lemma on_pepmass_shape (st st' : state) (line : string) :
  on_pepmass st line = Ok st' ->
  exists v i, st' = set_pepmass st v (Some i).
Proof.
  unfold on_pepmass. destruct (pepmass_fields line) as [vs|e]; cbn [bind];
    [|discriminate].
  destruct (index vs 0) as [v0|e0]; cbn [bind try_except];
    [|destruct (pyexn_eqb ValueError e0); cbn [bind]; intros H; inv_result;
      eexists; eexists; reflexivity].
  destruct (float_str v0) as [m|e1]; cbn [bind try_except];
    [|destruct (pyexn_eqb ValueError e1); cbn [bind]; intros H; inv_result;
      eexists; eexists; reflexivity].
  destruct (if (1 <? List.length vs)%nat
            then v1 <- index vs 1;; float_str v1 else Ok 0%float) as [i|e2];
    cbn [bind try_except].
  - intros H. inv_result. eexists. eexists. reflexivity.
  - destruct (pyexn_eqb ValueError e2); cbn [bind]; intros H; inv_result.
    eexists. eexists. reflexivity.
Qed.

Lemma numeric_add_float (v : pyval) (x : float) :
  numeric v -> numeric (add_float v x).
Proof. destruct v; cbn; trivial. Qed.

Lemma state_ok_initial : state_ok targets initial.
Proof.
  unfold state_ok, initial. cbn. repeat split; [discriminate|constructor].
Qed.

(** Every line keeps the variables of the loop in order. *)
Lemma step_state_ok (st st' : state) (raw : string) :
  state_ok targets st ->
  step targets st raw = Ok st' ->
  state_ok targets st'.
Proof.
  intros (Hi & Hn & Hd) H. unfold step in H.
  destruct (String.eqb (strip raw) "BEGIN IONS").
  { inv_result. unfold state_ok. cbn. repeat split; [discriminate|exact Hd]. }
  destruct (inside_ion_block st); [|inv_result; repeat split; assumption].
  destruct (startswith "TITLE=" (strip raw)).
  { destruct (on_title_shape _ _ _ H) as [->|(v & ->)];
      repeat split; assumption. }
  destruct (startswith "RTINSECONDS=" (strip raw)).
  { destruct (on_rt_shape _ _ _ H) as (v & ->). repeat split; assumption. }
  destruct (startswith "PEPMASS=" (strip raw)).
  { destruct (on_pepmass_shape _ _ _ H) as (v & i & ->).
    unfold state_ok. cbn. repeat split; [|assumption|assumption].
    intros _. exists i. reflexivity. }
  destruct (String.eqb (strip raw) "END IONS").
  { unfold on_end in H. inv_result. unfold state_ok. cbn.
    repeat split; [exact Hi|exact Hn|].
    apply Forall_app. split; [exact Hd|].
    destruct (scan_number st) as [scan|]; [|constructor].
    destruct (precursor_mz st) as [pepmass|]; [|constructor].
    destruct (truthy scan) eqn:T; [|constructor].
    destruct (Hi eq_refl) as (i & Ei).
    constructor; [|constructor].
    exists st, scan, pepmass, i. repeat split; assumption. }
  pose proof (on_ion_cases st (strip raw)) as C.
  destruct (split_ws (strip raw)) as [|p0 [|p1 [|p2 ps]]];
    try (rewrite C in H; inv_result; repeat split; assumption).
  destruct (py_float p0); [destruct (py_float p1)|];
    rewrite C in H; inv_result; try (repeat split; assumption).
  unfold state_ok. cbn. repeat split;
    [exact Hi|apply numeric_add_float; exact Hn|exact Hd].
Qed.

Lemma run_state_ok (lines : list string) :
  forall st st',
    state_ok targets st ->
    run targets st lines = Ok st' ->
    state_ok targets st'.
Proof.
  induction lines as [|raw lines IH]; intros st st' K H; cbn [run] in H.
  - inv_result. exact K.
  - destruct (step targets st raw) as [s1|e] eqn:S1; [|discriminate H].
    cbn [bind] in H. apply (IH s1 st'); [|exact H].
    exact (step_state_ok st s1 raw K S1).
Qed.

Lemma emitted_record_shape (r : dict pyval) :
  emitted_record targets r -> record_shape r.
Proof.
  intros (st & scan & pepmass & i & -> & T & Ei & Hn).
  unfold record_shape. rewrite !get_record_base by reflexivity.
  cbn [get String.eqb Ascii.eqb Bool.eqb]. rewrite Ei.
  split; [exists scan; split; [reflexivity|exact T]|].
  split; [exists (opt_float (rt st)); split;
          [reflexivity|destruct (rt st); exact I]|].
  split; [exists pepmass; reflexivity|].
  split; [exists i; reflexivity|].
  exists (summed_ms2_intensity st). split; [reflexivity|exact Hn].
Qed.

Lemma parse_mgf_emitted (lines : list string) (rows : list (dict pyval)) :
  parse_mgf lines targets = Ok rows -> Forall (emitted_record targets) rows.
Proof.
  unfold parse_mgf. intros H.
  destruct (run targets initial lines) as [st|e] eqn:R; [|discriminate H].
  inv_result.
  destruct (run_state_ok lines initial st state_ok_initial R) as (_ & _ & D).
  exact D.
Qed.

Lemma Forall_emitted_shape (rows : list (dict pyval)) :
  Forall (emitted_record targets) rows -> Forall record_shape rows.
Proof.
  induction 1 as [|r rows Hr _ IH]; constructor;
    [exact (emitted_record_shape r Hr)|exact IH].
Qed.

End RecordLemmas.

(** X6. Every record process_mgf_mzid.py returns has its five base
    fields: a scan number that is a non-empty text, a retention time that
    is a float or unset, a precursor m/z and a precursor intensity that are
    floats, and a summed intensity that is a number; no target column,
    whatever the target table, takes the place of one of them. *)
Theorem records_have_base_fields (targets : list target)
  (lines : list string) (rows : list (PyDict.dict pyval)) :
  ProcessMgfMzid.parse_mgf lines targets = Ok rows ->
  Forall record_shape rows.
Proof.
  intros H. apply parse_mgf_emitted in H.
  induction H as [|r rows Hr _ IH]; constructor;
    [exact (emitted_record_shape targets r Hr)|exact IH].
Qed.

Lemma records_have_base_fields_witness :
  Forall record_shape
    (ProcessMgfMzid.precursor_data
       (state_after [sample_target] (sample_block ++ [sample_end]))).
Proof.
  apply (records_have_base_fields [sample_target]
           (sample_block ++ [sample_end])).
  vm_compute. reflexivity.
Defined.

(** ** Merge, identification index and export *)

Section MergeLemmas.

Import PyDict ProcessMgfMzid.

Lemma merge_data_shape (mzid_data : dict bool) (rows : list (dict pyval)) :
  Forall record_shape rows ->
  exists merged,
    merge_data rows mzid_data = Ok merged
    /\ Forall2 (merged_from mzid_data) rows merged.
Proof.
  induction 1 as [|r rows ((scan & G & _) & _) _ (merged & E & F)];
    cbn [merge_data].
  - exists []. split; [reflexivity|constructor].
  - unfold item. rewrite G. cbn [bind]. rewrite E. cbn [bind].
    eexists. split; [reflexivity|]. constructor; [|exact F].
    exists scan. split; [exact G|]. split.
    + rewrite get_set_same. unfold lookup_pass.
      destruct (get mzid_data scan) as [[|]|]; reflexivity.
    + intros k N. apply get_set_other. intros X. apply N. symmetry. exact X.
Qed.

Lemma find_app_last {A : Type} (p : A -> bool) (l : list A) (a : A) :
  find p (l ++ [a])
  = match find p l with
    | Some x => Some x
    | None => if p a then Some a else None
    end.
Proof.
  induction l as [|x l IH]; cbn [app find]; [reflexivity|].
  destruct (p x); [reflexivity|exact IH].
Qed.

(** The scan number of a result element is read without an exception. *)
Lemma sir_scan_number_total (r : sir) :
  sir_scan_number r = Ok (sir_key r).
Proof.
  unfold sir_key, sir_scan_number.
  destruct (find_spectrum_title r) as [elem|]; [|reflexivity].
  destruct (contains "scan=" _) eqn:C; [|reflexivity].
  change (value_scan_expr ?v) with (scan_expr v).
  destruct (scan_expr_total _ C) as (s & E). rewrite E. reflexivity.
Qed.

Lemma mzid_loop_last (results : list sir) :
  forall d0 : dict bool,
  exists d,
    mzid_loop results d0 = Ok d
    /\ forall k,
         get d k = match find (has_key k) (rev results) with
                   | Some r => Some (sir_pass_threshold r)
                   | None => get d0 k
                   end.
Proof.
  induction results as [|r results IH]; intros d0; cbn [mzid_loop].
  - exists d0. split; [reflexivity|]. intros k. reflexivity.
  - rewrite sir_scan_number_total. cbn [bind].
    destruct (IH (match sir_key r with
                  | Some k => set d0 k (sir_pass_threshold r)
                  | None => d0
                  end)) as (d & E & G).
    exists d. split; [exact E|]. intros k. rewrite G.
    cbn [rev]. rewrite find_app_last.
    destruct (find (has_key k) (rev results)); [reflexivity|].
    unfold has_key. destruct (sir_key r) as [k'|]; [|reflexivity].
    rewrite get_set. destruct (String.eqb k' k); reflexivity.
Qed.

Lemma export_rows_length (fieldnames : list string) (data : list (dict pyval)) :
  Forall (fun row => List.length row = List.length fieldnames)
         (map (cleaned_row fieldnames) data).
Proof.
  induction data as [|r data IH]; cbn [map]; constructor; [|exact IH].
  unfold cleaned_row. apply length_map.
Qed.

End MergeLemmas.

(** X7. [merge_data] never fails on the records of [parse_mgf], whatever
    the identification index: it returns one row for each record, in
    order, whose pass mark is "yes" when the index holds [True] under the
    scan number of the record and "no" when it holds [False] or has no such
    scan number, and whose other columns are those of the record. *)
Theorem merge_of_parsed_records (targets : list target) (lines : list string)
  (rows : list (PyDict.dict pyval)) (mzid_data : PyDict.dict bool) :
  ProcessMgfMzid.parse_mgf lines targets = Ok rows ->
  exists merged,
    ProcessMgfMzid.merge_data rows mzid_data = Ok merged
    /\ Forall2 (merged_from mzid_data) rows merged.
Proof.
  intros H. apply merge_data_shape.
  apply (Forall_emitted_shape targets).
  exact (parse_mgf_emitted targets lines rows H).
Qed.

Lemma merge_of_parsed_records_witness :
  exists merged,
    ProcessMgfMzid.merge_data
      (ProcessMgfMzid.precursor_data
         (state_after [] (sample_block ++ [sample_end])))
      [("7", true)]
    = Ok merged
    /\ Forall2 (merged_from [("7", true)])
         (ProcessMgfMzid.precursor_data
            (state_after [] (sample_block ++ [sample_end])))
         merged.
Proof.
  apply (merge_of_parsed_records [] (sample_block ++ [sample_end])).
  vm_compute. reflexivity.
Defined.

(** X8. [parse_mzid_with_scans] never fails on a parsed document, and
    under each scan key its index holds the pass mark of the last result
    element with that key: a later element overwrites an earlier one, and
    an element without a scan key leaves no entry. *)
Theorem mzid_index_last_element_wins (results : list ProcessMgfMzid.sir) :
  exists d,
    ProcessMgfMzid.parse_mzid_with_scans results = Ok d
    /\ forall k,
         PyDict.get d k
         = option_map ProcessMgfMzid.sir_pass_threshold
             (find (has_key k) (rev results)).
Proof.
  unfold ProcessMgfMzid.parse_mzid_with_scans.
  destruct (mzid_loop_last results []) as (d & E & G). rewrite E.
  exists d. split; [reflexivity|]. intros k. rewrite G.
  destruct (find (has_key k) (rev results)); reflexivity.
Qed.

(** X9. [export_to_csv] writes no file when there is no record, and
    otherwise a rectangular table: the header, which is the five base
    names, one name for each target in the order of the table, and the
    pass mark, and then one row for each record, each of as many cells as
    the header. *)
Theorem export_is_rectangular (data : list (PyDict.dict pyval))
  (targets : list target) :
  match data with
  | [] => ProcessMgfMzid.export_to_csv data targets = None
  | _ :: _ =>
      exists table,
        ProcessMgfMzid.export_to_csv data targets = Some table
        /\ hd_error table = Some (ProcessMgfMzid.final_fieldnames targets)
        /\ List.length table = S (List.length data)
        /\ Forall (fun row => List.length row = (6 + List.length targets)%nat)
                  table
  end.
Proof.
  unfold ProcessMgfMzid.export_to_csv. destruct data as [|r data];
    [reflexivity|].
  assert (List.length (ProcessMgfMzid.final_fieldnames targets)
          = (6 + List.length targets)%nat) as L.
  { unfold ProcessMgfMzid.final_fieldnames.
    rewrite !length_app, length_map. cbn. lia. }
  eexists. split; [reflexivity|].
  split; [reflexivity|]. split; [cbn [List.length]; rewrite length_map; reflexivity|].
  constructor; [exact L|].
  rewrite <- L. apply export_rows_length.
Qed.

(** ** The target table *)

Section LoaderLemmas.

Import PyDict.

Lemma targets_of_rows_inv (rows : list (dict (option string)))
  (ts : list target) :
  ProcessMgfMzid.targets_of_rows rows = Ok ts ->
  Forall2 (fun row t => ProcessMgfMzid.target_of_row row = Ok t) rows ts.
Proof.
  revert ts. induction rows as [|row rows IH]; intros ts H;
    cbn [ProcessMgfMzid.targets_of_rows] in H.
  - inv_result. constructor.
  - destruct (ProcessMgfMzid.target_of_row row) as [t|e] eqn:T;
      [|discriminate H].
    cbn [bind] in H.
    destruct (ProcessMgfMzid.targets_of_rows rows) as [ts'|e];
      [|discriminate H].
    cbn [bind] in H. inv_result. constructor; [exact T|apply IH; reflexivity].
Qed.

Lemma mgf_targets_of_rows_inv (rows : list (dict (option string)))
  (ts : list target) :
  ProcessMgf.targets_of_rows rows = Ok ts ->
  Forall2 (fun row t => ProcessMgf.target_of_row row = Ok t) rows ts.
Proof.
  revert ts. induction rows as [|row rows IH]; intros ts H;
    cbn [ProcessMgf.targets_of_rows] in H.
  - inv_result. constructor.
  - destruct (ProcessMgf.target_of_row row) as [t|e] eqn:T; [|discriminate H].
    cbn [bind] in H.
    destruct (ProcessMgf.targets_of_rows rows) as [ts'|e]; [|discriminate H].
    cbn [bind] in H. inv_result. constructor; [exact T|apply IH; reflexivity].
Qed.

Lemma lower_char_idempotent (c : ascii) :
  lower_char (lower_char c) = lower_char c.
Proof.
  destruct c as [[] [] [] [] [] [] [] []]; vm_compute; reflexivity.
Qed.

Lemma lower_idempotent (s : string) : lower (lower s) = lower s.
Proof.
  induction s as [|c s IH]; cbn [lower]; [reflexivity|].
  rewrite lower_char_idempotent, IH. reflexivity.
Qed.

Lemma target_of_row_lower (row : dict (option string)) (t : target) :
  ProcessMgfMzid.target_of_row row = Ok t \/ ProcessMgf.target_of_row row = Ok t ->
  lower (tolerance_type t) = tolerance_type t.
Proof.
  unfold ProcessMgfMzid.target_of_row, ProcessMgf.target_of_row.
  intros [H|H];
    repeat match type of H with
      | bind ?m _ = _ => destruct m; cbn [bind] in H; [|discriminate H]
      end;
    inv_result; cbn [tolerance_type]; apply lower_idempotent.
Qed.

Lemma parse_mass_targets_inv (bytes : string) (ts : list target) :
  ProcessMgfMzid.parse_mass_targets bytes = Ok ts ->
  exists names rows,
    Csv.DictReader (Csv.decode_utf8_sig bytes) = (Some names, rows)
    /\ forallb (fun header => existsb (String.eqb header) names)
               ProcessMgfMzid.required_headers = true
    /\ ProcessMgfMzid.targets_of_rows rows = Ok ts.
Proof.
  unfold ProcessMgfMzid.parse_mass_targets. intros H.
  destruct (Csv.DictReader (Csv.decode_utf8_sig bytes)) as [[names|] rows];
    [|discriminate H].
  destruct (forallb _ ProcessMgfMzid.required_headers) eqn:F;
    cbn [negb] in H; [|discriminate H].
  exists names, rows. split; [reflexivity|]. split; [exact F|].
  destruct (ProcessMgfMzid.targets_of_rows rows) as [ts'|e];
    [cbn in H; exact H|].
  destruct e; discriminate H.
Qed.

End LoaderLemmas.

(** X10. The loader of process_mgf_mzid.py returns a target set only
    when the header of the table holds the three column names and every
    row of the table loads; it then returns one target for each row, in the
    order of the rows, and never a part of the table. *)
Theorem loaded_targets_follow_rows (bytes : string) (ts : list target) :
  ProcessMgfMzid.parse_mass_targets bytes = Ok ts ->
  exists names rows,
    Csv.DictReader (Csv.decode_utf8_sig bytes) = (Some names, rows)
    /\ forallb (fun header => existsb (String.eqb header) names)
               ProcessMgfMzid.required_headers = true
    /\ Forall2 (fun row t => ProcessMgfMzid.target_of_row row = Ok t) rows ts.
Proof.
  intros H.
  destruct (parse_mass_targets_inv bytes ts H) as (names & rows & D & F & T).
  exists names, rows. split; [exact D|]. split; [exact F|].
  apply targets_of_rows_inv. exact T.
Qed.

Lemma loaded_targets_follow_rows_witness :
  exists names rows,
    Csv.DictReader (Csv.decode_utf8_sig clean_table) = (Some names, rows)
    /\ forallb (fun header => existsb (String.eqb header) names)
               ProcessMgfMzid.required_headers = true
    /\ Forall2 (fun row t => ProcessMgfMzid.target_of_row row = Ok t) rows
               [sample_target].
Proof.
  apply (loaded_targets_follow_rows clean_table [sample_target]).
  vm_compute. reflexivity.
Defined.

(** X11. In both scripts every loaded target has its tolerance type in
    lower case, so that the comparison with "ppm" in the matcher does not
    depend on the case used in the table. *)
Theorem loaded_modes_are_lower_case (bytes : string) (ts : list target) :
  ProcessMgfMzid.parse_mass_targets bytes = Ok ts
  \/ ProcessMgf.parse_mass_targets bytes = Ok ts ->
  Forall (fun t => lower (tolerance_type t) = tolerance_type t) ts.
Proof.
  intros [H|H].
  - destruct (parse_mass_targets_inv bytes ts H) as (names & rows & _ & _ & F).
    apply targets_of_rows_inv in F. clear H. induction F as [|row t rows ts T _ IH]; [constructor|].
    constructor; [|exact IH].
    apply (target_of_row_lower row t). left. exact T.
  - unfold ProcessMgf.parse_mass_targets in H.
    apply mgf_targets_of_rows_inv in H.
    induction H as [|row t rows ts T _ IH]; [constructor|].
    constructor; [|exact IH].
    apply (target_of_row_lower row t). right. exact T.
Qed.

Lemma loaded_modes_are_lower_case_witness :
  Forall (fun t => lower (tolerance_type t) = tolerance_type t) [sample_target].
Proof.
  apply (loaded_modes_are_lower_case clean_table [sample_target]).
  left. vm_compute. reflexivity.
Defined.

(** ** The characters of a scan key *)

Section KeyCharLemmas.

Local Open Scope string_scope.

(** The pieces of a text keep what is true of all its characters. *)
Lemma split_from_all_chars (P : ascii -> bool) (sep : string) (s : string) :
  all_chars P s = true ->
  forall k, Forall (fun p => all_chars P p = true) (split_from sep k s).
Proof.
  induction s as [|c s IH]; intros H k; cbn [split_from].
  - repeat constructor.
  - cbn [all_chars] in H. apply andb_true_iff in H. destruct H as [Hc Hs].
    destruct k as [|k]; [|apply IH; exact Hs].
    destruct (startswith sep (String c s)).
    + constructor; [reflexivity|apply IH; exact Hs].
    + pose proof (IH Hs 0%nat) as F.
      destruct (split_from sep 0 s) as [|p ps].
      * repeat constructor. cbn [all_chars]. rewrite Hc. reflexivity.
      * inversion F as [|? ? Hp Hps]; subst. constructor; [|exact Hps].
        cbn [all_chars]. rewrite Hc, Hp. reflexivity.
Qed.

(** The pieces between the occurrences of one character hold none. *)
Lemma split_char_no_char (c : ascii) (s : string) :
  Forall (fun p => no_char c p = true) (split (String c EmptyString) s).
Proof.
  unfold split, no_char. induction s as [|x s IH]; cbn [split_from].
  - repeat constructor.
  - cbn [startswith String.length Nat.sub].
    destruct (Ascii.eqb c x) eqn:E.
    + constructor; [reflexivity|exact IH].
    + destruct (split_from (String c EmptyString) 0 s) as [|p ps].
      * repeat constructor. cbn [all_chars]. rewrite E. reflexivity.
      * inversion IH as [|? ? Hp Hps]; subst. constructor; [|exact Hps].
        cbn [all_chars]. rewrite E, Hp. reflexivity.
Qed.

Lemma all_chars_join_empty (P : ascii -> bool) (l : list string) :
  Forall (fun p => all_chars P p = true) l ->
  all_chars P (join EmptyString l) = true.
Proof.
  induction 1 as [|p l Hp _ IH]; [reflexivity|].
  cbn [join]. destruct l as [|q l]; [exact Hp|].
  rewrite all_chars_app. cbn [append]. rewrite Hp, IH. reflexivity.
Qed.

Lemma replace_removes_char (c : ascii) (s : string) :
  no_char c (replace (String c EmptyString) EmptyString s) = true.
Proof.
  unfold replace, no_char. apply all_chars_join_empty.
  apply (split_char_no_char c s).
Qed.

Lemma index_Forall {A : Type} (P : A -> Prop) (l : list A) (i : nat) (a : A) :
  Forall P l -> index l i = Ok a -> P a.
Proof.
  unfold index. intros F H.
  destruct (nth_error l i) as [x|] eqn:E; [|discriminate H]. inv_result.
  apply nth_error_In in E. rewrite Forall_forall in F. exact (F a E).
Qed.

End KeyCharLemmas.

(** X13. The scan key that the two parsers of process_mgf_mzid.py read
    from a title holds no space and no double quote. *)
Theorem scan_key_has_no_space_no_quote (line key : string) :
  ProcessMgfMzid.scan_expr line = Ok key
  \/ ProcessMgfMzid.value_scan_expr line = Ok key ->
  no_char " " key = true /\ no_char dquote_char key = true.
Proof.
  intros H.
  assert (ProcessMgfMzid.scan_expr line = Ok key) as E
    by (destruct H as [H|H]; exact H).
  clear H. unfold ProcessMgfMzid.scan_expr in E.
  destruct (index (split "scan=" line) 1) as [a|e]; [|discriminate E].
  cbn [bind] in E.
  destruct (index (split "&quot;" a) 0) as [b|e]; [|discriminate E].
  cbn [bind] in E. split.
  - apply (index_Forall (fun p => no_char " " p = true) _ _ _) with (2 := E).
    apply (split_char_no_char " ").
  - apply (index_Forall (fun p => no_char dquote_char p = true) _ _ _)
      with (2 := E).
    apply (split_from_all_chars (fun x => negb (Ascii.eqb dquote_char x))).
    apply (replace_removes_char dquote_char).
Qed.

Lemma scan_key_has_no_space_no_quote_witness :
  no_char " " "5" = true /\ no_char dquote_char "5" = true.
Proof.
  apply (scan_key_has_no_space_no_quote "TITLE=run.raw scan=5 x" "5").
  left. reflexivity.
Defined.

(** ** The scan key of a title of the usual form *)

Section UsualTitleLemmas.

Local Open Scope string_scope.

Lemma startswith_app_long (sep : string) :
  forall u v, (String.length sep <= String.length u)%nat ->
              startswith sep (u ++ v) = startswith sep u.
Proof.
  induction sep as [|a sep IH]; intros u v L; [reflexivity|].
  destruct u as [|b u]; cbn [String.length] in L; [lia|].
  cbn [append startswith]. destruct (Ascii.eqb a b); [|reflexivity].
  apply IH. lia.
Qed.

Lemma length_append (a b : string) :
  String.length (a ++ b) = (String.length a + String.length b)%nat.
Proof.
  induction a as [|c a IH]; cbn [append String.length]; [reflexivity|].
  rewrite IH. reflexivity.
Qed.

(** The text before the first marker is the first piece. *)
Lemma split_first_occurrence (pre tail : string) :
  contains "scan=" (pre ++ "scan") = false ->
  split "scan=" (pre ++ "scan=" ++ tail) = pre :: split "scan=" tail.
Proof.
  unfold split. induction pre as [|c pre IH]; intros H.
  - reflexivity.
  - change (String c pre ++ "scan") with (String c (pre ++ "scan")) in H.
    cbn [contains] in H.
    destruct (startswith "scan=" (String c (pre ++ "scan"))) eqn:S;
      [discriminate H|].
    change (String c pre ++ "scan=" ++ tail)
      with (String c (pre ++ "scan=" ++ tail)).
    cbn [split_from].
    assert (startswith "scan=" (String c (pre ++ "scan=" ++ tail)) = false)
      as S'.
    { transitivity (startswith "scan=" (String c (pre ++ "scan")));
        [|exact S].
      change (String c (pre ++ "scan")) with (String c pre ++ "scan").
      change (String c (pre ++ "scan=" ++ tail))
        with (String c pre ++ ("scan" ++ ("=" ++ tail))).
      rewrite <- append_assoc.
      apply startswith_app_long.
      rewrite length_append. cbn [String.length]. lia. }
    rewrite S', (IH H). reflexivity.
Qed.

(** Characters that cannot begin the separator stay in the first piece. *)
Lemma split_from_prefix_chars (c0 : ascii) (p0 key s : string) :
  no_char c0 key = true ->
  split_from (String c0 p0) 0 (key ++ s)
  = match split_from (String c0 p0) 0 s with
    | p :: ps => (key ++ p) :: ps
    | [] => [key]
    end.
Proof.
  unfold no_char. induction key as [|x key IH]; intros H.
  - cbn [append]. destruct (split_from (String c0 p0) 0 s) eqn:E;
      [|reflexivity].
    exfalso. exact (split_from_nonempty _ _ _ E).
  - cbn [all_chars] in H. apply andb_true_iff in H. destruct H as [Hx Hk].
    apply negb_true_iff in Hx.
    cbn [append split_from startswith]. rewrite Hx, (IH Hk).
    destruct (split_from (String c0 p0) 0 s); reflexivity.
Qed.

Lemma split_head_blank (c0 : ascii) (p0 s : string) :
  Ascii.eqb c0 " " = false ->
  blank_start s ->
  exists h t, split_from (String c0 p0) 0 s = h :: t /\ blank_start h.
Proof.
  intros N B. destruct s as [|c s].
  - exists EmptyString, []. split; [reflexivity|exact I].
  - cbn [blank_start] in B. subst c. cbn [split_from startswith]. rewrite N.
    destruct (split_from (String c0 p0) 0 s) as [|p ps];
      eexists; eexists; (split; [reflexivity|reflexivity]).
Qed.

Lemma rstrip_blank (s : string) : blank_start s -> blank_start (rstrip s).
Proof.
  destruct s as [|c s]; [trivial|]. cbn [blank_start]. intros ->.
  cbn [rstrip]. destruct (rstrip s); [exact I|reflexivity].
Qed.

Lemma join_head_app (key p : string) (ps : list string) :
  join EmptyString ((key ++ p) :: ps) = key ++ join EmptyString (p :: ps).
Proof.
  cbn [join]. destruct ps as [|q ps]; [reflexivity|].
  cbn [append]. apply append_assoc.
Qed.

Lemma replace_quote_blank (s : string) :
  blank_start s -> blank_start (replace dquote EmptyString s).
Proof.
  unfold replace, split, dquote. destruct s as [|c s]; [trivial|].
  cbn [blank_start]. intros ->. cbn [split_from startswith].
  replace (Ascii.eqb (ascii_of_nat 34) " ") with false by reflexivity.
  destruct (split_from (String (ascii_of_nat 34) EmptyString) 0 s) as [|p ps].
  - reflexivity.
  - cbn [join]. destruct ps; reflexivity.
Qed.

Lemma split_space_blank (s : string) :
  blank_start s ->
  exists t, split_from " " 0 s = EmptyString :: t.
Proof.
  destruct s as [|c s].
  - exists []. reflexivity.
  - cbn [blank_start]. intros ->. cbn [split_from startswith].
    replace (Ascii.eqb " " " ") with true by reflexivity.
    eexists. reflexivity.
Qed.

Lemma digit_is_plain (c : ascii) :
  is_digit c = true ->
  is_space c = false
  /\ Ascii.eqb "s" c = false
  /\ Ascii.eqb "&" c = false
  /\ Ascii.eqb (ascii_of_nat 34) c = false
  /\ Ascii.eqb " " c = false.
Proof.
  destruct c as [[] [] [] [] [] [] [] []]; vm_compute; intros H;
    try discriminate H; repeat split.
Qed.

Lemma digits_no_char (c0 : ascii) (key : string) :
  (forall c, is_digit c = true -> Ascii.eqb c0 c = false) ->
  all_chars is_digit key = true ->
  no_char c0 key = true.
Proof.
  intros N. unfold no_char. induction key as [|x key IH]; intros H;
    [reflexivity|].
  cbn [all_chars] in *. apply andb_true_iff in H. destruct H as [Hx Hk].
  rewrite (N x Hx), (IH Hk). reflexivity.
Qed.

Lemma strip_digits_app (d : ascii) (key x : string) :
  all_chars is_digit (String d key) = true ->
  strip (String d key ++ x) = String d key ++ rstrip x.
Proof.
  intros H. unfold strip.
  assert (forall k y, all_chars is_digit k = true ->
                      rstrip (k ++ y) = k ++ rstrip y) as R.
  { induction k as [|c k IH]; intros y Hk; [reflexivity|].
    cbn [all_chars] in Hk. apply andb_true_iff in Hk. destruct Hk as [Hc Hk].
    destruct (digit_is_plain c Hc) as (S & _).
    change (String c k ++ y) with (String c (k ++ y)).
    rewrite (rstrip_cons_nonspace c _ S), (IH y Hk). reflexivity. }
  pose proof H as H'. cbn [all_chars] in H'.
  apply andb_true_iff in H'. destruct H' as [Hd _].
  destruct (digit_is_plain d Hd) as (S & _).
  change (String d key ++ x) with (String d (key ++ x)).
  cbn [lstrip]. rewrite S.
  change (String d (key ++ x)) with (String d key ++ x).
  apply R. exact H.
Qed.

End UsualTitleLemmas.

(** X14. In a title of the usual form, where the first marker is
    followed by a run of digits and then by a space or by the end of the
    line, the scan key that process_mgf_mzid.py reads is that run of
    digits, whatever comes before the marker and after the space. *)
Theorem scan_key_of_usual_title (pre : string) (d : ascii) (key rest : string) :
  contains "scan=" (pre ++ "scan") = false ->
  all_chars is_digit (String d key) = true ->
  blank_start rest ->
  ProcessMgfMzid.scan_expr (pre ++ "scan=" ++ String d key ++ rest)
  = Ok (String d key).
Proof.
  intros P K B. unfold ProcessMgfMzid.scan_expr.
  rewrite (split_first_occurrence pre _ P).
  assert (forall c0, (forall c, is_digit c = true -> Ascii.eqb c0 c = false) ->
                     no_char c0 (String d key) = true) as N
    by (intros c0 H; exact (digits_no_char c0 _ H K)).
  unfold split, index. cbn [nth_error].
  rewrite (split_from_prefix_chars "s" "can=" (String d key) rest)
    by (apply N; intros c H; apply (digit_is_plain c H)).
  destruct (split_head_blank "s" "can=" rest eq_refl B) as (h1 & t1 & E1 & B1).
  rewrite E1. cbn [nth_error bind].
  rewrite (split_from_prefix_chars "&" "quot;" (String d key) h1)
    by (apply N; intros c H; apply (digit_is_plain c H)).
  destruct (split_head_blank "&" "quot;" h1 eq_refl B1) as (h2 & t2 & E2 & B2).
  rewrite E2. cbn [nth_error bind].
  rewrite (strip_digits_app d key h2 K).
  pose proof (replace_quote_blank _ (rstrip_blank h2 B2)) as B3.
  unfold replace, split, dquote in *.
  rewrite (split_from_prefix_chars (ascii_of_nat 34) EmptyString
             (String d key) (rstrip h2))
    by (apply N; intros c H; apply (digit_is_plain c H)).
  destruct (split_from (String (ascii_of_nat 34) EmptyString) 0 (rstrip h2))
    as [|p3 t3] eqn:E3.
  { exfalso. exact (split_from_nonempty _ _ _ E3). }
  rewrite join_head_app.
  rewrite (split_from_prefix_chars " " EmptyString (String d key) _)
    by (apply N; intros c H; apply (digit_is_plain c H)).
  destruct (split_space_blank _ B3) as (t4 & E4). rewrite E4.
  rewrite append_nil_r. reflexivity.
Qed.

Lemma scan_key_of_usual_title_witness :
  ProcessMgfMzid.scan_expr
    ("TITLE=Scans of run.raw " ++ "scan=" ++ String "1" "207" ++ " z=2")%string
  = Ok (String "1" "207").
Proof.
  apply (scan_key_of_usual_title "TITLE=Scans of run.raw " "1" "207" " z=2").
  - reflexivity.
  - reflexivity.
  - reflexivity.
Defined.

(** ** The table of process_mgf.py *)

Section MgfExportLemmas.

Import PyDict.

Variable targets : list target.

Lemma keys_set_present {V : Type} (d : dict V) (k : string) (v : V) :
  In k (keys d) -> keys (set d k v) = keys d.
Proof.
  intros H. rewrite keys_set.
  replace (existsb (String.eqb k) (keys d)) with true; [reflexivity|].
  symmetry. apply existsb_exists. exists k. split; [exact H|apply String.eqb_refl].
Qed.

Lemma keys_set_absent {V : Type} (d : dict V) (k : string) (v : V) :
  ~ In k (keys d) -> keys (set d k v) = keys d ++ [k].
Proof.
  intros H. rewrite keys_set.
  destruct (existsb (String.eqb k) (keys d)) eqn:E; [|reflexivity].
  exfalso. apply existsb_exists in E. destruct E as (x & Hx & E).
  apply String.eqb_eq in E. subst x. exact (H Hx).
Qed.

(** [{**a, **b}] has the keys of [a] and then those of [b], when [b] has
    none of the keys of [a]. *)
Lemma keys_update {V : Type} (b : dict V) :
  NoDup (keys b) ->
  forall a : dict V,
    (forall k, In k (keys b) -> ~ In k (keys a)) ->
    keys (update a b) = keys a ++ keys b.
Proof.
  unfold update.
  induction b as [|[k v] b IH]; intros N a D; cbn [fold_left fst snd].
  - change (keys (@nil (string * V))) with (@nil string).
    rewrite app_nil_r. reflexivity.
  - change (keys ((k, v) :: b)) with (k :: keys b) in *.
    inversion N as [|? ? Hk N']; subst.
    rewrite (IH N').
    + rewrite (keys_set_absent a k v) by (apply D; left; reflexivity).
      rewrite <- app_assoc. reflexivity.
    + intros k' Hk'.
      rewrite (keys_set_absent a k v) by (apply D; left; reflexivity).
      intros X. apply in_app_or in X. destruct X as [X|[X|[]]].
      * exact (D k' (or_intror Hk') X).
      * subst k'. exact (Hk Hk').
Qed.

Lemma In_keys_no_hits (t : target) :
  In t targets -> In (py_str (mz t)) (keys (ProcessMgf.no_hits targets)).
Proof.
  intros H.
  destruct (in_dec string_dec (py_str (mz t)) (keys (ProcessMgf.no_hits targets)))
    as [Y|N]; [exact Y|].
  exfalso. apply get_None_keys in N.
  change (ProcessMgf.no_hits targets) with (ProcessMgfMzid.no_hits targets) in N.
  rewrite get_no_hits in N.
  replace (is_target_text targets (py_str (mz t))) with true in N;
    [discriminate N|].
  symmetry. apply existsb_exists. exists t.
  split; [exact H|apply String.eqb_refl].
Qed.

Lemma keys_no_hits_are_texts (k : string) :
  In k (keys (ProcessMgf.no_hits targets)) ->
  exists t, In t targets /\ py_str (mz t) = k.
Proof.
  intros H.
  destruct (get (ProcessMgf.no_hits targets) k) as [v|] eqn:G.
  - change (ProcessMgf.no_hits targets) with (ProcessMgfMzid.no_hits targets) in G.
    rewrite get_no_hits in G.
    destruct (is_target_text targets k) eqn:T; [|discriminate G].
    apply existsb_exists in T. destruct T as (t & Ht & E).
    apply String.eqb_eq in E. exists t. split; assumption.
  - apply get_None_keys in G. contradiction.
Qed.

Lemma keys_mark_targets (ts : list target) (value : float) :
  forall d : dict pyval,
    (forall t, In t ts -> In (py_str (mz t)) (keys d)) ->
    keys (ProcessMgf.mark_targets ts d value) = keys d.
Proof.
  unfold ProcessMgf.mark_targets.
  induction ts as [|t ts IH]; intros d H; cbn [fold_left]; [reflexivity|].
  destruct (ProcessMgf.is_within_tolerance value (mz t) (tolerance t)
              (tolerance_type t)).
  - rewrite IH.
    + apply keys_set_present. apply H. left. reflexivity.
    + intros t' Ht'. rewrite keys_set_present by (apply H; left; reflexivity).
      apply H. right. exact Ht'.
  - apply IH. intros t' Ht'. apply H. right. exact Ht'.
Qed.

Lemma keys_target_hits (values : list (float * float)) :
  keys (ProcessMgf.target_hits targets values)
  = keys (ProcessMgf.no_hits targets).
Proof.
  unfold ProcessMgf.target_hits.
  assert (forall d : dict pyval,
             keys d = keys (ProcessMgf.no_hits targets) ->
             keys (fold_left
                     (fun d p => ProcessMgf.mark_targets targets d (fst p))
                     values d)
             = keys (ProcessMgf.no_hits targets)) as G.
  { induction values as [|p values IH]; intros d E; cbn [fold_left];
      [exact E|].
    apply IH. rewrite keys_mark_targets; [exact E|].
    intros t Ht. rewrite E. apply In_keys_no_hits. exact Ht. }
  apply G. reflexivity.
Qed.

Lemma NoDup_keys_no_hits : NoDup (keys (ProcessMgf.no_hits targets)).
Proof.
  unfold ProcessMgf.no_hits.
  apply (NoDup_no_hits_from targets []). constructor.
Qed.

(** Every record of process_mgf.py has the same keys, in the same order. *)
Lemma keys_record_of (st : ProcessMgf.state) (scan : string) (pepmass : float) :
  keys (ProcessMgf.record_of targets st scan pepmass) = mgf_fieldnames targets.
Proof.
  unfold ProcessMgf.record_of, mgf_fieldnames.
  rewrite keys_update.
  - rewrite keys_target_hits. reflexivity.
  - rewrite keys_target_hits. apply NoDup_keys_no_hits.
  - rewrite keys_target_hits. intros k Hk.
    destruct (keys_no_hits_are_texts k Hk) as (t & _ & <-).
    cbn [keys map fst In].
    intros [X|[X|[X|[X|[X|[]]]]]];
      symmetry in X; revert X; apply py_str_neq; reflexivity.
Qed.

Lemma mgf_step_records (st st' : ProcessMgf.state) (raw : string) :
  ProcessMgf.step targets st raw = Ok st' ->
  Forall (fun r => keys r = mgf_fieldnames targets) (ProcessMgf.precursor_data st) ->
  Forall (fun r => keys r = mgf_fieldnames targets) (ProcessMgf.precursor_data st').
Proof.
  unfold ProcessMgf.step. intros H F.
  repeat (cbn [bind try_except pyexn_eqb] in H;
          match type of H with
          | (if ?b then _ else _) = Ok _ => destruct b
          | bind ?m _ = Ok _ => destruct m; [|discriminate H]
          | match ?l with [] => _ | _ :: _ => _ end = Ok _ => destruct l
          | try_except (bind ?m _) _ _ = Ok _ => destruct m as [?|[]]
          end);
    cbn [bind try_except pyexn_eqb] in H;
    inv_result; cbn [ProcessMgf.precursor_data]; try exact F.
  apply Forall_app. split; [exact F|].
  destruct (ProcessMgf.scan_number st) as [scan|]; [|constructor].
  destruct (ProcessMgf.precursor_mz st) as [pepmass|]; [|constructor].
  destruct (truthy scan); [|constructor].
  constructor; [apply keys_record_of|constructor].
Qed.

Lemma mgf_run_records (lines : list string) :
  forall st st',
    ProcessMgf.run targets st lines = Ok st' ->
    Forall (fun r => keys r = mgf_fieldnames targets)
           (ProcessMgf.precursor_data st) ->
    Forall (fun r => keys r = mgf_fieldnames targets)
           (ProcessMgf.precursor_data st').
Proof.
  induction lines as [|raw lines IH]; intros st st' H F;
    cbn [ProcessMgf.run] in H.
  - inv_result. exact F.
  - destruct (ProcessMgf.step targets st raw) as [s1|e] eqn:S1;
      [|discriminate H].
    cbn [bind] in H. apply (IH s1 st' H).
    exact (mgf_step_records st s1 raw S1 F).
Qed.

Lemma existsb_self (l : list string) :
  forallb (fun k => existsb (String.eqb k) l) l = true.
Proof.
  apply forallb_forall. intros k H. apply existsb_exists.
  exists k. split; [exact H|apply String.eqb_refl].
Qed.

Lemma writerows_same_keys (fieldnames : list string)
  (data : list (dict pyval)) :
  Forall (fun r => keys r = fieldnames) data ->
  exists rows,
    ProcessMgf.writerows fieldnames data = Ok rows
    /\ List.length rows = List.length data
    /\ Forall (fun row => List.length row = List.length fieldnames) rows.
Proof.
  induction 1 as [|r data K _ (rows & E & L & F)]; cbn [ProcessMgf.writerows].
  - exists []. repeat split. constructor.
  - unfold ProcessMgf.dict_to_list. rewrite K, existsb_self. cbn [bind].
    rewrite E. cbn [bind]. eexists. split; [reflexivity|].
    split; [cbn [List.length]; rewrite L; reflexivity|].
    constructor; [apply length_map|exact F].
Qed.

(** The export of the records of the parser. *)
Lemma mgf_export_of_parsed (lines : list string) (rows : list (dict pyval)) :
  ProcessMgf.parse_mgf lines targets = Ok rows ->
  exists out,
    ProcessMgf.export_to_csv rows = Ok out
    /\ match out with
       | None => rows = []
       | Some table =>
           hd_error table = Some (mgf_fieldnames targets)
           /\ List.length table = S (List.length rows)
           /\ Forall (fun row => List.length row
                                 = List.length (mgf_fieldnames targets))
                     table
       end.
Proof.
  intros H. unfold ProcessMgf.parse_mgf in H.
  destruct (ProcessMgf.run targets ProcessMgf.initial lines) as [st|e] eqn:R;
    [|discriminate H].
  cbn [bind] in H. inv_result.
  pose proof (mgf_run_records lines _ st R (Forall_nil _)) as F.
  unfold ProcessMgf.export_to_csv.
  destruct (ProcessMgf.precursor_data st) as [|first data] eqn:D.
  - exists None. split; reflexivity.
  - inversion F as [|? ? K _]; subst. rewrite K.
    destruct (writerows_same_keys (mgf_fieldnames targets) (first :: data) F)
      as (out & E & L & G).
    rewrite E. cbn [bind]. eexists. split; [reflexivity|].
    split; [reflexivity|]. split; [cbn [List.length]; rewrite L; reflexivity|].
    constructor; [reflexivity|exact G].
Qed.

End MgfExportLemmas.

(** X15. The export of process_mgf.py never fails on the records of its
    parser: every record has the same columns, so no row holds a key the
    header lacks.  The table is rectangular; its header is the five base
    names followed by the texts of the targets, a text that several
    targets share appearing once. *)
Theorem process_mgf_export_never_fails (targets : list target)
  (lines : list string) (rows : list (PyDict.dict pyval)) :
  ProcessMgf.parse_mgf lines targets = Ok rows ->
  NoDup (mgf_fieldnames targets)
  /\ (forall t, In t targets -> In (py_str (mz t)) (mgf_fieldnames targets))
  /\ exists out,
       ProcessMgf.export_to_csv rows = Ok out
       /\ match out with
          | None => rows = []
          | Some table =>
              hd_error table = Some (mgf_fieldnames targets)
              /\ List.length table = S (List.length rows)
              /\ Forall (fun row => List.length row
                                    = List.length (mgf_fieldnames targets))
                        table
          end.
Proof.
  intros H. split; [|split].
  - unfold mgf_fieldnames. apply NoDup_app.
    + repeat constructor; cbn [In]; intros X;
        repeat (destruct X as [X|X]; [discriminate X|]); exact X.
    + apply NoDup_keys_no_hits.
    + intros k Hb Hk.
      destruct (keys_no_hits_are_texts targets k Hk) as (t & _ & <-).
      cbn [In] in Hb.
      destruct Hb as [X|[X|[X|[X|[X|[]]]]]];
        symmetry in X; revert X; apply py_str_neq; reflexivity.
  - intros t Ht. unfold mgf_fieldnames. apply in_or_app. right.
    apply In_keys_no_hits. exact Ht.
  - exact (mgf_export_of_parsed targets lines rows H).
Qed.

Lemma process_mgf_export_never_fails_witness :
  NoDup (mgf_fieldnames twin_targets)
  /\ (forall t, In t twin_targets
                -> In (py_str (mz t)) (mgf_fieldnames twin_targets))
  /\ exists out,
       ProcessMgf.export_to_csv (mgf_rows twin_targets short_block) = Ok out
       /\ match out with
          | None => mgf_rows twin_targets short_block = []
          | Some table =>
              hd_error table = Some (mgf_fieldnames twin_targets)
              /\ List.length table
                 = S (List.length (mgf_rows twin_targets short_block))
              /\ Forall (fun row => List.length row
                                    = List.length (mgf_fieldnames twin_targets))
                        table
          end.
Proof.
  apply (process_mgf_export_never_fails twin_targets short_block
           (mgf_rows twin_targets short_block)).
  vm_compute. reflexivity.
Defined.

(** ** Errors that escape process_mgf.py *)

Lemma mgf_step_title (targets : list target) (st : ProcessMgf.state)
  (raw : string) :
  ProcessMgf.inside_ion_block st = true ->
  startswith "TITLE=" (strip raw) = true ->
  contains "scan=" (strip raw) = true ->
  ProcessMgf.step targets st raw
  = (s <- ProcessMgf.scan_expr (strip raw) ;;
     Ok {| ProcessMgf.inside_ion_block := ProcessMgf.inside_ion_block st;
           ProcessMgf.scan_number := Some s;
           ProcessMgf.precursor_mz := ProcessMgf.precursor_mz st;
           ProcessMgf.intensity := ProcessMgf.intensity st;
           ProcessMgf.rt := ProcessMgf.rt st;
           ProcessMgf.ms2_sum := ProcessMgf.ms2_sum st;
           ProcessMgf.mz_values := ProcessMgf.mz_values st;
           ProcessMgf.precursor_data := ProcessMgf.precursor_data st |}).
Proof.
  intros I T C. unfold ProcessMgf.step. rewrite I.
  destruct (startswith_cons_inv _ _ _ T) as (l & E & _).
  rewrite E in T, C |- *.
  replace (String.eqb (String "T" l) "BEGIN IONS") with false by reflexivity.
  rewrite T, C. reflexivity.
Qed.

(** X16. In process_mgf.py a title line, read inside a block, whose last
    marker is followed by no key raises [IndexError], and the parser
    returns nothing: nothing there catches it. *)
Theorem process_mgf_title_without_key_raises (targets : list target)
  (pre : list string) (raw : string) (rest : list string)
  (st : ProcessMgf.state) (a : string) :
  ProcessMgf.run targets ProcessMgf.initial pre = Ok st ->
  ProcessMgf.inside_ion_block st = true ->
  startswith "TITLE=" (strip raw) = true ->
  contains "scan=" (strip raw) = true ->
  index_last (split "scan=" (strip raw)) = Ok a ->
  split_ws (strip a) = [] ->
  ProcessMgf.parse_mgf (pre ++ raw :: rest) targets = Raise IndexError.
Proof.
  intros R I T C L W. unfold ProcessMgf.parse_mgf.
  rewrite mgf_run_app, R. cbn [bind ProcessMgf.run].
  rewrite (mgf_step_title targets st raw I T C).
  unfold ProcessMgf.scan_expr. rewrite L. cbn [bind]. rewrite W. reflexivity.
Qed.

Lemma process_mgf_title_without_key_raises_witness :
  ProcessMgf.parse_mgf (["BEGIN IONS"] ++ "TITLE=scan=" :: tl (tl sample_body)
                                       ++ [sample_end]) []
  = Raise IndexError.
Proof.
  apply (process_mgf_title_without_key_raises [] ["BEGIN IONS"] "TITLE=scan="
           (tl (tl sample_body) ++ [sample_end])
           (mgf_state_after [] ["BEGIN IONS"]) EmptyString).
  - reflexivity.
  - reflexivity.
  - reflexivity.
  - reflexivity.
  - reflexivity.
  - reflexivity.
Defined.

(** X17. In process_mgf.py a precursor line, read inside a block, whose
    first field is a number and whose second field is there but is no
    number raises [ValueError], and the parser returns nothing, where
    process_mgf_mzid.py drops the block and goes on. *)
Theorem process_mgf_bad_pepmass_raises (targets : list target)
  (pre : list string) (raw : string) (more : list string)
  (st : ProcessMgf.state) (f v0 v1 : string) (rest : list string) (x : float) :
  ProcessMgf.run targets ProcessMgf.initial pre = Ok st ->
  ProcessMgf.inside_ion_block st = true ->
  is_pepmass raw = true ->
  index_last (split "=" (strip raw)) = Ok f ->
  split_ws (strip f) = v0 :: v1 :: rest ->
  py_float v0 = Some x ->
  py_float v1 = None ->
  ProcessMgf.parse_mgf (pre ++ raw :: more) targets = Raise ValueError.
Proof.
  unfold is_pepmass. intros R I P L W V0 V1. unfold ProcessMgf.parse_mgf.
  rewrite mgf_run_app, R. cbn [bind ProcessMgf.run].
  unfold ProcessMgf.step. rewrite I.
  destruct (startswith_cons_inv _ _ _ P) as (l & E & _).
  rewrite E in P, L |- *.
  replace (String.eqb (String "P" l) "BEGIN IONS") with false by reflexivity.
  replace (startswith "TITLE=" (String "P" l)) with false by reflexivity.
  replace (startswith "RTINSECONDS=" (String "P" l)) with false by reflexivity.
  rewrite P, L. cbn [bind]. rewrite W. cbn [index nth_error bind].
  unfold float_str. rewrite V0. cbn [bind List.length Nat.ltb Nat.leb].
  rewrite V1. reflexivity.
Qed.

Lemma process_mgf_bad_pepmass_raises_witness :
  ProcessMgf.parse_mgf (["BEGIN IONS"] ++ sample_bad_intensity :: [sample_end]) []
  = Raise ValueError.
Proof.
  apply (process_mgf_bad_pepmass_raises [] ["BEGIN IONS"] sample_bad_intensity
           [sample_end] (mgf_state_after [] ["BEGIN IONS"])
           "500.25 n/a" "500.25" "n/a" [] (float_lit "500.25")).
  - reflexivity.
  - reflexivity.
  - reflexivity.
  - reflexivity.
  - reflexivity.
  - vm_compute. reflexivity.
  - reflexivity.
Defined.

(** ** The records of a file, part by part *)

Section ComposeLemmas.

Import ProcessMgfMzid.

Variable targets : list target.

(** Records already written do not change how a line is read. *)
Lemma step_prepend (d : list (PyDict.dict pyval)) (st : state) (raw : string) :
  step targets (prepend d st) raw
  = match step targets st raw with
    | Ok st' => Ok (prepend d st')
    | Raise e => Raise e
    end.
Proof.
  unfold step. cbn [prepend inside_ion_block precursor_data].
  destruct (String.eqb (strip raw) "BEGIN IONS"); [reflexivity|].
  destruct (inside_ion_block st); [|reflexivity].
  destruct (startswith "TITLE=" (strip raw)).
  { unfold on_title. destruct (contains "scan=" (strip raw)); [|reflexivity].
    destruct (try_except (scan_expr (strip raw)) IndexError (Ok "Unknown"));
      reflexivity. }
  destruct (startswith "RTINSECONDS=" (strip raw)).
  { unfold on_rt.
    match goal with
    | |- bind ?m _ = _ => destruct m
    end; reflexivity. }
  destruct (startswith "PEPMASS=" (strip raw)).
  { unfold on_pepmass. destruct (pepmass_fields (strip raw)); [|reflexivity].
    cbn [bind].
    match goal with
    | |- bind ?m _ = _ => destruct m
    end; reflexivity. }
  destruct (String.eqb (strip raw) "END IONS").
  { unfold on_end, prepend. cbn. rewrite app_assoc. reflexivity. }
  unfold on_ion. destruct (split_ws (strip raw)) as [|p0 [|p1 [|p2 ps]]];
    try reflexivity.
  destruct (float_str p0) as [m|[]]; try reflexivity.
  destruct (float_str p1) as [i|[]]; reflexivity.
Qed.

Lemma run_prepend (d : list (PyDict.dict pyval)) (lines : list string) :
  forall st,
    run targets (prepend d st) lines
    = match run targets st lines with
      | Ok st' => Ok (prepend d st')
      | Raise e => Raise e
      end.
Proof.
  induction lines as [|raw lines IH]; intros st; cbn [run]; [reflexivity|].
  rewrite step_prepend.
  destruct (step targets st raw) as [s1|e]; cbn [bind]; [apply IH|reflexivity].
Qed.

Lemma In_ion_pairs_inv (body : list string) (p : float * float) :
  In p (ion_pairs body) -> exists raw, In raw body /\ ion_pair raw = Some p.
Proof.
  induction body as [|l body IH]; cbn [ion_pairs]; [intros []|].
  destruct (ion_pair l) as [q|] eqn:E.
  - intros [H|H].
    + subst q. exists l. split; [left; reflexivity|exact E].
    + destruct (IH H) as (raw & Hr & Er). exists raw.
      split; [right; exact Hr|exact Er].
  - intros H. destruct (IH H) as (raw & Hr & Er). exists raw.
    split; [right; exact Hr|exact Er].
Qed.

End ComposeLemmas.

(** X18. The records of a file are those of its first part followed by
    those of the rest, when the rest opens with a begin marker; and when
    the rest alone ends the run, so does the whole file. *)
Theorem records_compose_at_begin (targets : list target)
  (pre : list string) (b : string) (rest : list string)
  (rows0 : list (PyDict.dict pyval)) :
  ProcessMgfMzid.parse_mgf pre targets = Ok rows0 ->
  is_begin b = true ->
  ProcessMgfMzid.parse_mgf (pre ++ b :: rest) targets
  = match ProcessMgfMzid.parse_mgf (b :: rest) targets with
    | Ok rows1 => Ok (rows0 ++ rows1)
    | Raise e => Raise e
    end.
Proof.
  unfold ProcessMgfMzid.parse_mgf, is_begin. intros H B. rewrite run_app.
  destruct (ProcessMgfMzid.run targets ProcessMgfMzid.initial pre) as [st0|e];
    [|discriminate H].
  inv_result. cbn [bind ProcessMgfMzid.run]. unfold ProcessMgfMzid.step.
  rewrite B. cbn [bind ProcessMgfMzid.precursor_data ProcessMgfMzid.initial].
  match goal with
  | |- context [ProcessMgfMzid.run targets
                  {| ProcessMgfMzid.inside_ion_block := true;
                     ProcessMgfMzid.scan_number := None;
                     ProcessMgfMzid.rt := None;
                     ProcessMgfMzid.precursor_mz := None;
                     ProcessMgfMzid.intensity := None;
                     ProcessMgfMzid.mz_values := [];
                     ProcessMgfMzid.summed_ms2_intensity := VInt 0;
                     ProcessMgfMzid.precursor_data := [] |} rest] =>
      set (fresh := {| ProcessMgfMzid.inside_ion_block := true;
                       ProcessMgfMzid.scan_number := None;
                       ProcessMgfMzid.rt := None;
                       ProcessMgfMzid.precursor_mz := None;
                       ProcessMgfMzid.intensity := None;
                       ProcessMgfMzid.mz_values := [];
                       ProcessMgfMzid.summed_ms2_intensity := VInt 0;
                       ProcessMgfMzid.precursor_data := [] |})
  end.
  match goal with
  | |- context [ProcessMgfMzid.run targets ?s rest] =>
      lazymatch s with
      | fresh => fail
      | _ => replace s with (prepend (ProcessMgfMzid.precursor_data st0) fresh)
               by (unfold prepend, fresh; cbn; rewrite app_nil_r; reflexivity)
      end
  end.
  rewrite run_prepend.
  destruct (ProcessMgfMzid.run targets fresh rest) as [s1|e]; reflexivity.
Qed.

Lemma records_compose_at_begin_witness :
  ProcessMgfMzid.parse_mgf
    ((sample_block ++ [sample_end]) ++ "BEGIN IONS" :: (sample_body ++ [sample_end]))
    [sample_target]
  = match ProcessMgfMzid.parse_mgf
            ("BEGIN IONS" :: (sample_body ++ [sample_end])) [sample_target] with
    | Ok rows1 =>
        Ok (ProcessMgfMzid.precursor_data
              (state_after [sample_target] (sample_block ++ [sample_end]))
            ++ rows1)
    | Raise e => Raise e
    end.
Proof.
  apply (records_compose_at_begin [sample_target] (sample_block ++ [sample_end])
           "BEGIN IONS" (sample_body ++ [sample_end])).
  - vm_compute. reflexivity.
  - reflexivity.
Defined.

(** X19. No hit is reported without a peak: when the record a block adds
    has "yes" in the column of a target, some fragment line of that block
    lies within the tolerance of a target with the same text. *)
Theorem target_hit_has_a_peak (targets : list target)
  (pre : list string) (b : string) (body : list string) (e : string)
  (st0 st' : ProcessMgfMzid.state) (r : PyDict.dict pyval) (t : target) :
  ProcessMgfMzid.run targets ProcessMgfMzid.initial pre = Ok st0 ->
  is_begin b = true ->
  block_body body ->
  is_end e = true ->
  ProcessMgfMzid.run targets ProcessMgfMzid.initial (pre ++ b :: body ++ [e])
  = Ok st' ->
  ProcessMgfMzid.precursor_data st' = ProcessMgfMzid.precursor_data st0 ++ [r] ->
  In t targets ->
  PyDict.get r (py_str (mz t)) = Some (VStr "yes") ->
  exists raw m i t',
    In raw body
    /\ ion_pair raw = Some (m, i)
    /\ In t' targets
    /\ py_str (mz t') = py_str (mz t)
    /\ ProcessMgfMzid.is_within_tolerance m (mz t') (tolerance t')
         (tolerance_type t') = true.
Proof.
  intros R0 B Hbody E R D Ht G.
  destruct (run_block targets pre b body e st0 st' R0 B Hbody E R)
    as (st & O & M & _ & D0).
  rewrite <- D0 in D.
  destruct (on_end_record targets st st' r O D)
    as (scan & pepmass & _ & _ & _ & ->).
  assert (is_target_text targets (py_str (mz t)) = true) as T.
  { apply existsb_exists. exists t. split; [exact Ht|apply String.eqb_refl]. }
  rewrite (get_record_target targets st scan pepmass _ T) in G.
  destruct (matched targets (ProcessMgfMzid.mz_values st) (py_str (mz t)))
    eqn:Y; [|discriminate G].
  unfold matched in Y. apply existsb_exists in Y. destruct Y as ([m i] & Hp & Y).
  apply existsb_exists in Y. destruct Y as (t' & Ht' & Y).
  apply andb_true_iff in Y. destruct Y as [Y1 Y2].
  apply String.eqb_eq in Y1. rewrite M in Hp.
  destruct (In_ion_pairs_inv body (m, i) Hp) as (raw & Hr & Er).
  exists raw, m, i, t'. repeat split; assumption.
Qed.

Lemma target_hit_has_a_peak_witness :
  exists raw m i t',
    In raw sample_body
    /\ ion_pair raw = Some (m, i)
    /\ In t' [sample_target]
    /\ py_str (mz t') = py_str (mz sample_target)
    /\ ProcessMgfMzid.is_within_tolerance m (mz t') (tolerance t')
         (tolerance_type t') = true.
Proof.
  apply (target_hit_has_a_peak [sample_target] [] "BEGIN IONS" sample_body
           sample_end ProcessMgfMzid.initial
           (state_after [sample_target] (sample_block ++ [sample_end]))
           (first_record [sample_target] (sample_block ++ [sample_end]))
           sample_target).
  - reflexivity.
  - reflexivity.
  - repeat constructor.
  - reflexivity.
  - vm_compute. reflexivity.
  - vm_compute. reflexivity.
  - left. reflexivity.
  - vm_compute. reflexivity.
Defined.

(** ** The last precursor line of a block *)

Section PepmassLemmas.

Import ProcessMgfMzid.

Variable targets : list target.

Lemma step_keeps_precursor (st st' : state) (raw : string) :
  is_pepmass raw = false ->
  is_begin raw = false ->
  is_end raw = false ->
  step targets st raw = Ok st' ->
  precursor_mz st' = precursor_mz st
  /\ intensity st' = intensity st
  /\ inside_ion_block st' = inside_ion_block st
  /\ precursor_data st' = precursor_data st.
Proof.
  unfold is_pepmass, is_begin, is_end, step. intros P B E H.
  rewrite B in H.
  destruct (inside_ion_block st) eqn:J;
    [|inv_result; repeat split; exact J].
  destruct (startswith "TITLE=" (strip raw)).
  { destruct (on_title_shape _ _ _ H) as [->|(v & ->)];
      repeat split; exact J. }
  destruct (startswith "RTINSECONDS=" (strip raw)).
  { destruct (on_rt_shape _ _ _ H) as (v & ->). repeat split; exact J. }
  rewrite P, E in H.
  pose proof (on_ion_cases st (strip raw)) as C.
  destruct (split_ws (strip raw)) as [|p0 [|p1 [|p2 ps]]];
    try (rewrite C in H; inv_result; repeat split; exact J).
  destruct (py_float p0); [destruct (py_float p1)|];
    rewrite C in H; inv_result; repeat split; exact J.
Qed.

Lemma run_keeps_precursor (lines : list string) :
  Forall (fun raw => is_pepmass raw = false /\ is_begin raw = false
                     /\ is_end raw = false) lines ->
  forall st st',
    run targets st lines = Ok st' ->
    precursor_mz st' = precursor_mz st
    /\ intensity st' = intensity st
    /\ inside_ion_block st' = inside_ion_block st
    /\ precursor_data st' = precursor_data st.
Proof.
  induction 1 as [|raw lines (P & B & E) _ IH]; intros st st' H;
    cbn [run] in H.
  - inv_result. repeat split.
  - destruct (step targets st raw) as [s1|e] eqn:S1; [|discriminate H].
    cbn [bind] in H.
    destruct (step_keeps_precursor st s1 raw P B E S1) as (M1 & I1 & J1 & D1).
    destruct (IH s1 st' H) as (M2 & I2 & J2 & D2).
    rewrite M2, I2, J2, D2. repeat split; assumption.
Qed.

End PepmassLemmas.

(** X21. The last precursor line of a block decides: when it reads as
    one or two numbers and no other precursor line follows it before the
    end marker, the record the block adds has its first number as
    precursor m/z and its second number, or 0.0 when there is none, as
    precursor intensity. *)
Theorem last_pepmass_line_decides (targets : list target)
  (st st2 : ProcessMgfMzid.state) (raw v0 : string) (vs : list string)
  (m i : float) (more : list string) (e : string) (r : PyDict.dict pyval) :
  ProcessMgfMzid.inside_ion_block st = true ->
  is_pepmass raw = true ->
  ProcessMgfMzid.pepmass_fields (strip raw) = Ok (v0 :: vs) ->
  py_float v0 = Some m ->
  match vs with
  | [] => Some i = Some 0%float
  | v1 :: _ => py_float v1 = Some i
  end ->
  Forall (fun l => is_pepmass l = false /\ is_begin l = false
                   /\ is_end l = false) more ->
  is_end e = true ->
  ProcessMgfMzid.run targets st (raw :: more ++ [e]) = Ok st2 ->
  ProcessMgfMzid.precursor_data st2 = ProcessMgfMzid.precursor_data st ++ [r] ->
  PyDict.get r "pepmass" = Some (VFloat m)
  /\ PyDict.get r "intensity" = Some (VFloat i).
Proof.
  intros I P F V0 V1 M E R D. cbn [ProcessMgfMzid.run] in R.
  rewrite (step_pepmass targets st raw P I) in R.
  unfold ProcessMgfMzid.on_pepmass in R. rewrite F in R.
  cbn [bind index nth_error] in R. unfold float_str in R. rewrite V0 in R.
  cbn [bind] in R.
  assert ((if (1 <? List.length (v0 :: vs))%nat
           then v1 <- index (v0 :: vs) 1;;
                match py_float v1 with
                | Some f => Ok f
                | None => Raise ValueError
                end
           else Ok 0%float) = Ok i) as Hi.
  { destruct vs as [|v1 vs]; cbn.
    - inversion V1. reflexivity.
    - rewrite V1. reflexivity. }
  rewrite Hi in R. cbn [bind try_except fst snd] in R.
  rewrite run_app in R.
  destruct (ProcessMgfMzid.run targets
              (ProcessMgfMzid.set_pepmass st (Some m) (Some i)) more)
    as [s1|x] eqn:R1; [|discriminate R].
  cbn [bind ProcessMgfMzid.run] in R.
  destruct (run_keeps_precursor targets more M _ s1 R1) as (M1 & I1 & J1 & D1).
  cbn in M1, I1, J1, D1.
  rewrite (step_end targets s1 e E) in R by (rewrite J1; exact I).
  destruct (ProcessMgfMzid.on_end targets s1) as [s2|x] eqn:O; [|discriminate R].
  cbn [bind] in R. inv_result. rewrite <- D1 in D.
  destruct (on_end_record targets s1 st2 r O D)
    as (scan & pepmass & _ & _ & Mz & ->).
  rewrite M1 in Mz. inversion Mz. subst pepmass.
  rewrite !get_record_base by reflexivity.
  cbn [PyDict.get String.eqb Ascii.eqb Bool.eqb]. rewrite I1.
  split; reflexivity.
Qed.

Lemma last_pepmass_line_decides_witness :
  PyDict.get (first_record [] (sample_block ++ [sample_end])) "pepmass"
  = Some (VFloat (float_lit "500.25"))
  /\ PyDict.get (first_record [] (sample_block ++ [sample_end])) "intensity"
     = Some (VFloat (float_lit "1000")).
Proof.
  apply (last_pepmass_line_decides []
           (state_after [] ["BEGIN IONS"; "TITLE=run.raw scan=5";
                            "RTINSECONDS=120.5"])
           (state_after [] (sample_block ++ [sample_end]))
           "PEPMASS=500.25 1000" "500.25" ["1000"]
           (float_lit "500.25") (float_lit "1000")
           ["100.0 50"; "200.0 75"] sample_end).
  - reflexivity.
  - reflexivity.
  - reflexivity.
  - reflexivity.
  - vm_compute. reflexivity.
  - repeat constructor.
  - reflexivity.
  - vm_compute. reflexivity.
  - vm_compute. reflexivity.
Defined.
